(** * ms-purview-migrator: scraping and replay, verified against the source

    A shallow embedding of the TypeScript sources

      - [src/auth/login.ts], [src/msAuth/login.ts]   (interactive login)
      - the cases, templates and communications scrapers
      - [src/zubuApi/api.ts]                          (destination client)
      - [src/index.ts], [src/scraper.ts], [src/migrator.ts] (entry points)

    Every source function that awaits the browser, the network or the
    file system becomes a computation in a small state-and-exception
    monad.  The state holds the chronological trace of the external
    calls the program issued together with the file system; everything
    the outside world decides (does a click complete, which response
    arrives, what does the destination answer) is read from a [World]
    oracle indexed by the position of the call in the trace. *)

From Stdlib Require Import ZArith String Ascii List Bool Lia DecimalString.
From stdpp Require Import base strings gmap list.

Set Warnings "-register-all".
Local Open Scope string_scope.
Local Open Scope Z_scope.
Local Open Scope list_scope.

(* ===================================================================== *)
(** * JavaScript values as the program sees them                          *)
(* ===================================================================== *)

(** Values produced by [JSON.parse] and [response.json()].  Numbers are
    integers (the payloads the program touches only use [length]);
    strings are byte strings; an object keeps its fields in source order. *)
Inductive json : Type :=
| JNull
| JBool (b : bool)
| JNum (n : Z)
| JStr (s : string)
| JArr (items : list json)
| JObj (fields : list (string * json)).

(** A JavaScript value is a JSON value or [undefined]. *)
Definition value : Type := option json.
Definition undefined : value := None.

(** What a JavaScript [throw] carries in this program. *)
Inductive exn : Type :=
| TimeoutError                 (* Playwright wait that ran out of time *)
| TypeError                    (* property read on null or undefined *)
| SyntaxError                  (* body or file is not JSON *)
| NetworkError                 (* request.post rejected *)
| IOError                      (* fs call failed *)
| Error (msg : string)         (* new Error(msg) *)
| Rejected (b : bool).         (* reject(b) of a hand-made promise *)

Inductive outcome (A : Type) : Type :=
| Ok (a : A)
| Throw (e : exn).
Arguments Ok {A} a.
Arguments Throw {A} e.

Definition dq : string := String "034"%char EmptyString.
Definition nl : string := String "010"%char EmptyString.

Fixpoint assoc (k : string) (fs : list (string * json)) : value :=
  match fs with
  | [] => None
  | (k', v) :: rest => if String.eqb k k' then Some v else assoc k rest
  end.

Definition string_of_Z (n : Z) : string := NilZero.string_of_int (Z.to_int n).

(** [v.p]: reading a property.  Reading from [null] or [undefined]
    throws; arrays and strings answer [length]; anything else without
    the field answers [undefined]. *)
Definition get_prop (v : value) (p : string) : outcome value :=
  match v with
  | None => Throw TypeError
  | Some JNull => Throw TypeError
  | Some (JObj fs) => Ok (assoc p fs)
  | Some (JArr xs) =>
      if String.eqb p "length" then Ok (Some (JNum (Z.of_nat (length xs))))
      else Ok None
  | Some (JStr s) =>
      if String.eqb p "length" then Ok (Some (JNum (Z.of_nat (String.length s))))
      else Ok None
  | Some _ => Ok None
  end.

(** [v[i]]: indexed read. *)
Definition get_index (v : value) (i : nat) : outcome value :=
  match v with
  | None => Throw TypeError
  | Some JNull => Throw TypeError
  | Some (JArr xs) => Ok (nth_error xs i)
  | Some (JStr s) =>
      Ok (match String.get i s with
          | Some c => Some (JStr (String c EmptyString))
          | None => None
          end)
  | Some (JObj fs) => Ok (assoc (string_of_Z (Z.of_nat i)) fs)
  | Some _ => Ok None
  end.

(** Truthiness, as tested by [if (result.errors)]. *)
Definition truthy (v : value) : bool :=
  match v with
  | None => false
  | Some JNull => false
  | Some (JBool b) => b
  | Some (JNum n) => negb (n =? 0)
  | Some (JStr s) => negb (String.eqb s EmptyString)
  | Some (JArr _) => true
  | Some (JObj _) => true
  end.

Definition join (sep : string) (parts : list string) : string :=
  match parts with
  | [] => EmptyString
  | p :: rest => fold_left (fun acc q => acc +:+ sep +:+ q) rest p
  end.

(** String conversion of a template literal, [`${v}`]. *)
Fixpoint to_string_json (j : json) : string :=
  match j with
  | JNull => "null"
  | JBool true => "true"
  | JBool false => "false"
  | JNum n => string_of_Z n
  | JStr s => s
  | JArr xs =>
      join "," (List.map (fun x => match x with
                                   | JNull => EmptyString
                                   | _ => to_string_json x
                                   end) xs)
  | JObj _ => "[object Object]"
  end.

Definition to_string (v : value) : string :=
  match v with
  | None => "undefined"
  | Some j => to_string_json j
  end.

(** ** [JSON.stringify] *)

Definition hex_digit (n : nat) : ascii :=
  match n with
  | 0 => "0" | 1 => "1" | 2 => "2" | 3 => "3" | 4 => "4" | 5 => "5"
  | 6 => "6" | 7 => "7" | 8 => "8" | 9 => "9" | 10 => "a" | 11 => "b"
  | 12 => "c" | 13 => "d" | 14 => "e" | _ => "f"
  end%char%nat.

Definition escape_char (c : ascii) : string :=
  let n := nat_of_ascii c in
  if (n =? 34)%nat then "\" +:+ dq
  else if (n =? 92)%nat then "\\"
  else if (n =? 8)%nat then "\b"
  else if (n =? 12)%nat then "\f"
  else if (n =? 10)%nat then "\n"
  else if (n =? 13)%nat then "\r"
  else if (n =? 9)%nat then "\t"
  else if (n <? 32)%nat then
    "\u00" +:+ String (hex_digit (n / 16)) (String (hex_digit (n mod 16)) EmptyString)
  else String c EmptyString.

Fixpoint escape (s : string) : string :=
  match s with
  | EmptyString => EmptyString
  | String c rest => escape_char c +:+ escape rest
  end.

Definition quote (s : string) : string := dq +:+ escape s +:+ dq.

(** [stringify gap ind j] is [JSON.stringify(j, null, gap)] at the
    indentation [ind]; an empty [gap] gives the compact form. *)
Fixpoint stringify (gap ind : string) (j : json) {struct j} : string :=
  let ind' := ind +:+ gap in
  let wrap (l r : string) (parts : list string) : string :=
    match parts with
    | [] => l +:+ r
    | _ =>
        if String.eqb gap EmptyString
        then l +:+ join "," parts +:+ r
        else l +:+ nl +:+ ind' +:+ join ("," +:+ nl +:+ ind') parts
               +:+ nl +:+ ind +:+ r
    end in
  match j with
  | JNull => "null"
  | JBool true => "true"
  | JBool false => "false"
  | JNum n => string_of_Z n
  | JStr s => quote s
  | JArr xs => wrap "[" "]" (List.map (stringify gap ind') xs)
  | JObj fs =>
      wrap "{" "}"
        (List.map (fun kv => match kv with
                             | (k, v) =>
                                 quote k
                                 +:+ (if String.eqb gap EmptyString then ":" else ": ")
                                 +:+ stringify gap ind' v
                             end) fs)
  end.

(** [JSON.stringify(v)]: [undefined] stays [undefined]. *)
Definition JSON_stringify (v : value) : option string :=
  match v with
  | None => None
  | Some j => Some (stringify EmptyString EmptyString j)
  end.

(** [JSON.stringify(v, null, 2)] on a defined value. *)
Definition JSON_stringify_pretty (j : json) : string := stringify "  " EmptyString j.

(** [for (const x of v)]: arrays and strings can be iterated, anything
    else is not iterable. *)
Fixpoint chars (s : string) : list value :=
  match s with
  | EmptyString => []
  | String c rest => Some (JStr (String c EmptyString)) :: chars rest
  end.

Definition iterate (v : value) : outcome (list value) :=
  match v with
  | Some (JArr xs) => Ok (List.map Some xs)
  | Some (JStr s) => Ok (chars s)
  | _ => Throw TypeError
  end.

(** [v > 0] for the values a [length] read yields: a number on arrays
    and strings, [undefined] where there is no such field (NaN compares
    false), [null] and booleans by their numeric value.  A [length]
    field holding a string, array or object needs string-to-number
    conversion, which lies outside the integer model: such a value is
    not counted as positive. *)
Definition gt_zero (v : value) : bool :=
  match v with
  | Some (JNum n) => 0 <? n
  | Some (JBool b) => b
  | _ => false
  end.

(* ===================================================================== *)
(** * External calls, the world, and the monad                            *)
(* ===================================================================== *)

(** The three response URL patterns the scrapers wait for. *)
Inductive pattern : Type :=
| CasesPattern            (* .../ediscovery/v1/cases *)
| CommunicationsPattern   (* .../ediscovery/v1/cases('<id>')/communications *)
| TemplateDetailPattern.  (* .../ediscovery/v1/communicationtemplates('<id>') *)

(** The two GraphQL operations posted to the destination.  [detail] and
    [tenantId] may be [undefined], in which case the serialized request
    omits them. *)
Inductive request : Type :=
| AuthenticateUser (email password : string)
| CreateTemplate (authorization name : string) (detail : option string)
                 (tenantId : value).

(** One entry per call that leaves the program. *)
Inductive event : Type :=
| Launch (headless : bool)
| NewContext (option : string)
| NewPage
| Goto (url : string)
| Fill (selector text : string)
| Click (selector : string)
| WaitForSelector (selector : string) (timeout : Z)
| WaitForTimeout (ms : Z)
| WaitForURL (url : string) (timeout : Z)
| WaitForLoadState (state : string)
| IsVisible (selector : string) (timeout : Z)
| LocatorAll (selector : string)
| RowInnerText (row : nat)
| RowClick (row : nat)
| WaitForResponse (p : pattern) (timeout : Z)
| AwaitResponse (p : pattern)
| StorageState (path : string)
| Post (r : request)
| ReadDir (path : string)
| ReadFile (path : string)
| ExistsSync (path : string)
| MkDir (path : string)
| WriteFile (path content : string)
| AppendFile (path content : string)
| ContextClose
| BrowserClose
| ConsoleLog (msg : string)
| ConsoleError (msg : string).

(** A network response seen by [page.waitForResponse]: its body, when it
    is JSON. *)
Record Response : Type := mkResponse { body : option json }.

Inductive arrival : Type :=
| Arrives (r : Response)
| Never.

(** Result of [request.post]. *)
Inductive reply : Type :=
| Replies (r : Response)
| Unreachable.

(** Everything the outside decides.  The [nat] argument is the number of
    calls the program had issued when it made this one, so two calls of
    the same kind can be answered differently. *)
Record World : Type := mkWorld {
  completes : nat -> event -> bool;        (* false: the call throws *)
  visible : nat -> string -> bool;         (* locator.isVisible *)
  row_count : nat -> nat;                  (* size of locator.all() *)
  row_text : nat -> nat -> option string;  (* innerText of a row's first cell *)
  response : nat -> pattern -> arrival;    (* keyed by the arming call *)
  http : nat -> request -> reply;
  storage_state : nat -> string;           (* serialized browser context *)
  clock : nat -> string;                   (* new Date().toISOString() *)
  stack : exn -> string;                   (* error.stack *)
  parse : string -> option json;           (* JSON.parse; None: it throws *)
  readdir : nat -> string -> list string;  (* fs.readdirSync *)
  settles : nat -> bool                    (* the callback of an unawaited
                                              fs call has run *)
}.

Record State : Type := mkState {
  trace : list event;
  files : gmap string string
}.

Definition initial (fs : gmap string string) : State :=
  {| trace := []; files := fs |}.

Definition M (A : Type) : Type := State -> outcome A * State.

Definition ret {A} (a : A) : M A := fun st => (Ok a, st).

Definition throw {A} (e : exn) : M A := fun st => (Throw e, st).

Definition bind {A B} (m : M A) (k : A -> M B) : M B :=
  fun st =>
    match m st with
    | (Ok a, st') => k a st'
    | (Throw e, st') => (Throw e, st')
    end.

(** [try { m } catch (e) { h e }] *)
Definition try_catch {A} (m : M A) (h : exn -> M A) : M A :=
  fun st =>
    match m st with
    | (Ok a, st') => (Ok a, st')
    | (Throw e, st') => h e st'
    end.

Definition lift {A} (o : outcome A) : M A := fun st => (o, st).

Notation "'let*' x ':=' m 'in' k" := (bind m (fun x => k))
  (at level 10, x name, m at level 100, k at level 200,
   format "'[v' 'let*'  x  ':='  m  'in' '/' k ']'").
Notation "m '>>' k" := (bind m (fun _ => k))
  (at level 100, k at level 200, right associativity).

Definition push (e : event) (st : State) : State :=
  {| trace := trace st ++ [e]; files := files st |}.

Definition emit (e : event) : M unit := fun st => (Ok tt, push e st).

Definition now : M nat := fun st => (Ok (length (trace st)), st).

Fixpoint for_of {A S} (xs : list A) (s : S) (body : S -> A -> M S) : M S :=
  match xs with
  | [] => ret s
  | x :: rest => let* s' := body s x in for_of rest s' body
  end.

Definition for_each {A} (xs : list A) (body : A -> M unit) : M unit :=
  for_of xs tt (fun _ x => body x).

(** A pending [waitForResponse]: the pattern and the position of the
    arming call. *)
Record Promise : Type := mkPromise { armed_at : nat; awaits : pattern }.

(** Objects are truthy: the test [if (response)] on a resolved wait. *)
Definition response_truthy (r : Response) : bool := true.

(** Relative paths name files of the working directory: a leading
    [./] does not change the file meant. *)
Definition resolve (path : string) : string :=
  if String.prefix "./" path
  then String.substring 2 (String.length path - 2) path
  else path.

(** The two accesses to the file map. *)
Definition get_file (path : string) : M (option string) :=
  fun st => (Ok (files st !! resolve path), st).

Definition set_file (path content : string) : M unit :=
  fun st => (Ok tt, {| trace := trace st;
                       files := <[resolve path := content]> (files st) |}).

Section Primitives.
Variable w : World.

(** A browser or file-system call that completes or throws. *)
Definition call (e : event) (failure : exn) : M unit :=
  let* t := now in
  emit e >>
  if completes w t e then ret tt else throw failure.

Definition page (e : event) : M unit := call e TimeoutError.

(** [browser.newContext({ storageState: path })]: the saved state is
    read from the file at [path], and the call throws when there is no
    such file. *)
Definition newContext (storageState : string) : M unit :=
  let* saved := get_file storageState in
  match saved with
  | Some _ => page (NewContext storageState)
  | None => emit (NewContext storageState) >> throw IOError
  end.

Definition console_log (msg : string) : M unit := emit (ConsoleLog msg).
Definition console_error (msg : string) : M unit := emit (ConsoleError msg).

Definition isVisible (selector : string) (timeout : Z) : M bool :=
  let* t := now in
  emit (IsVisible selector timeout) >>
  ret (visible w t selector).

Definition locator_all (selector : string) : M nat :=
  let* t := now in
  emit (LocatorAll selector) >>
  ret (row_count w t).

Definition innerText (row : nat) : M string :=
  let* t := now in
  emit (RowInnerText row) >>
  match row_text w t row with
  | Some s => ret s
  | None => throw TimeoutError
  end.

(** [page.waitForResponse] without [await]: the wait is armed and the
    promise handed back.  The promise settles when it is awaited, which
    is all the scrapers do with it on the paths followed here.  A promise
    that is armed and then given up (the navigation between arming and
    awaiting throws, and the exception is caught) rejects with nobody
    listening; what Node does then, ending the process some time later,
    is not part of this model.  Only [scrapeCommunications] can give a
    wait up and go on; statements about what follows it say that the
    navigation completes. *)
Definition waitForResponse (p : pattern) (timeout : Z) : M Promise :=
  let* t := now in
  emit (WaitForResponse p timeout) >>
  ret (mkPromise t p).

Definition await (pr : Promise) : M Response :=
  emit (AwaitResponse (awaits pr)) >>
  match response w (armed_at pr) (awaits pr) with
  | Arrives r => ret r
  | Never => throw TimeoutError
  end.

(** [response.json()] *)
Definition response_json (r : Response) : M json :=
  match body r with
  | Some j => ret j
  | None => throw SyntaxError
  end.

Definition post (r : request) : M Response :=
  let* t := now in
  emit (Post r) >>
  match http w t r with
  | Replies resp => ret resp
  | Unreachable => throw NetworkError
  end.

Definition writeFileSync (path content : string) : M unit :=
  call (WriteFile path content) IOError >>
  set_file path content.

Definition existsSync (path : string) : M bool :=
  emit (ExistsSync path) >>
  let* found := get_file path in
  ret (match found with Some _ => true | None => false end).

(** [JSON.parse(fs.readFileSync(path, 'utf-8'))] *)
Definition read_json (path : string) : M json :=
  emit (ReadFile path) >>
  let* found := get_file path in
  match found with
  | None => throw IOError
  | Some text =>
      match parse w text with
      | Some j => ret j
      | None => throw SyntaxError
      end
  end.

Definition readdirSync (path : string) : M (list string) :=
  let* t := now in
  call (ReadDir path) IOError >>
  ret (readdir w t path).

(** [fs.appendFile(path, text, callback)].  The caller does not wait
    for it: the call only starts the append.  Whether the text is in the
    file once the run is looked at, and whether the callback has run by
    then, is for the world to say.  A callback that has run receives the
    failure, if any; it is recorded at the call, its place in the real
    output being somewhere later. *)
Definition appendFile (path text : string) (callback : bool -> M unit) : M unit :=
  let* t := now in
  emit (AppendFile path text) >>
  let landed := completes w t (AppendFile path text) in
  (if landed then
     let* old := get_file path in
     set_file path (default EmptyString old +:+ text)
   else ret tt) >>
  if settles w t then callback (negb landed) else ret tt.
End Primitives.

(** Configuration read from the process environment. *)
Record Env : Type := mkEnv {
  env_username : string;        (* process.env.username *)
  env_password : string;        (* process.env.password *)
  env_tenant_id : string;       (* process.env.tenant_id *)
  MS_USERNAME : string;
  MS_PASSWORD : string;
  MS_TENANT_ID : string;
  ZUBU_API_URL : string;
  ZUBU_USERNAME : string;
  ZUBU_PASSWORD : string
}.

Definition login_url : string := "https://login.microsoftonline.com/".
Definition process_auth_url : string :=
  "https://login.microsoftonline.com/common/SAS/ProcessAuth".
Definition loginfmt_input : string := "input[name=" +:+ dq +:+ "loginfmt" +:+ dq +:+ "]".
Definition passwd_input : string := "input[name=" +:+ dq +:+ "passwd" +:+ dq +:+ "]".
Definition submit_input : string := "input[type=" +:+ dq +:+ "submit" +:+ dq +:+ "]".
Definition has_text (tag text : string) : string :=
  tag +:+ ":has-text(" +:+ dq +:+ text +:+ dq +:+ ")".

(* ===================================================================== *)
(** * src/auth/login.ts                                                   *)
(* ===================================================================== *)

Module Auth.
Section MSLogin.
Variable w : World.
Variable env : Env.

Definition username : string := env_username env.
Definition password : string := env_password env.

Definition goto : M unit :=
  page w (Goto login_url) >>
  console_log ("Navigating to Microsoft login page for user: " +:+ username).

Definition handle2FA : M unit :=
  try_catch
    (console_log "Please complete the two-factor authentication for your Microsoft account." >>
     console_log "Waiting for user to complete 2FA..." >>
     page w (WaitForURL process_auth_url 60000) >>
     page w (WaitForLoadState "networkidle") >>
     console_log ("Login successful for user: " +:+ username))
    (fun error =>
       console_error ("Failed to handle two-factor authentication for user: " +:+ username)).

Definition authenticate : M bool :=
  try_catch
    (page w (Fill loginfmt_input username) >>
     page w (Click submit_input) >>
     console_log ("Entered username: " +:+ username) >>
     page w (WaitForSelector passwd_input 5000) >>
     page w (Fill passwd_input password) >>
     page w (Click submit_input) >>
     console_log ("Entered password for user: " +:+ username) >>
     try_catch handle2FA
       (fun error => console_error ("2FA handling failed for user: " +:+ username)) >>
     ret true)
    (fun error =>
       console_error ("Login failed for user: " +:+ username) >>
       throw (Rejected false)).

Definition session_path : string := "./sessions/" +:+ username +:+ ".json".

Definition saveSession : M unit :=
  let* t := now in
  page w (StorageState session_path) >>
  set_file session_path (storage_state w t) >>
  console_log ("Session saved for user: " +:+ username).
End MSLogin.
End Auth.

(* ===================================================================== *)
(** * src/msAuth/login.ts                                                 *)
(* ===================================================================== *)

Module MsAuth.
Section MSLogin.
Variable w : World.
Variable env : Env.

Definition username : string := MS_USERNAME env.
Definition password : string := MS_PASSWORD env.

Definition goto : M unit :=
  page w (Goto login_url) >>
  console_log ("Navigating to Microsoft login page for user: " +:+ username).

Definition isAccountFound : M bool := isVisible w "text=Pick an account" 5000.

Definition enterCredentials : M unit :=
  let* found := isAccountFound in
  (if found then
     console_log ("Account found for user: " +:+ username) >>
     console_log ("Account found for user: " +:+ username) >>
     page w (Click ("text=" +:+ username)) >>
     console_log ("Clicked on account: " +:+ username)
   else
     page w (Fill loginfmt_input username) >>
     page w (Click submit_input) >>
     console_log ("Entered username: " +:+ username)) >>
  page w (WaitForSelector passwd_input 5000) >>
  page w (Fill passwd_input password) >>
  page w (Click submit_input) >>
  console_log ("Entered password for user: " +:+ username).

Definition handle2FA : M unit :=
  try_catch
    (console_log "Please complete the two-factor authentication for your Microsoft account." >>
     console_log "Waiting for user to complete 2FA..." >>
     page w (WaitForURL process_auth_url 60000) >>
     page w (WaitForLoadState "networkidle") >>
     console_log ("Login successful for user: " +:+ username))
    (fun error =>
       console_error ("Failed to handle two-factor authentication for user: " +:+ username)).

Definition authenticate : M bool :=
  try_catch
    (enterCredentials >>
     try_catch handle2FA
       (fun error => console_error ("2FA handling failed for user: " +:+ username)) >>
     ret true)
    (fun error =>
       console_error ("Login failed for user: " +:+ username) >>
       throw (Rejected false)).

Definition session_path : string := "./sessions/" +:+ username +:+ ".json".

Definition saveSession : M unit :=
  let* t := now in
  page w (StorageState session_path) >>
  set_file session_path (storage_state w t) >>
  console_log ("Session saved for user: " +:+ username).
End MSLogin.
End MsAuth.

(* ===================================================================== *)
(** * The cases scraper (class MSEDiscoveryCasesScraper)                  *)
(* ===================================================================== *)

Module Cases.
Section Scraper.
Variable w : World.
Variable env : Env.

Definition tenantId : string := MS_TENANT_ID env.

Definition goto : M unit :=
  page w (Goto ("https://purview.microsoft.com/ediscovery/advancedediscovery?viewid=Cases&tid="
                +:+ tenantId)).

Definition scrapeCases : M value :=
  let* casesPromise := waitForResponse CasesPattern 45000 in
  goto >>
  console_log "Waiting to capture the cases list..." >>
  let* response := await w casesPromise in
  if response_truthy response then
    let* parsed := response_json response in
    let* casesData := lift (get_prop (Some parsed) "value") in
    let* len := lift (get_prop casesData "length") in
    console_log ("Captured " +:+ to_string len +:+ " cases from Microsoft E-Discovery.") >>
    ret casesData
  else
    console_error "Failed to scrape cases from Microsoft E-Discovery." >>
    ret (Some (JArr [])).
End Scraper.
End Cases.

(* ===================================================================== *)
(** * The template scraper (class MSEDiscoveryTemplateScraper)            *)
(* ===================================================================== *)

Module Templates.
Section Scraper.
Variable w : World.
Variable env : Env.

Definition tenantId : string := env_tenant_id env.

Definition details_row : string := "[data-automationid=" +:+ dq +:+ "DetailsRow" +:+ dq +:+ "]".
Definition editButton : string := has_text "button" "Edit".
Definition cancelButton : string := has_text "button" "Cancel".

Definition handlePopup : M unit :=
  page w (Click (has_text "button" "Get started")) >>
  console_log "Clicked on Get started button" >>
  page w (WaitForTimeout 2000) >>
  page w (Click (has_text "button" "Done")) >>
  console_log "Clicked on Done button" >>
  page w (WaitForTimeout 2000).

Definition goto : M unit :=
  page w (Goto ("https://purview.microsoft.com/ediscovery/advancedediscovery/globalsettings?viewid=Overview&tid="
                +:+ tenantId)) >>
  console_log "Navigating to Microsoft E-Discovery page" >>
  handlePopup >>
  page w (WaitForSelector "text=Communication Library" 20000) >>
  console_log "E-Discovery page loaded successfully".

Definition clickOnCommunicationLibrary : M unit :=
  page w (Click "#CommunicationLibrary") >>
  console_log "Clicked on Communication Library" >>
  page w (WaitForSelector details_row 10000).

(** Body of the loop over [templateRows]; [templates] is the array
    being filled. *)
Definition scrape_row (templates : list json) (row : nat) : M (list json) :=
  let* templateName := innerText w row in
  console_log ("Found template: " +:+ templateName) >>
  page w (RowClick row) >>
  let* templatePromise := waitForResponse TemplateDetailPattern 15000 in
  page w (Click editButton) >>
  console_log ("Clicked on Edit for template: " +:+ templateName) >>
  console_log ("Waiting for response for template: " +:+ templateName) >>
  let* response := await w templatePromise in
  console_log ("Response received for template: " +:+ templateName) >>
  let* templates' :=
    (if response_truthy response then
       let* templateData := response_json response in
       console_log ("Template data for " +:+ templateName +:+ " scraped successfully.") >>
       ret (templates ++ [templateData])%list
     else
       console_error ("Failed to scrape template data for " +:+ templateName +:+ ".") >>
       ret templates) in
  page w (Click cancelButton) >>
  console_log ("Clicked on Cancel for template: " +:+ templateName) >>
  ret templates'.

Definition scrapeTemplates : M (list json) :=
  let* rows := locator_all w details_row in
  let* templates := for_of (seq 0 rows) [] scrape_row in
  console_log ("Total templates found: " +:+ string_of_Z (Z.of_nat (length templates))) >>
  ret templates.
End Scraper.
End Templates.

(* ===================================================================== *)
(** * src/msEdiscovery/communications.ts                                  *)
(* ===================================================================== *)

Module Communications.
Section Scraper.
Variable w : World.
Variable env : Env.

Definition tenantId : string := MS_TENANT_ID env.
Definition logFilePath : string := "error_log.txt".

(** The scraper is handed [{ id, name }]. *)
Record Case : Type := mkCase { id : value; name : value }.

Definition goto (eDiscoveryCase : Case) : M unit :=
  page w (Goto ("https://purview.microsoft.com/ediscovery/advancedediscovery/cases/v2/"
                +:+ to_string (id eDiscoveryCase) +:+ "?tid=" +:+ tenantId
                +:+ "&casename=" +:+ to_string (name eDiscoveryCase)
                +:+ "&casesworkbench=CommunicationsTab")).

Definition logError (message : string) (error : exn) : M unit :=
  console_error ("Error: " +:+ message) >>
  let* t := now in
  let logMessage := clock w t +:+ " - " +:+ message +:+ nl +:+ stack w error +:+ nl +:+ nl in
  appendFile w logFilePath logMessage
    (fun err =>
       if err then console_error "Failed to write to log file:"
       else console_log ("Error logged to file: " +:+ logFilePath)).

Definition scrapeCommunications (eDiscoveryCase : Case) : M value :=
  try_catch
    (let* communicationsPromise := waitForResponse CommunicationsPattern 45000 in
     goto eDiscoveryCase >>
     let* response := await w communicationsPromise in
     if response_truthy response then
       let* parsed := response_json response in
       let* communicationsData := lift (get_prop (Some parsed) "value") in
       let* len := lift (get_prop communicationsData "length") in
       console_log ("Scraped " +:+ to_string len +:+ " communications from Microsoft E-Discovery.") >>
       ret communicationsData
     else
       console_error "Failed to scrape communications from Microsoft E-Discovery." >>
       ret (Some (JArr [])))
    (fun error =>
       console_error ("Error scraping communications for case "
                      +:+ to_string (name eDiscoveryCase) +:+ ":") >>
       logError ("Error scraping communications for case "
                 +:+ to_string (name eDiscoveryCase)) error >>
       ret (Some (JArr []))).
End Scraper.
End Communications.

(* ===================================================================== *)
(** * src/zubuApi/api.ts                                                  *)
(* ===================================================================== *)

Module ZubuApi.
Section Api.
Variable w : World.

Record Auth : Type := mkAuth {
  accessToken : value;
  refreshToken : value;
  userId : value;
  tenant_id : value
}.

Record TemplateInput : Type := mkInput {
  templateName : string;
  templateBody : option string;
  tenantId : value
}.

(** [responseBody.data.authenticateUser.<field>] *)
Definition authenticateUser_field (responseBody : json) (field : string) : outcome value :=
  match get_prop (Some responseBody) "data" with
  | Throw e => Throw e
  | Ok data =>
      match get_prop data "authenticateUser" with
      | Throw e => Throw e
      | Ok payload => get_prop payload field
      end
  end.

Definition authenticateUser (email password : string) : M Auth :=
  try_catch
    (let* response := post w (AuthenticateUser email password) in
     let* responseBody := response_json response in
     let* accessToken := lift (authenticateUser_field responseBody "accessToken") in
     let* refreshToken := lift (authenticateUser_field responseBody "refreshToken") in
     let* userId := lift (authenticateUser_field responseBody "userId") in
     let* tenant_id := lift (authenticateUser_field responseBody "tenant_id") in
     ret (mkAuth accessToken refreshToken userId tenant_id))
    (fun error =>
       console_error "Error authenticating user:" >>
       throw (Error "Authentication failed")).

Definition createTemplate (accessToken : value) (input : TemplateInput) : M value :=
  try_catch
    (let* response :=
       post w (CreateTemplate ("Bearer " +:+ to_string accessToken)
                 (templateName input) (templateBody input) (tenantId input)) in
     let* result := response_json response in
     let* errors := lift (get_prop (Some result) "errors") in
     (if truthy errors then
        console_error "Error creating template:" >>
        throw (Error "Template creation failed")
      else ret tt) >>
     console_log ("Template " +:+ dq +:+ templateName input +:+ dq +:+ " created successfully.") >>
     let* data := lift (get_prop (Some result) "data") in
     lift (get_prop data "createTemplate"))
    (fun error =>
       console_error "Error creating template:" >>
       throw (Error "Template creation failed")).
End Api.
End ZubuApi.

(* ===================================================================== *)
(** * src/migrator.ts                                                     *)
(* ===================================================================== *)

Module Migrator.
Import ZubuApi.
Section Main.
Variable w : World.
Variable env : Env.

Definition exportsDir : string := "exports".
Definition templateTypes : list string := ["issuance"; "reissuance"; "release"].

(** Body of the inner loop, [for (const type of [templateTypes[0]])]. *)
Definition create_typed (auth : Auth) (template : value) (type : string) : M unit :=
  let* name := lift (get_prop template "templateName") in
  console_log ("Creating " +:+ type +:+ " template for: " +:+ to_string name) >>
  let* name := lift (get_prop template "templateName") in
  let* typed := lift (get_prop template type) in
  let* body := lift (get_prop typed "body") in
  createTemplate w (accessToken auth)
    {| templateName := to_string name +:+ " - " +:+ type;
       templateBody := JSON_stringify body;
       tenantId := tenant_id auth |} >>
  ret tt.

(** Body of the outer loop, [for (const template of [templates[0]])]. *)
Definition create_template (auth : Auth) (template : value) : M unit :=
  let* name := lift (get_prop template "templateName") in
  console_log ("Creating template: " +:+ to_string name) >>
  for_each [hd "undefined" templateTypes] (create_typed auth template).

(** Lines 32-51: the template replay. *)
Definition replay_templates (auth : Auth) : M unit :=
  console_log "Loading templates from file..." >>
  let* templates := read_json w "exports/templates.json" in
  let* len := lift (get_prop (Some templates) "length") in
  console_log ("Loaded " +:+ to_string len +:+ " templates from file.") >>
  console_log "Creating templates in Zubu..." >>
  let* first := lift (get_index (Some templates) 0) in
  for_each [first] (create_template auth) >>
  console_log "All templates exported successfully in Zubu.".

(** One of the three calls made for a communication. *)
Definition create_from (auth : Auth) (communication : value)
    (subject content : string) : M unit :=
  let* caseName := lift (get_prop communication "CaseName") in
  let* name := lift (get_prop communication "Name") in
  let* subj := lift (get_prop communication subject) in
  let* cont := lift (get_prop communication content) in
  createTemplate w (accessToken auth)
    {| templateName := to_string caseName +:+ " - " +:+ to_string name
                       +:+ " - " +:+ to_string subj;
       templateBody := JSON_stringify cont;
       tenantId := tenant_id auth |} >>
  ret tt.

(** Body of the loop over [matchedFiles]. *)
Definition replay_file (auth : Auth) (file : string) : M unit :=
  let fullPath := exportsDir +:+ "/" +:+ file in
  let* parsed := read_json w fullPath in
  let* communication := lift (get_index (Some parsed) 0) in
  let* name := lift (get_prop communication "Name") in
  console_log ("Createting templates for communication: " +:+ to_string name) >>
  let* caseName := lift (get_prop communication "CaseName") in
  console_log ("Creating Issuance template for:  " +:+ to_string caseName
               +:+ " -> " +:+ to_string name) >>
  create_from auth communication "IssuanceSubject" "IssuanceContent" >>
  console_log ("Creating Reissuance template for: " +:+ to_string caseName) >>
  create_from auth communication "ReissuanceSubject" "ReissuanceContent" >>
  console_log ("Creating Release template for: " +:+ to_string caseName) >>
  create_from auth communication "ReleaseSubject" "ReleaseContent" >>
  let* tname := lift (get_prop communication "templateName") in
  console_log ("Template created for communication: " +:+ to_string tname).

(** Lines 53-85: the communications replay. *)
Definition replay_communications (auth : Auth) : M unit :=
  console_log "Loading communications from files..." >>
  let* files := readdirSync w exportsDir in
  let matchedFiles := List.filter (String.prefix "communication") files in
  for_each matchedFiles (replay_file auth) >>
  console_log "All communications exported successfully in Zubu.".

Definition main : M unit :=
  page w (Launch true) >>
  page w (NewContext (ZUBU_API_URL env)) >>
  console_log "Authenticating user in Zubu..." >>
  let* auth := authenticateUser w (ZUBU_USERNAME env) (ZUBU_PASSWORD env) in
  replay_templates auth >>
  replay_communications auth >>
  page w ContextClose >>
  page w BrowserClose.
End Main.
End Migrator.

(* ===================================================================== *)
(** * src/scraper.ts                                                      *)
(* ===================================================================== *)

Module Scraper.
Section Main.
Variable w : World.
Variable env : Env.

Definition exportPath : string := "exports/templates.json".
Definition sign_in_prompt : string := "text=Sign in, text=Pick an account".

(** Lines 82-90: what the loop does with the scraped communications. *)
Definition export_communications (eDiscoveryCase communications : value) : M unit :=
  let* communicationsCount := lift (get_prop communications "length") in
  let* displayName := lift (get_prop eDiscoveryCase "displayName") in
  console_log ("Scraped " +:+ to_string communicationsCount
               +:+ " communications for case: " +:+ to_string displayName) >>
  if gt_zero communicationsCount then
    let* id := lift (get_prop eDiscoveryCase "id") in
    let caseExportPath := "exports/communications_" +:+ to_string id +:+ ".json" in
    match communications with
    | Some j =>
        writeFileSync w caseExportPath (JSON_stringify_pretty j) >>
        console_log ("Communications for case " +:+ to_string displayName
                     +:+ " exported to " +:+ caseExportPath)
    | None => throw TypeError
    end
  else ret tt.

(** Body of the loop over [eDiscoveryCases]. *)
Definition export_case (eDiscoveryCase : value) : M unit :=
  console_log ("Scraping communications for case: " +:+ to_string eDiscoveryCase) >>
  let* id := lift (get_prop eDiscoveryCase "id") in
  let* displayName := lift (get_prop eDiscoveryCase "displayName") in
  let* communications :=
    Communications.scrapeCommunications w env (Communications.mkCase id displayName) in
  export_communications eDiscoveryCase communications.

Definition main : M unit :=
  page w (Launch false) >>
  newContext w ("sessions/" +:+ MS_USERNAME env +:+ ".json") >>
  page w NewPage >>
  call w (MkDir "exports") IOError >>
  MsAuth.goto w env >>
  let* prompt := isVisible w sign_in_prompt 10000 in
  let isLoggedIn := negb prompt in
  (if isLoggedIn then
     console_log "Session file already exists and is valid. Continuing..."
   else
     console_log "Session file does not exist or is invalid. Logging in..." >>
     let* loginSuccess := MsAuth.authenticate w env in
     if loginSuccess then
       console_log "Login successful!" >>
       MsAuth.saveSession w env
     else console_error "Login failed.") >>
  console_log "Starting to scrape templates from Microsoft E-Discovery..." >>
  Templates.goto w env >>
  console_log "Navigating to Communication Library..." >>
  Templates.clickOnCommunicationLibrary w >>
  console_log "Scraping templates from Microsoft E-Discovery..." >>
  let* templates := Templates.scrapeTemplates w in
  console_log "Completed scraping templates from Microsoft E-Discovery." >>
  console_log ("Scraped " +:+ string_of_Z (Z.of_nat (length templates)) +:+ " templates.") >>
  console_log "Exporting templates to JSON file..." >>
  writeFileSync w exportPath (JSON_stringify_pretty (JArr templates)) >>
  console_log ("Templates exported to " +:+ exportPath) >>
  console_log "Starting to scrape communications from Microsoft E-Discovery..." >>
  console_log "Navigating to Cases page..." >>
  let* eDiscoveryCases := Cases.scrapeCases w env in
  let* len := lift (get_prop eDiscoveryCases "length") in
  console_log ("Found " +:+ to_string len +:+ " E-Discovery cases.") >>
  let* cases := lift (iterate eDiscoveryCases) in
  for_each cases export_case >>
  page w ContextClose >>
  page w BrowserClose.
End Main.
End Scraper.

(* ===================================================================== *)
(** * src/index.ts                                                        *)
(* ===================================================================== *)

Module Index.
Section Main.
Variable w : World.
Variable env : Env.

Definition session_file : string := "sessions/" +:+ env_username env +:+ ".json".

Definition main : M unit :=
  page w (Launch false) >>
  newContext w session_file >>
  page w NewPage >>
  let* found := existsSync session_file in
  (if found then console_log "Session file already exists. "
   else
     Auth.goto w env >>
     let* loginSuccess := Auth.authenticate w env in
     if loginSuccess then
       console_log "Login successful!" >>
       Auth.saveSession w env
     else console_error "Login failed.") >>
  Templates.goto w env >>
  console_log "Navigating to Communication Library..." >>
  Templates.clickOnCommunicationLibrary w >>
  console_log "Scraping templates from Microsoft E-Discovery..." >>
  let* templates := Templates.scrapeTemplates w in
  console_log "Templates:" >>
  page w ContextClose >>
  page w BrowserClose.
End Main.
End Index.

(* ===================================================================== *)
(** * Specification vocabulary                                            *)
(* ===================================================================== *)

(** A triple with a separate condition for the exceptional exit. *)
Definition hoare {A} (P : State -> Prop) (m : M A)
    (Q : A -> State -> Prop) (E : exn -> State -> Prop) : Prop :=
  forall st, P st ->
    match m st with
    | (Ok a, st') => Q a st'
    | (Throw e, st') => E e st'
    end.

(** [m] keeps [I], whether it returns or throws. *)
Definition preserves {A} (I : State -> Prop) (m : M A) : Prop :=
  hoare I m (fun _ => I) (fun _ => I).

(** Recording [e] keeps [I]. *)
Definition stable (I : State -> Prop) (e : event) : Prop :=
  forall st, I st -> I (push e st).

(** [I] only looks at the trace. *)
Definition on_trace (I : State -> Prop) : Prop :=
  forall st fs, I st -> I {| trace := trace st; files := fs |}.

(** The trace has [n] events of the kind [f]. *)
Definition census (f : event -> bool) (n : nat) (st : State) : Prop :=
  length (List.filter f (trace st)) = n.

(** The file at [path] holds [content]. *)
Definition holds (path content : string) (st : State) : Prop :=
  files st !! resolve path = Some content.

(** Navigation to the login page, filling a field, clicking a submit
    button. *)
Definition is_login_goto (e : event) : bool :=
  match e with Goto url => String.eqb url login_url | _ => false end.

Definition is_fill (e : event) : bool :=
  match e with Fill _ _ => true | _ => false end.

Definition is_submit_click (e : event) : bool :=
  match e with Click sel => String.eqb sel submit_input | _ => false end.

Definition is_credential_entry (e : event) : bool := is_fill e || is_submit_click e.

Definition is_login_interaction (e : event) : bool :=
  is_login_goto e || is_credential_entry e.

(** The program, unfolded down to the monad. *)
Create HintDb prog.
#[export] Hint Unfold call page newContext console_log console_error isVisible locator_all innerText
  waitForResponse await response_json post writeFileSync existsSync read_json
  readdirSync appendFile for_each : prog.
#[export] Hint Unfold Auth.goto Auth.handle2FA Auth.authenticate Auth.saveSession
  MsAuth.goto MsAuth.isAccountFound MsAuth.enterCredentials MsAuth.handle2FA
  MsAuth.authenticate MsAuth.saveSession
  Cases.goto Cases.scrapeCases
  Templates.handlePopup Templates.goto Templates.clickOnCommunicationLibrary
  Templates.scrape_row Templates.scrapeTemplates
  Communications.goto Communications.logError Communications.scrapeCommunications
  ZubuApi.authenticateUser ZubuApi.createTemplate
  Migrator.create_typed Migrator.create_template Migrator.replay_templates
  Migrator.create_from Migrator.replay_file Migrator.replay_communications
  Scraper.export_communications Scraper.export_case : prog.

(** The replay loops, unfolded down to the calls of the client. *)
Create HintDb replay.
#[export] Hint Unfold for_each
  Migrator.create_typed Migrator.create_template Migrator.replay_templates
  Migrator.create_from Migrator.replay_file Migrator.replay_communications
  Migrator.main : replay.

(** The steps of the login that enter the username and the password. *)
Definition is_credential_step (e : event) : bool :=
  match e with
  | Fill _ _ | Click _ | WaitForSelector _ _ => true
  | _ => false
  end.

Definition second_factor_wait : event := WaitForURL process_auth_url 60000.

Definition credentials_accepted (w : World) : Prop :=
  forall t e, is_credential_step e = true -> completes w t e = true.

(** What a caller can rely on from [authenticate], for the login of
    [user]: it settles in one of two ways; it resolves to [true] as soon
    as the credential steps go through, whatever the second-factor wait
    does, and a second-factor wait that runs out is logged last; a
    rejection names a credential step that threw. *)
Definition login_contract (w : World) (user : string) (authenticate : M bool) : Prop :=
  forall st,
    (exists st', authenticate st = (Ok true, st') \/
                 authenticate st = (Throw (Rejected false), st')) /\
    (credentials_accepted w ->
     exists st', authenticate st = (Ok true, st') /\
       ((forall t, completes w t second_factor_wait = false) ->
        last (trace st') =
          Some (ConsoleError ("Failed to handle two-factor authentication for user: "
                              +:+ user)))) /\
    (forall e st', authenticate st = (Throw e, st') ->
       exists t step,
         (length (trace st) <= t)%nat /\ trace st' !! t = Some step /\
         is_credential_step step = true /\ completes w t step = false).

Definition is_append (e : event) : bool :=
  match e with AppendFile _ _ => true | _ => false end.

(** The entries appended to files, in order. *)
Definition appended (st : State) : list event := List.filter is_append (trace st).

Definition is_write (e : event) : bool :=
  match e with WriteFile _ _ => true | _ => false end.

(** The [writeFileSync] calls issued, in order. *)
Definition written (st : State) : list event := List.filter is_write (trace st).

(** Apart from the error log, [st'] has the files of [st]. *)
Definition same_files_but_log (st st' : State) : Prop :=
  forall path, path <> Communications.logFilePath -> files st' !! path = files st !! path.


(** A wait that resolves with the JSON document [j]. *)
Definition delivers (j : json) : arrival := Arrives (mkResponse (Some j)).

(** The events kept by [f], in order. *)
Definition selected (f : event -> bool) (kept : list event) (st : State) : Prop :=
  List.filter f (trace st) = kept.

Definition is_post (e : event) : bool :=
  match e with Post _ => true | _ => false end.

Definition is_create (e : event) : bool :=
  match e with Post (CreateTemplate _ _ _ _) => true | _ => false end.

(** The create-template calls issued, in order. *)
Definition created (st : State) : list event := List.filter is_create (trace st).

(** The check of [createTemplate] on a reply: [result.errors] is truthy. *)
Definition reports_errors (r : reply) : bool :=
  match r with
  | Replies {| body := Some result |} =>
      match get_prop (Some result) "errors" with
      | Ok errors => truthy errors
      | Throw _ => false
      end
  | _ => false
  end.

(** A reply whose JSON body is an object with an [errors] array. *)
Definition error_array (r : reply) : bool :=
  match r with
  | Replies {| body := Some (JObj fields) |} =>
      match assoc "errors" fields with
      | Some (JArr _) => true
      | _ => false
      end
  | _ => false
  end.

(** The create-template call at position [t] was answered with errors. *)
Definition rejected_at (w : World) (tr : list event) (t : nat) : Prop :=
  exists a n d tid,
    tr !! t = Some (Post (CreateTemplate a n d tid)) /\
    reports_errors (http w t (CreateTemplate a n d tid)) = true.

Definition none_rejected (w : World) (st : State) : Prop :=
  forall t, ~ rejected_at w (trace st) t.

(** No request follows a create-template call that was answered with
    errors. *)
Definition rejected_is_last (w : World) (st : State) : Prop :=
  forall t, rejected_at w (trace st) t ->
  forall t' e, (t < t')%nat -> trace st !! t' = Some e -> is_post e = false.

(** How a replay may stop. *)
Definition stops_at_rejection (w : World) (e : exn) (st : State) : Prop :=
  none_rejected w st \/
  (e = Error "Template creation failed" /\ rejected_is_last w st).

(** A triple for code that keeps [I] as long as it runs and may stop in [E]. *)
Definition guards {A} (I : State -> Prop) (E : exn -> State -> Prop) (m : M A) : Prop :=
  hoare I m (fun _ => I) E.

(** [v?.p]: the field of an object, [undefined] anywhere else. *)
Definition field (v : value) (p : string) : value :=
  match v with
  | Some (JObj fs) => assoc p fs
  | _ => None
  end.

(** A reply to [authenticateUser] that carries no [data.authenticateUser]
    result: the request failed, the body is not JSON, or the result is
    missing or null, as in a GraphQL error response. *)
Definition auth_rejected (r : reply) : bool :=
  match r with
  | Replies {| body := Some responseBody |} =>
      match field (field (Some responseBody) "data") "authenticateUser" with
      | None | Some JNull => true
      | Some _ => false
      end
  | _ => true
  end.

(** A reply that [createTemplate] takes as success. *)
Definition accepted (r : reply) : bool :=
  match r with
  | Replies {| body := Some result |} =>
      match get_prop (Some result) "errors", get_prop (Some result) "data" with
      | Ok errors, Ok data =>
          negb (truthy errors) &&
          match get_prop data "createTemplate" with Ok _ => true | Throw _ => false end
      | _, _ => false
      end
  | _ => false
  end.

(** What [createTemplate] returns on a reply: [result.data.createTemplate]. *)
Definition created_id (r : reply) : value :=
  match r with
  | Replies {| body := Some result |} =>
      match get_prop (Some result) "data" with
      | Ok data =>
          match get_prop data "createTemplate" with Ok v => v | Throw _ => None end
      | Throw _ => None
      end
  | _ => None
  end.

(** The request posted by [createTemplate]. *)
Definition create_request (token : value) (input : ZubuApi.TemplateInput) : request :=
  CreateTemplate ("Bearer " +:+ to_string token) (ZubuApi.templateName input)
    (ZubuApi.templateBody input) (ZubuApi.tenantId input).

(** [c.p] on a record [c] that is not [null]. *)
Definition prop (c : json) (p : string) : value :=
  match get_prop (Some c) p with
  | Ok v => v
  | Throw _ => None
  end.




(** The steps of the per-row cycle of [scrapeTemplates]: open the row,
    arm the wait, click Edit, await the detail response, click Cancel. *)
Definition is_cycle_step (e : event) : bool :=
  match e with
  | RowClick _ => true
  | WaitForResponse TemplateDetailPattern _ => true
  | AwaitResponse TemplateDetailPattern => true
  | Click selector =>
      String.eqb selector Templates.editButton
      || String.eqb selector Templates.cancelButton
  | _ => false
  end.

Definition cycle (row : nat) : list event :=
  [ RowClick row;
    WaitForResponse TemplateDetailPattern 15000;
    Click Templates.editButton;
    AwaitResponse TemplateDetailPattern;
    Click Templates.cancelButton ].

Definition cycle_steps (st : State) : list event :=
  List.filter is_cycle_step (trace st).

(** At most one response wait is pending at any point of [tr], each
    wait is awaited before the next is armed, and none is left pending. *)
Fixpoint one_in_flight (pending : bool) (tr : list event) : bool :=
  match tr with
  | [] => negb pending
  | WaitForResponse _ _ :: rest => negb pending && one_in_flight true rest
  | AwaitResponse _ :: rest => pending && one_in_flight false rest
  | _ :: rest => one_in_flight pending rest
  end.

(** Along [tr] a wait is never armed while another is still pending. *)
Fixpoint never_two_pending (pending : bool) (tr : list event) : bool :=
  match tr with
  | [] => true
  | WaitForResponse _ _ :: rest => negb pending && never_two_pending true rest
  | AwaitResponse _ :: rest => never_two_pending false rest
  | _ :: rest => never_two_pending pending rest
  end.

Definition browser_responsive (w : World) : Prop :=
  forall t e, completes w t e = true.

Definition rows_readable (w : World) : Prop :=
  forall t row, row_text w t row <> None.

(** Every template detail response resolves, with a JSON body. *)
Definition details_arrive (w : World) : Prop :=
  forall t, exists whole, response w t TemplateDetailPattern = delivers whole.

(* ===================================================================== *)
(** * Concrete runs                                                       *)
(* ===================================================================== *)

Module Scenario.
Definition env : Env :=
  {| env_username := "alice@example.com"; env_password := "secret";
     env_tenant_id := "t-1";
     MS_USERNAME := "alice@example.com"; MS_PASSWORD := "secret";
     MS_TENANT_ID := "t-1";
     ZUBU_API_URL := "https://zubu.example/graphql";
     ZUBU_USERNAME := "migrator@zubu.example"; ZUBU_PASSWORD := "secret" |}.

(** A browser in which every call completes, [scripted] by the network
    responses, the destination's replies and the JSON parser. *)
Definition scripted (responses : nat -> pattern -> arrival)
    (replies : nat -> request -> reply)
    (parser : string -> option json) (listing : list string) : World :=
  {| completes := fun _ _ => true;
     visible := fun _ _ => false;
     row_count := fun _ => 2%nat;
     row_text := fun _ row => Some ("Template " +:+ string_of_Z (Z.of_nat row));
     response := responses;
     http := replies;
     storage_state := fun _ => "{}";
     clock := fun _ => "2025-01-01T00:00:00.000Z";
     stack := fun _ => "TimeoutError: Timeout 45000ms exceeded.";
     parse := parser;
     readdir := fun _ _ => listing;
     settles := fun _ => true |}.

Definition silent : World :=
  scripted (fun _ _ => Never) (fun _ _ => Unreachable) (fun _ => None) [].

(** A file system that holds a saved session for the user. *)
Definition with_session : gmap string string :=
  {[ "sessions/alice@example.com.json" := "{}" ]}.

(** The same browser, except that the calls selected by [fails] throw. *)
Definition failing (fails : event -> bool) (w : World) : World :=
  {| completes := fun _ e => negb (fails e);
     visible := visible w; row_count := row_count w; row_text := row_text w;
     response := response w; http := http w;
     storage_state := storage_state w; clock := clock w; stack := stack w;
     parse := parse w; readdir := readdir w; settles := settles w |}.

(** Nobody completes the second factor. *)
Definition second_factor_ignored : World :=
  failing (fun e => match e with WaitForURL _ _ => true | _ => false end) silent.

(** Destination replies. *)
Definition token_reply : reply :=
  Replies (mkResponse (Some (JObj
    [("data", JObj [("authenticateUser",
        JObj [("accessToken", JStr "tok"); ("refreshToken", JStr "ref");
              ("userId", JStr "u-1"); ("tenant_id", JStr "t-9")])])]))).

Definition created_reply : reply :=
  Replies (mkResponse (Some (JObj [("data", JObj [("createTemplate", JStr "new-id")])]))).

Definition errors_reply : reply :=
  Replies (mkResponse (Some (JObj
    [("errors", JArr [JObj [("message", JStr "rejected")]]); ("data", JNull)]))).

(** Two exported templates, the first with a blank body. *)
Definition blank_template : json :=
  JObj [("templateName", JStr "Hold notice");
        ("issuance", JObj [("body", JNull)]);
        ("reissuance", JObj [("body", JNull)]);
        ("release", JObj [("body", JNull)])].

Definition second_template : json :=
  JObj [("templateName", JStr "Reminder");
        ("issuance", JObj [("body", JStr "<p>Please keep your files.</p>")]);
        ("reissuance", JObj [("body", JStr "<p>Again.</p>")]);
        ("release", JObj [("body", JStr "<p>Released.</p>")])].

Definition templates_array : json := JArr [blank_template; second_template].

(** One exported communication file holding two communications. *)
Definition notice (name : string) : json :=
  JObj [("CaseName", JStr "Case One"); ("Name", JStr name);
        ("IssuanceSubject", JStr "Hold"); ("IssuanceContent", JStr "<p>Hold</p>");
        ("ReissuanceSubject", JStr "Hold again"); ("ReissuanceContent", JNull);
        ("ReleaseSubject", JStr "Release"); ("ReleaseContent", JStr "<p>Done</p>")].

Definition communications_array : json := JArr [notice "First notice"; notice "Second notice"].

Definition exported : gmap string string :=
  {[ "exports/templates.json" := JSON_stringify_pretty templates_array;
     "exports/communications_c1.json" := JSON_stringify_pretty communications_array ]}.

(** [JSON.parse] on the two exported documents. *)
Definition parser (text : string) : option json :=
  if String.eqb text (JSON_stringify_pretty templates_array) then Some templates_array
  else if String.eqb text (JSON_stringify_pretty communications_array)
       then Some communications_array
       else None.

Definition destination (login create : reply) (t : nat) (r : request) : reply :=
  match r with
  | AuthenticateUser _ _ => login
  | CreateTemplate _ _ _ _ => create
  end.

(** What [authenticateUser] returns on [token_reply]. *)
Definition auth : ZubuApi.Auth :=
  ZubuApi.mkAuth (Some (JStr "tok")) (Some (JStr "ref")) (Some (JStr "u-1"))
    (Some (JStr "t-9")).

Definition listing : list string := ["communications_c1.json"; "templates.json"].

(** The destination accepts everything. *)
Definition replaying : World :=
  scripted (fun _ _ => Never) (destination token_reply created_reply) parser listing.

(** The destination answers every create-template call with errors. *)
Definition rejecting : World :=
  scripted (fun _ _ => Never) (destination token_reply errors_reply) parser listing.

(** The destination answers the login with a GraphQL error response. *)
Definition locked_out : World :=
  scripted (fun _ _ => Never) (destination errors_reply created_reply) parser listing.

Definition case_one : json :=
  JObj [("id", JStr "c1"); ("displayName", JStr "Case One")].

(** Every detail request is answered with a template. *)
Definition detailed : World :=
  scripted (fun _ p => match p with
                       | TemplateDetailPattern =>
                           Arrives (mkResponse (Some second_template))
                       | _ => Never
                       end)
           (fun _ _ => Unreachable) (fun _ => None) [].

(** The console answers the communications request with two notices. *)
Definition mocked_communications : World :=
  scripted (fun _ p => match p with
                       | CommunicationsPattern =>
                           Arrives (mkResponse
                             (Some (JObj [("value", communications_array)])))
                       | _ => Never
                       end)
           (fun _ _ => Unreachable) (fun _ => None) [].

(** The console answers the cases request with one case. *)
Definition mocked_cases : World :=
  scripted (fun _ p => match p with
                       | CasesPattern =>
                           Arrives (mkResponse (Some (JObj [("value", JArr [case_one])])))
                       | _ => Never
                       end)
           (fun _ _ => Unreachable) (fun _ => None) [].
End Scenario.


(* ===================================================================== *)
(** * Further specification vocabulary                                    *)
(* ===================================================================== *)

(** Outside the paths in [owned], the files are those of [fs]. *)
Definition untouched (owned : string -> bool) (fs : gmap string string)
    (st : State) : Prop :=
  forall path, owned path = false -> files st !! path = fs !! path.

(** The session file of the user [user], as [existsSync] and
    [newContext] name it. *)
Definition session_file_of (user : string) : string :=
  "sessions/" +:+ user +:+ ".json".

(** The files a scraping run of [user] may change: the exports, the
    error log and the saved session. *)
Definition scraper_owned (user : string) (path : string) : bool :=
  String.prefix "exports/" path
  || String.eqb path Communications.logFilePath
  || String.eqb path (session_file_of user).

Definition session_only (user : string) (path : string) : bool :=
  String.eqb path (session_file_of user).

(** [responseBody.data.authenticateUser.<name>] of a login reply, where
    it can be read. *)
Definition login_field (r : reply) (name : string) : value :=
  match r with
  | Replies {| body := Some responseBody |} =>
      match ZubuApi.authenticateUser_field responseBody name with
      | Ok v => v
      | Throw _ => None
      end
  | _ => None
  end.

(** What [authenticateUser] returns on the reply [r]. *)
Definition login_result (r : reply) : ZubuApi.Auth :=
  ZubuApi.mkAuth (login_field r "accessToken") (login_field r "refreshToken")
    (login_field r "userId") (login_field r "tenant_id").

Definition is_login_post (e : event) : bool :=
  match e with Post (AuthenticateUser _ _) => true | _ => false end.

(** The requests posted, in order. *)
Definition posted (st : State) : list event := List.filter is_post (trace st).

(** A value whose fields can be read: neither [undefined] nor [null]. *)
Definition is_record (v : value) : bool :=
  match v with
  | None | Some JNull => false
  | Some _ => true
  end.

Definition is_communications_wait (e : event) : bool :=
  match e with WaitForResponse CommunicationsPattern _ => true | _ => false end.

(** The scrapes of communications started, in order. *)
Definition scrapes_started (st : State) : list event :=
  List.filter is_communications_wait (trace st).


(* ===================================================================== *)
(** * Further concrete runs                                               *)
(* ===================================================================== *)

Module Fixture.
(** Exports that hold empty arrays. *)
Definition empty_exports : gmap string string :=
  {[ "exports/templates.json" := "[]"; "exports/communications_c1.json" := "[]" ]}.

Definition empty_parser (text : string) : option json :=
  if String.eqb text "[]" then Some (JArr []) else None.

Definition emptied : World :=
  Scenario.scripted (fun _ _ => Never)
    (Scenario.destination Scenario.token_reply Scenario.created_reply)
    empty_parser Scenario.listing.

(** Every awaited response arrives, but its body is the empty object. *)
Definition valueless : World :=
  Scenario.scripted (fun _ _ => Arrives (mkResponse (Some (JObj []))))
    (fun _ _ => Unreachable) (fun _ => None) [].

(** A browser that shows the sign-in prompt and in which the calls
    selected by [fails] throw. *)
Definition signed_out (fails : event -> bool) : World :=
  {| completes := fun _ e => negb (fails e);
     visible := fun _ _ => true;
     row_count := fun _ => 1%nat;
     row_text := fun _ _ => Some "Hold notice";
     response := fun _ _ => Never;
     http := fun _ _ => Unreachable;
     storage_state := fun _ => "{}";
     clock := fun _ => "2025-01-01T00:00:00.000Z";
     stack := fun _ => "TimeoutError";
     parse := fun _ => None;
     readdir := fun _ _ => [];
     settles := fun _ => true |}.

(** The password field never appears. *)
Definition no_password_field (e : event) : bool :=
  match e with WaitForSelector _ 5000 => true | _ => false end.
End Fixture.

(** The message of the [else] branch taken when [authenticate] resolves
    to [false]. *)
Definition is_login_failed_note (e : event) : bool :=
  match e with
  | ConsoleError msg => String.eqb msg "Login failed."
  | _ => false
  end.

(** The message with which [authenticate] reports that it rejects. *)
Definition is_rejection_note (user : string) (e : event) : bool :=
  match e with
  | ConsoleError msg => String.eqb msg ("Login failed for user: " +:+ user)
  | _ => false
  end.

(** A step of a scrape: listing the rows or arming a wait for a response. *)
Definition is_scrape_step (e : event) : bool :=
  match e with
  | LocatorAll _ | WaitForResponse _ _ => true
  | _ => false
  end.

Definition rejected_or_scraping (user : string) (e : event) : bool :=
  is_rejection_note user e || is_scrape_step e.

(** How a run may end once the login is involved: without a rejection
    having been reported, or rejected before any scrape step. *)
Definition ends_at_rejection (user : string) (e : exn) (st : State) : Prop :=
  census (is_rejection_note user) 0 st \/
  (e = Rejected false /\ census is_scrape_step 0 st).

(** The steps of an interactive login that a caller can observe, in the
    order of the source: the password is entered, the second factor is
    awaited, the session is asked for. *)
Definition login_steps (password session_path : string) : list event :=
  [Fill passwd_input password; second_factor_wait; StorageState session_path].

(** Whatever precedes a scrape step contains [steps], in their order. *)
Definition scrapes_follow (steps : list event) (st : State) : Prop :=
  forall i e, trace st !! i = Some e -> is_scrape_step e = true ->
    steps `sublist_of` take i (trace st).

(** No scrape step so far, and [steps] were seen in their order. *)
Definition logging_in (steps : list event) (st : State) : Prop :=
  census is_scrape_step 0 st /\ steps `sublist_of` trace st.

(** [steps] were seen in their order before the first scrape step. *)
Definition logged_in (steps : list event) (st : State) : Prop :=
  exists before,
    before `prefix_of` trace st /\ steps `sublist_of` before /\
    forall i e, trace st !! i = Some e -> is_scrape_step e = true ->
      (length before <= i)%nat.

(** No file at [path]. *)
Definition absent (path : string) (st : State) : Prop :=
  files st !! resolve path = None.

(** A create-template call made with the token and for the tenant of
    [auth]. *)
Definition carries (auth : ZubuApi.Auth) (e : event) : Prop :=
  exists name detail,
    e = Post (CreateTemplate ("Bearer " +:+ to_string (ZubuApi.accessToken auth))
                name detail (ZubuApi.tenant_id auth)).

Definition on_behalf_of (auth : ZubuApi.Auth) (st : State) : Prop :=
  Forall (carries auth) (created st).

(** The login is the call number [t]. *)
Definition login_at (email password : string) (t : nat) (st : State) : Prop :=
  trace st !! t = Some (Post (AuthenticateUser email password)).

(** The replay under way: one login so far, the call number [t], and
    every create-template call made on behalf of [auth]. *)
Definition replaying (email password : string) (t : nat) (auth : ZubuApi.Auth)
    (st : State) : Prop :=
  census is_login_post 1 st /\ login_at email password t st /\ on_behalf_of auth st.

(** At most one login; whatever is created is created with what the
    reply to that login handed over. *)
Definition credentials_flow (w : World) (email password : string) (st : State) : Prop :=
  (length (List.filter is_login_post (trace st)) <= 1)%nat /\
  (created st = [] \/
   exists t, login_at email password t st /\
     on_behalf_of (login_result (http w t (AuthenticateUser email password))) st).

(** Nothing posted yet. *)
Definition unauthenticated (st : State) : Prop :=
  census is_login_post 0 st /\ census is_create 0 st.

(** The files the replay may read: the templates export, and the entries
    of the exports directory whose name starts with [communication]. *)
Definition replay_source (w : World) (path : string) : Prop :=
  path = Scraper.exportPath \/
  exists t file,
    In file (readdir w t Migrator.exportsDir) /\
    String.prefix "communication" file = true /\
    path = Migrator.exportsDir +:+ "/" +:+ file.

Definition reads_within (allowed : string -> Prop) (st : State) : Prop :=
  forall path, In (ReadFile path) (trace st) -> allowed path.

(** A path that the filter of the communications replay lets through. *)
Definition replayable (path : string) : Prop :=
  exists name,
    path = Migrator.exportsDir +:+ "/" +:+ name /\
    String.prefix "communication" name = true.

Definition writes_within (allowed : string -> Prop) (st : State) : Prop :=
  forall path content, In (WriteFile path content) (trace st) -> allowed path.

Definition is_console_error (e : event) : bool :=
  match e with ConsoleError _ => true | _ => false end.

(** The call number of the wait armed for the row [i], in a scrape of
    the templates that starts at the call number [start]: one call lists
    the rows, twelve calls are made for each row, the wait is the fourth
    of them. *)
Definition detail_armed_at (start i : nat) : nat := (start + 4 + 12 * i)%nat.

(** The button of the welcome dialog that [handlePopup] clicks first. *)
Definition get_started_button : string := has_text "button" "Get started".

Definition scrapes_or_writes (e : event) : bool := is_scrape_step e || is_write e.

Definition is_browser_close (e : event) : bool :=
  match e with BrowserClose => true | _ => false end.

(** How the browser is left: closed by the last call, or never asked to
    close. *)
Definition closed_last (st : State) : Prop := last (trace st) = Some BrowserClose.

Definition left_open (st : State) : Prop := census is_browser_close 0 st.

Definition browser_fate {A} (run : outcome A * State) : Prop :=
  match fst run with
  | Ok _ => closed_last (snd run)
  | Throw _ => left_open (snd run) \/ closed_last (snd run)
  end.

(** A signed-out browser in which the welcome dialog does not show. *)
Definition no_welcome_dialog : World :=
  Fixture.signed_out
    (fun e => match e with
              | Click selector => String.eqb selector get_started_button
              | _ => false
              end).

(** The error log still starts with [old]. *)
Definition log_extends (old : string) (st : State) : Prop :=
  exists suffix, files st !! Communications.logFilePath = Some (old +:+ suffix).

(** A saved session, and an error log with an entry of an earlier run. *)
Definition earlier_log : gmap string string :=
  {[ "sessions/alice@example.com.json" := "{}";
     "error_log.txt" := "2024-12-31T00:00:00.000Z - earlier failure" ]}.

(** The templates and the cases arrive, the communications of the case
    do not. *)
Definition communications_missing : World :=
  Scenario.scripted
    (fun _ p => match p with
                | TemplateDetailPattern =>
                    Arrives (mkResponse (Some Scenario.second_template))
                | CasesPattern =>
                    Arrives (mkResponse
                      (Some (JObj [("value", JArr [Scenario.case_one])])))
                | CommunicationsPattern => Never
                end)
    (fun _ _ => Unreachable) (fun _ => None) [].

(** An append to the error log that was started between [st] and [st']
    and is not waited for: the log is as it was, or has gained [entry];
    every other file is as it was. *)
Definition log_entry_pending (st st' : State) (entry : string) : Prop :=
  files st' = files st \/
  files st' = <[Communications.logFilePath :=
                  default EmptyString (files st !! Communications.logFilePath) +:+ entry]>
                (files st).

Definition is_communications_await (e : event) : bool :=
  match e with AwaitResponse CommunicationsPattern => true | _ => false end.

(** The waits for communications that were awaited, in order. *)
Definition scrapes_awaited (st : State) : list event :=
  List.filter is_communications_await (trace st).


Definition is_console (e : event) : bool :=
  match e with ConsoleLog _ | ConsoleError _ => true | _ => false end.

Definition is_call (e : event) : bool := negb (is_console e).

(** The calls made, in order; what is printed is left out. *)
Definition calls (st : State) : list event := List.filter is_call (trace st).

(** The calls of [goto], [handlePopup] and [clickOnCommunicationLibrary]
    of the template scraper, up to the first step of the scrape, the
    listing of the rows. *)
Definition to_first_scrape (env : Env) : list event :=
  [Goto ("https://purview.microsoft.com/ediscovery/advancedediscovery/globalsettings?viewid=Overview&tid="
         +:+ Templates.tenantId env);
   Click (has_text "button" "Get started"); WaitForTimeout 2000;
   Click (has_text "button" "Done"); WaitForTimeout 2000;
   WaitForSelector "text=Communication Library" 20000;
   Click "#CommunicationLibrary";
   WaitForSelector Templates.details_row 10000;
   LocatorAll Templates.details_row].

(** The calls of [scraper.ts] and of [index.ts] that lead straight to
    the scrape. *)
Definition scraper_direct_path (env : Env) : list event :=
  [Launch false; NewContext (session_file_of (MS_USERNAME env)); NewPage;
   MkDir "exports"; Goto login_url; IsVisible Scraper.sign_in_prompt 10000]
  ++ to_first_scrape env.

Definition index_direct_path (env : Env) : list event :=
  [Launch false; NewContext (Index.session_file env); NewPage;
   ExistsSync (Index.session_file env)]
  ++ to_first_scrape env.

(** The run so far: the files are those of the start, the calls are
    [made]. *)
Definition on_path (fs : gmap string string) (made : list event) (st : State) : Prop :=
  files st = fs /\ calls st = made.

(** The run started with the calls of [path]. *)
Definition reached (path : list event) (st : State) : Prop :=
  path `prefix_of` calls st.

(** A login reply that reports errors and still carries a result, here
    an empty one. *)
Definition errors_with_result : reply :=
  Replies (mkResponse (Some (JObj
    [("errors", JArr [JObj [("message", JStr "Invalid credentials")]]);
     ("data", JObj [("authenticateUser", JObj [])])]))).

(** The destination answers the login with that reply and accepts every
    create-template call. *)
Definition half_refused : World :=
  Scenario.scripted (fun _ _ => Never)
    (Scenario.destination errors_with_result Scenario.created_reply)
    Scenario.parser Scenario.listing.

(** What [authenticateUser] hands over when the result holds nothing. *)
Definition no_credentials : ZubuApi.Auth := ZubuApi.mkAuth None None None None.

(** The call [e] was made. *)
Definition made (e : event) (st : State) : Prop := In e (trace st).

(** A cycle left open: the panel of the row was opened and its response
    awaited, [Cancel] was not clicked. *)
Definition open_cycle (row : nat) : list event :=
  [ RowClick row;
    WaitForResponse TemplateDetailPattern 15000;
    Click Templates.editButton;
    AwaitResponse TemplateDetailPattern ].

(* ===================================================================== *)
(** * Proof rules                                                         *)
(* ===================================================================== *)

Section Rules.
Context {A B : Type}.

Lemma hoare_ret (P : State -> Prop) (a : A) Q E :
  (forall st, P st -> Q a st) -> hoare P (ret a) Q E.
Proof. intros H st HP. cbn. auto. Qed.

Lemma hoare_throw (P : State -> Prop) (e : exn) (Q : A -> State -> Prop) (E : exn -> State -> Prop) :
  (forall st, P st -> E e st) -> hoare P (throw e) Q E.
Proof. intros H st HP. cbn. auto. Qed.

Lemma hoare_bind P (m : M A) (k : A -> M B) R Q E :
  hoare P m R E -> (forall a, hoare (R a) (k a) Q E) -> hoare P (bind m k) Q E.
Proof.
  intros Hm Hk st HP. unfold bind. specialize (Hm st HP).
  destruct (m st) as [[a|e] st']; [apply Hk, Hm | exact Hm].
Qed.

Lemma hoare_try P (m : M A) (h : exn -> M A) Q E' E :
  hoare P m Q E' -> (forall e, hoare (E' e) (h e) Q E) -> hoare P (try_catch m h) Q E.
Proof.
  intros Hm Hh st HP. unfold try_catch. specialize (Hm st HP).
  destruct (m st) as [[a|e] st']; [exact Hm | apply Hh, Hm].
Qed.

Lemma hoare_weaken (P P' : State -> Prop) (m : M A) (Q Q' : A -> State -> Prop)
    (E E' : exn -> State -> Prop) :
  hoare P' m Q' E' ->
  (forall st, P st -> P' st) ->
  (forall a st, Q' a st -> Q a st) ->
  (forall e st, E' e st -> E e st) ->
  hoare P m Q E.
Proof.
  intros H HP HQ HE st Hst. specialize (H st (HP st Hst)).
  destruct (m st) as [[a|e] st']; auto.
Qed.
End Rules.

Section Preservation.
Variable I : State -> Prop.

Lemma preserves_ret {A} (a : A) : preserves I (ret a).
Proof. intros st H. exact H. Qed.
Lemma preserves_throw {A} (e : exn) : preserves I (@throw A e).
Proof. intros st H. exact H. Qed.
Lemma preserves_lift {A} (o : outcome A) : preserves I (lift o).
Proof. intros st H. unfold lift. destruct o; exact H. Qed.
Lemma preserves_now : preserves I now.
Proof. intros st H. exact H. Qed.
Lemma preserves_get_file p : preserves I (get_file p).
Proof. intros st H. exact H. Qed.
Lemma preserves_emit e : stable I e -> preserves I (emit e).
Proof. intros Hs st H. apply Hs, H. Qed.
Lemma preserves_set_file p c : on_trace I -> preserves I (set_file p c).
Proof. intros Hs st H. cbn. apply Hs, H. Qed.
Lemma preserves_bind {A B} (m : M A) (k : A -> M B) :
  preserves I m -> (forall a, preserves I (k a)) -> preserves I (bind m k).
Proof. intros Hm Hk. eapply hoare_bind; [exact Hm | exact Hk]. Qed.
Lemma preserves_try {A} (m : M A) (h : exn -> M A) :
  preserves I m -> (forall e, preserves I (h e)) -> preserves I (try_catch m h).
Proof. intros Hm Hh. eapply hoare_try; [exact Hm | exact Hh]. Qed.
Lemma preserves_for_of {A S} (xs : list A) (s : S) (body : S -> A -> M S) :
  (forall s x, preserves I (body s x)) -> preserves I (for_of xs s body).
Proof.
  intros Hb. revert s. induction xs as [|x xs IH]; intros s; cbn [for_of].
  - apply preserves_ret.
  - apply preserves_bind; [apply Hb | intros s'; apply IH].
Qed.
End Preservation.

Lemma census_on_trace f n : on_trace (census f n).
Proof. intros st fs H. exact H. Qed.

Lemma census_stable f n e : f e = false -> stable (census f n) e.
Proof.
  intros Hf st H. unfold census, push in *. cbn [trace].
  rewrite List.filter_app, length_app. cbn. rewrite Hf. cbn. lia.
Qed.

Lemma census_counts f n e st : f e = true -> census f n st -> census f (S n) (push e st).
Proof.
  intros Hf H. unfold census, push in *. cbn [trace].
  rewrite List.filter_app, length_app. cbn. rewrite Hf. cbn. lia.
Qed.

Ltac preserve_step side :=
  lazymatch goal with
  | |- preserves _ (bind _ _) => apply preserves_bind; [| intros ?]
  | |- preserves _ (try_catch _ _) => apply preserves_try; [| intros ?]
  | |- preserves _ (ret _) => apply preserves_ret
  | |- preserves _ (throw _) => apply preserves_throw
  | |- preserves _ (lift _) => apply preserves_lift
  | |- preserves _ now => apply preserves_now
  | |- preserves _ (get_file _) => apply preserves_get_file
  | |- preserves _ (emit _) => apply preserves_emit; side
  | |- preserves _ (set_file _ _) => apply preserves_set_file; side
  | |- preserves _ (for_of _ _ _) => apply preserves_for_of; intros ? ?
  | |- preserves _ (if ?b then _ else _) => destruct b
  | |- preserves _ (match ?x with _ => _ end) => destruct x
  end.

Ltac preserve side :=
  try match goal with
      | |- hoare ?I ?m _ _ => change (preserves I m)
      end;
  autounfold with prog; cbn beta iota; repeat preserve_step side.

Ltac census_side :=
  first [ apply census_on_trace | apply census_stable; reflexivity ].


(** Symbolic execution of a computation on a state. *)
Ltac run :=
  autounfold with prog;
  unfold bind, try_catch, emit, now, ret, throw, lift, push, response_truthy;
  cbn [trace files fst snd].

(** Case analysis on the answers of the world, outermost call first;
    [known] rewrites with what is assumed about them. *)
Ltac split_call :=
  match goal with
  | |- context [completes ?w ?t ?e] => destruct (completes w t e) eqn:?
  | |- context [settles ?w ?t] => destruct (settles w t) eqn:?
  | |- context [visible ?w ?t ?s] => destruct (visible w t s) eqn:?
  | |- context [row_text ?w ?t ?r] => destruct (row_text w t r) eqn:?
  | |- context [response ?w ?t ?p] => destruct (response w t p) as [[[?|]]|] eqn:?
  | |- context [http ?w ?t ?r] => destruct (http w t r) as [[[?|]]|] eqn:?
  | |- context [get_prop ?v ?p] => destruct (get_prop v p) eqn:?
  | |- context [truthy ?v] => destruct (truthy v) eqn:?
  end.

Ltac explore known :=
  repeat (cbn beta iota delta [trace files fst snd armed_at awaits body];
          rewrite ?last_length;
          first [ progress known | split_call ]);
  cbn beta iota delta [trace files fst snd armed_at awaits body].

Ltac split_calls := explore idtac.

Lemma preserves_hoare {A} (I E : State -> Prop) (m : M A) :
  preserves I m -> (forall st, I st -> E st) ->
  hoare I m (fun _ => I) (fun _ => E).
Proof. intros Hm HE. eapply hoare_weaken; [exact Hm | | |]; cbn; auto. Qed.

Lemma hoare_assume {A} (fact : Prop) (P : State -> Prop) (m : M A) Q E :
  (fact -> hoare P m Q E) -> hoare (fun st => fact /\ P st) m Q E.
Proof. intros H st [Hf HP]. exact (H Hf st HP). Qed.

Lemma keeps_to {A} (I Q : State -> Prop) (E : exn -> State -> Prop) (m : M A) :
  preserves I m ->
  (forall st, I st -> Q st) -> (forall e st, I st -> E e st) ->
  hoare I m (fun _ => Q) E.
Proof. intros Hm HQ HE. eapply hoare_weaken; [exact Hm | | |]; cbn; auto. Qed.

Lemma stable_both (I J : State -> Prop) e :
  stable I e -> stable J e -> stable (fun st => I st /\ J st) e.
Proof. intros HI HJ st [H1 H2]. split; [apply HI, H1 | apply HJ, H2]. Qed.

Lemma holds_stable p c e : stable (holds p c) e.
Proof. intros st H. exact H. Qed.

(** A prompt that the world never shows is reported hidden. *)
Lemma isVisible_hidden w (I : State -> Prop) sel timeout :
  (forall t, visible w t sel = false) ->
  stable I (IsVisible sel timeout) ->
  hoare I (isVisible w sel timeout) (fun shown st => shown = false /\ I st) (fun _ => I).
Proof.
  intros Hhid Hst st HI. run. rewrite Hhid. split; [reflexivity | apply Hst, HI].
Qed.

Lemma existsSync_found (I : State -> Prop) p c :
  stable I (ExistsSync p) ->
  hoare (fun st => I st /\ holds p c st) (existsSync p)
        (fun found st => found = true /\ I st) (fun _ => I).
Proof.
  intros Hst st [HI Hp]. run. unfold get_file. cbn [files].
  unfold holds in Hp. rewrite Hp. split; [reflexivity | apply Hst, HI].
Qed.

(* ===================================================================== *)
(** * Interactive login                                                   *)
(* ===================================================================== *)

Ltac find_in_trace :=
  repeat (rewrite lookup_app_l by (rewrite ?last_length; lia));
  apply list_lookup_middle; rewrite ?last_length; reflexivity.

Lemma MsAuth_login_contract w env :
  login_contract w (MS_USERNAME env) (MsAuth.authenticate w env).
Proof.
  intros st. split; [| split].
  - run. split_calls; eexists; (left; reflexivity) || (right; reflexivity).
  - intros Hc. run.
    explore ltac:(rewrite Hc by reflexivity);
      (eexists; split; [reflexivity |]); intros H2;
      try (rewrite H2 in *; discriminate);
      cbn [trace]; rewrite last_snoc; reflexivity.
  - intros e st'. run.
    split_calls; intros [= <- <-];
      match goal with
      | H : completes _ ?t ?s = false |- _ =>
          exists t, s; cbn [trace];
          split; [lia |];
          split; [find_in_trace |]; split; [reflexivity | exact H]
      end.
Qed.

Lemma Auth_login_contract w env :
  login_contract w (env_username env) (Auth.authenticate w env).
Proof.
  intros st. split; [| split].
  - run. split_calls; eexists; (left; reflexivity) || (right; reflexivity).
  - intros Hc. run.
    explore ltac:(rewrite Hc by reflexivity);
      (eexists; split; [reflexivity |]); intros H2;
      try (rewrite H2 in *; discriminate);
      cbn [trace]; rewrite last_snoc; reflexivity.
  - intros e st'. run.
    split_calls; intros [= <- <-];
      match goal with
      | H : completes _ ?t ?s = false |- _ =>
          exists t, s; cbn [trace];
          split; [lia |];
          split; [find_in_trace |]; split; [reflexivity | exact H]
      end.
Qed.

(** C4. [authenticate], in both login classes, resolves to [true] once
    the username and password steps have gone through, whether or not
    the second-factor wait times out; that timeout is only logged.  It
    settles in no other way than [true] or the rejection [false], and it
    rejects only when one of the credential steps threw. *)
Theorem authenticate_resolves_true_unless_credentials_throw (w : World) (env : Env) :
  login_contract w (MS_USERNAME env) (MsAuth.authenticate w env) /\
  login_contract w (env_username env) (Auth.authenticate w env).
Proof. split; [apply MsAuth_login_contract | apply Auth_login_contract]. Qed.

Lemma authenticate_resolves_true_unless_credentials_throw_witness :
  credentials_accepted Scenario.second_factor_ignored /\
  (forall t, completes Scenario.second_factor_ignored t second_factor_wait = false) /\
  exists st',
    MsAuth.authenticate Scenario.second_factor_ignored Scenario.env (initial ∅)
      = (Ok true, st') /\
    last (trace st') =
      Some (ConsoleError
              "Failed to handle two-factor authentication for user: alice@example.com").
Proof.
  assert (Hc : credentials_accepted Scenario.second_factor_ignored).
  { intros t e He. destruct e; try discriminate He; reflexivity. }
  assert (H2 : forall t, completes Scenario.second_factor_ignored t second_factor_wait = false).
  { intros t. reflexivity. }
  split; [exact Hc | split; [exact H2 |]].
  destruct (authenticate_resolves_true_unless_credentials_throw
              Scenario.second_factor_ignored Scenario.env) as [Hms _].
  destruct (Hms (initial ∅)) as (_ & Hok & _).
  destruct (Hok Hc) as (st' & Hrun & Hlog).
  exists st'. split; [exact Hrun | exact (Hlog H2)].
Defined.

(* ===================================================================== *)
(** * Scrapers: what is extracted, and what a timeout does                *)
(* ===================================================================== *)

Lemma scrapeCases_value w env st parsed v len :
  (forall url, completes w (S (length (trace st))) (Goto url) = true) ->
  response w (length (trace st)) CasesPattern = delivers parsed ->
  get_prop (Some parsed) "value" = Ok v ->
  get_prop v "length" = Ok len ->
  exists st', Cases.scrapeCases w env st = (Ok v, st').
Proof.
  intros Hgoto Hresp Hv Hlen. unfold delivers in Hresp. run.
  explore ltac:(first [rewrite Hgoto | rewrite Hresp | rewrite Hv | rewrite Hlen]).
  eexists; reflexivity.
Qed.

Lemma scrapeCommunications_value w env c st parsed v len :
  (forall url, completes w (S (length (trace st))) (Goto url) = true) ->
  response w (length (trace st)) CommunicationsPattern = delivers parsed ->
  get_prop (Some parsed) "value" = Ok v ->
  get_prop v "length" = Ok len ->
  exists st', Communications.scrapeCommunications w env c st = (Ok v, st') /\
              files st' = files st /\ appended st' = appended st.
Proof.
  intros Hgoto Hresp Hv Hlen. unfold delivers in Hresp. run.
  explore ltac:(first [rewrite Hgoto | rewrite Hresp | rewrite Hv | rewrite Hlen]).
  eexists; split; [reflexivity |]. split; [reflexivity |].
  unfold appended; cbn [trace]. rewrite !List.filter_app. cbn. rewrite !app_nil_r. reflexivity.
Qed.

Lemma scrape_row_whole_body w templates row st name whole :
  (forall t e, completes w t e = true) ->
  row_text w (length (trace st)) row = Some name ->
  response w (3 + length (trace st)) TemplateDetailPattern = delivers whole ->
  exists st', Templates.scrape_row w templates row st = (Ok (templates ++ [whole]), st').
Proof.
  intros Hc Hname Hresp. unfold delivers in Hresp. cbn [Nat.add] in Hresp. run.
  explore ltac:(first [rewrite Hc | rewrite Hname | rewrite Hresp]).
  eexists; reflexivity.
Qed.

(** C8. A collection response is parsed and its [value] field is the
    scrape result (cases and communications); a template detail
    response is taken whole.  The mocked cases response
    [{value: [{id: c1, displayName: Case One}]}] makes [scrapeCases]
    return exactly that one record. *)
Theorem scrapers_extract_payload (w : World) (env : Env) :
  (forall st parsed v len,
     (forall url, completes w (S (length (trace st))) (Goto url) = true) ->
     response w (length (trace st)) CasesPattern = delivers parsed ->
     get_prop (Some parsed) "value" = Ok v ->
     get_prop v "length" = Ok len ->
     exists st', Cases.scrapeCases w env st = (Ok v, st')) /\
  (forall c st parsed v len,
     (forall url, completes w (S (length (trace st))) (Goto url) = true) ->
     response w (length (trace st)) CommunicationsPattern = delivers parsed ->
     get_prop (Some parsed) "value" = Ok v ->
     get_prop v "length" = Ok len ->
     exists st', Communications.scrapeCommunications w env c st = (Ok v, st')) /\
  (forall templates row st name whole,
     (forall t e, completes w t e = true) ->
     row_text w (length (trace st)) row = Some name ->
     response w (3 + length (trace st)) TemplateDetailPattern = delivers whole ->
     exists st', Templates.scrape_row w templates row st
                 = (Ok (templates ++ [whole]), st')) /\
  fst (Cases.scrapeCases Scenario.mocked_cases Scenario.env (initial ∅))
    = Ok (Some (JArr [Scenario.case_one])).
Proof.
  split; [| split; [| split]].
  - intros *. apply scrapeCases_value.
  - intros c st parsed v len H1 H2 H3 H4.
    destruct (scrapeCommunications_value w env c st parsed v len H1 H2 H3 H4)
      as (st' & Hrun & _).
    exists st'. exact Hrun.
  - intros *. apply scrape_row_whole_body.
  - vm_compute. reflexivity.
Qed.

Lemma scrapers_extract_payload_witness :
  exists st',
    Cases.scrapeCases Scenario.mocked_cases Scenario.env (initial ∅)
      = (Ok (Some (JArr [Scenario.case_one])), st').
Proof.
  destruct (scrapers_extract_payload Scenario.mocked_cases Scenario.env) as (Hcases & _).
  apply (Hcases (initial ∅) (JObj [("value", JArr [Scenario.case_one])])
           (Some (JArr [Scenario.case_one])) (Some (JNum 1))).
  - intros url. reflexivity.
  - reflexivity.
  - reflexivity.
  - reflexivity.
Defined.

Lemma scrapeCases_timeout w env st :
  (forall url, completes w (S (length (trace st))) (Goto url) = true) ->
  response w (length (trace st)) CasesPattern = Never ->
  exists st', Cases.scrapeCases w env st = (Throw TimeoutError, st') /\
              files st' = files st /\ appended st' = appended st.
Proof.
  intros Hgoto Hresp. run.
  explore ltac:(first [rewrite Hgoto | rewrite Hresp]).
  eexists; split; [reflexivity |]. split; [reflexivity |].
  unfold appended; cbn [trace]. rewrite !List.filter_app. cbn. rewrite !app_nil_r. reflexivity.
Qed.

Lemma scrapeTemplates_timeout w st rows name :
  (forall t e, completes w t e = true) ->
  row_count w (length (trace st)) = S rows ->
  row_text w (S (length (trace st))) 0%nat = Some name ->
  response w (4 + length (trace st)) TemplateDetailPattern = Never ->
  exists st', Templates.scrapeTemplates w st = (Throw TimeoutError, st') /\
              files st' = files st /\ appended st' = appended st.
Proof.
  intros Hc Hrows Hname Hresp. cbn [Nat.add] in Hresp.
  unfold Templates.scrapeTemplates, locator_all. run. rewrite Hrows.
  cbn [seq for_of]. run.
  explore ltac:(first [rewrite Hc | rewrite Hname | rewrite Hresp]).
  eexists; split; [reflexivity |]. split; [reflexivity |].
  unfold appended; cbn [trace]. rewrite !List.filter_app. cbn. rewrite !app_nil_r. reflexivity.
Qed.

(** What [scrapeCommunications] does on the same timeout: it returns
    the empty list and asks for one entry to be appended to the log. *)
Lemma scrapeCommunications_timeout w env c st :
  (forall url, completes w (S (length (trace st))) (Goto url) = true) ->
  response w (length (trace st)) CommunicationsPattern = Never ->
  exists st' entry,
    Communications.scrapeCommunications w env c st = (Ok (Some (JArr [])), st') /\
    appended st' = appended st ++ [AppendFile "error_log.txt" entry].
Proof.
  intros Hgoto Hresp. run.
  explore ltac:(first [rewrite Hgoto | rewrite Hresp]);
    (eexists; eexists; split; [reflexivity |]);
    unfold appended; cbn [trace]; rewrite !List.filter_app; cbn;
    rewrite !app_nil_r; reflexivity.
Qed.

(** C2, evaluated on the code.  When the awaited response never
    arrives, [scrapeCases] and [scrapeTemplates] do not return an empty
    collection: the [TimeoutError] of the wait leaves them, and nothing
    is appended to the error log.  (Only [scrapeCommunications] catches
    it, see [scrapeCommunications_timeout].) *)
Theorem timeout_escapes_cases_and_templates (w : World) (env : Env) (st : State) :
  ((forall url, completes w (S (length (trace st))) (Goto url) = true) ->
   response w (length (trace st)) CasesPattern = Never ->
   exists st', Cases.scrapeCases w env st = (Throw TimeoutError, st') /\
               files st' = files st /\ appended st' = appended st) /\
  (forall rows name,
     (forall t e, completes w t e = true) ->
     row_count w (length (trace st)) = S rows ->
     row_text w (S (length (trace st))) 0%nat = Some name ->
     response w (4 + length (trace st)) TemplateDetailPattern = Never ->
     exists st', Templates.scrapeTemplates w st = (Throw TimeoutError, st') /\
                 files st' = files st /\ appended st' = appended st).
Proof.
  split.
  - apply scrapeCases_timeout.
  - intros rows name. apply scrapeTemplates_timeout.
Qed.

Lemma timeout_escapes_cases_and_templates_witness :
  (exists st', Cases.scrapeCases Scenario.silent Scenario.env (initial ∅)
               = (Throw TimeoutError, st') /\
               files st' = ∅ /\ appended st' = []) /\
  (exists st', Templates.scrapeTemplates Scenario.silent (initial ∅)
               = (Throw TimeoutError, st') /\
               files st' = ∅ /\ appended st' = []).
Proof.
  destruct (timeout_escapes_cases_and_templates Scenario.silent Scenario.env (initial ∅))
    as [Hcases Htemplates].
  split.
  - apply Hcases; [intros url |]; reflexivity.
  - apply (Htemplates 1%nat "Template 0"); [intros t e | | |]; reflexivity.
Defined.

(* ===================================================================== *)
(** * Session reuse                                                       *)
(* ===================================================================== *)

Ltac quiet_side :=
  first [ apply census_on_trace
        | apply census_stable; reflexivity
        | apply holds_stable
        | apply stable_both; [apply census_stable; reflexivity | apply holds_stable] ].

Lemma Index_main_reuses_session w env fs content :
  fs !! Index.session_file env = Some content ->
  census is_login_interaction 0 (snd (Index.main w env (initial fs))).
Proof.
  intros Hfile.
  set (I := census is_login_interaction 0).
  assert (Hmain : hoare (fun st => I st /\ holds (Index.session_file env) content st)
                    (Index.main w env) (fun _ => I) (fun _ => I)).
  { unfold Index.main.
    do 3 (eapply hoare_bind;
          [apply preserves_hoare; [preserve quiet_side | intros st [H _]; exact H]
          | intros ?]).
    eapply hoare_bind.
    { apply existsSync_found. apply census_stable; reflexivity. }
    intros found. apply hoare_assume; intros ->.
    preserve quiet_side. }
  specialize (Hmain (initial fs)).
  destruct (Index.main w env (initial fs)) as [[u|e] st']; apply Hmain;
    (split; [reflexivity | exact Hfile]).
Qed.

Lemma Scraper_main_no_credential_entry w env fs :
  (forall t, visible w t Scraper.sign_in_prompt = false) ->
  census is_credential_entry 0 (snd (Scraper.main w env (initial fs))).
Proof.
  intros Hhid.
  set (I := census is_credential_entry 0).
  assert (Hmain : hoare I (Scraper.main w env) (fun _ => I) (fun _ => I)).
  { unfold Scraper.main.
    do 5 (eapply hoare_bind;
          [apply (preserves_hoare I I); [preserve quiet_side | auto] | intros ?]).
    eapply hoare_bind.
    { apply isVisible_hidden; [exact Hhid | apply census_stable; reflexivity]. }
    intros shown. apply hoare_assume; intros ->.
    cbn beta iota zeta delta [negb]. preserve quiet_side. }
  specialize (Hmain (initial fs)).
  destruct (Scraper.main w env (initial fs)) as [[u|e] st']; apply Hmain; reflexivity.
Qed.

Lemma MsAuth_goto_counts w env n :
  hoare (census is_login_goto n) (MsAuth.goto w env)
        (fun _ => census is_login_goto (S n)) (fun _ => census is_login_goto (S n)).
Proof.
  intros st H. run.
  assert (H1 : census is_login_goto (S n) (push (Goto login_url) st))
    by (apply census_counts; [reflexivity | exact H]).
  split_calls; [| exact H1].
  apply (census_stable is_login_goto (S n) (ConsoleLog _) eq_refl _ H1).
Qed.

Lemma Scraper_main_one_login_goto w env fs :
  (forall t, visible w t Scraper.sign_in_prompt = false) ->
  (length (List.filter is_login_goto (trace (snd (Scraper.main w env (initial fs))))) <= 1)%nat.
Proof.
  intros Hhid.
  set (E := fun st : State => (length (List.filter is_login_goto (trace st)) <= 1)%nat).
  assert (H0 : forall st, census is_login_goto 0 st -> E st)
    by (unfold census, E; intros st ->; lia).
  assert (H1 : forall st, census is_login_goto 1 st -> E st)
    by (unfold census, E; intros st ->; lia).
  assert (Hmain : hoare (census is_login_goto 0) (Scraper.main w env)
                    (fun _ => E) (fun _ => E)).
  { unfold Scraper.main.
    do 4 (eapply hoare_bind;
          [apply preserves_hoare; [preserve quiet_side | exact H0] | intros ?]).
    eapply hoare_bind.
    { eapply hoare_weaken;
        [apply MsAuth_goto_counts
        | intros st H; exact H
        | intros ? st H; exact H
        | intros ? st H; apply H1, H]. }
    intros ?. eapply hoare_bind.
    { eapply hoare_weaken;
        [apply (isVisible_hidden w (census is_login_goto 1));
           [exact Hhid | apply census_stable; reflexivity]
        | intros st H; exact H
        | intros ? st H; exact H
        | intros ? st H; apply H1, H]. }
    intros shown. apply hoare_assume; intros ->.
    cbn beta iota zeta delta [negb].
    eapply hoare_weaken; [| | intros ? st H; apply H1, H | intros ? st H; apply H1, H].
    { assert (Hrest : forall m : M unit,
                preserves (census is_login_goto 1) m ->
                hoare (census is_login_goto 1) m
                  (fun _ => census is_login_goto 1) (fun _ => census is_login_goto 1))
        by (intros m Hm; exact Hm).
      apply Hrest. preserve quiet_side. }
    auto. }
  specialize (Hmain (initial fs)).
  destruct (Scraper.main w env (initial fs)) as [[u|e] st']; apply Hmain; reflexivity.
Qed.

(** ** Straight to the scrape *)

Lemma on_path_call w fs made e failure E :
  browser_responsive w -> is_call e = true ->
  hoare (on_path fs made) (call w e failure) (fun _ => on_path fs (made ++ [e])) E.
Proof.
  intros Hc He st [Hf Hm]. unfold call, bind, now, emit, ret. cbn beta iota.
  rewrite Hc. split; [exact Hf |].
  unfold calls, push. cbn [trace]. rewrite List.filter_app. cbn [List.filter].
  rewrite He. unfold calls in Hm. rewrite Hm. reflexivity.
Qed.

Lemma on_path_log fs made msg E :
  hoare (on_path fs made) (console_log msg) (fun _ => on_path fs made) E.
Proof.
  intros st [Hf Hm]. unfold console_log, emit. split; [exact Hf |].
  unfold calls, push. cbn [trace]. rewrite List.filter_app. cbn.
  rewrite app_nil_r. exact Hm.
Qed.

Lemma on_path_newContext w fs made p content E :
  browser_responsive w -> fs !! resolve p = Some content ->
  hoare (on_path fs made) (newContext w p)
        (fun _ => on_path fs (made ++ [NewContext p])) E.
Proof.
  intros Hc Hp st [Hf Hm]. unfold newContext, bind at 1, get_file. cbn beta iota.
  rewrite Hf, Hp. apply (on_path_call w fs made (NewContext p) TimeoutError E Hc eq_refl).
  split; assumption.
Qed.

Lemma on_path_isVisible w fs made sel timeout E :
  (forall t, visible w t sel = false) ->
  hoare (on_path fs made) (isVisible w sel timeout)
        (fun shown st => shown = false /\ on_path fs (made ++ [IsVisible sel timeout]) st) E.
Proof.
  intros Hhid st [Hf Hm]. unfold isVisible, bind, now, emit, ret. cbn beta iota.
  rewrite Hhid. split; [reflexivity |]. split; [exact Hf |].
  unfold calls, push. cbn [trace]. rewrite List.filter_app. cbn.
  unfold calls in Hm. rewrite Hm. reflexivity.
Qed.

Lemma on_path_existsSync fs made p content E :
  fs !! resolve p = Some content ->
  hoare (on_path fs made) (existsSync p)
        (fun found st => found = true /\ on_path fs (made ++ [ExistsSync p]) st) E.
Proof.
  intros Hp st [Hf Hm]. unfold existsSync, bind, emit, get_file, ret. cbn beta iota.
  cbn [files push]. rewrite Hf, Hp. split; [reflexivity |]. split; [exact Hf |].
  unfold calls, push. cbn [trace]. rewrite List.filter_app. cbn.
  unfold calls in Hm. rewrite Hm. reflexivity.
Qed.

Lemma on_path_locator_all w fs made sel E :
  hoare (on_path fs made) (locator_all w sel)
        (fun _ => on_path fs (made ++ [LocatorAll sel])) E.
Proof.
  intros st [Hf Hm]. unfold locator_all, bind, now, emit, ret. cbn beta iota.
  split; [exact Hf |].
  unfold calls, push. cbn [trace]. rewrite List.filter_app. cbn.
  unfold calls in Hm. rewrite Hm. reflexivity.
Qed.

Lemma on_path_reached fs made st : on_path fs made st -> reached made st.
Proof. intros [_ Hm]. unfold reached. rewrite Hm. reflexivity. Qed.

Lemma reached_on_trace path : on_trace (reached path).
Proof. intros st fs H. exact H. Qed.

Lemma reached_stable path e : stable (reached path) e.
Proof.
  intros st H. unfold reached, calls, push in *. cbn [trace].
  rewrite List.filter_app. apply prefix_app_r, H.
Qed.

(** The calls of a block of navigation steps, one after the other. *)
Ltac walk Hc :=
  cbn beta;
  lazymatch goal with
  | |- hoare _ (bind _ _) _ _ => eapply hoare_bind; [walk Hc | intros ?; walk Hc]
  | |- hoare _ (page _ _) _ _ => apply on_path_call; [exact Hc | reflexivity]
  | |- hoare _ (call _ _ _) _ _ => apply on_path_call; [exact Hc | reflexivity]
  | |- hoare _ (console_log _) _ _ => apply on_path_log
  | |- hoare _ (Templates.handlePopup _) _ _ => unfold Templates.handlePopup; walk Hc
  end.

Ltac rest_reached :=
  match goal with
  | |- hoare _ _ (fun _ => reached ?path) _ =>
      apply (keeps_to (reached path) (reached path));
      [ preserve ltac:(first [apply reached_on_trace | apply reached_stable])
      | auto | auto ]
  end.

(** From the templates page to the listing of the rows, then on. *)
Lemma templates_scrape_reached w env fs made (rest : list json -> M unit) :
  browser_responsive w ->
  (forall templates, preserves (reached (made ++ to_first_scrape env)) (rest templates)) ->
  hoare (on_path fs made)
        (Templates.goto w env >>
         console_log "Navigating to Communication Library..." >>
         Templates.clickOnCommunicationLibrary w >>
         console_log "Scraping templates from Microsoft E-Discovery..." >>
         bind (Templates.scrapeTemplates w) rest)
        (fun _ => reached (made ++ to_first_scrape env))
        (fun _ => reached (made ++ to_first_scrape env)).
Proof.
  intros Hc Hrest.
  eapply hoare_bind; [unfold Templates.goto; walk Hc | intros ?].
  eapply hoare_bind; [apply on_path_log | intros ?].
  eapply hoare_bind; [unfold Templates.clickOnCommunicationLibrary; walk Hc | intros ?].
  eapply hoare_bind; [apply on_path_log | intros ?].
  eapply hoare_bind with (R := fun _ => reached (made ++ to_first_scrape env));
    [| intros templates; apply Hrest].
  unfold Templates.scrapeTemplates.
  eapply hoare_bind; [apply on_path_locator_all | intros rows].
  eapply hoare_weaken with (P' := reached (made ++ to_first_scrape env))
                           (Q' := fun _ => reached (made ++ to_first_scrape env))
                           (E' := fun _ => reached (made ++ to_first_scrape env));
    [ rest_reached | | intros ? ? H; exact H | intros ? ? H; exact H ].
  intros st H. apply on_path_reached in H. cbn beta in H.
  rewrite <- !app_assoc in H. exact H.
Qed.

Lemma Scraper_goes_straight w env fs content :
  browser_responsive w ->
  (forall t, visible w t Scraper.sign_in_prompt = false) ->
  fs !! session_file_of (MS_USERNAME env) = Some content ->
  reached (scraper_direct_path env) (snd (Scraper.main w env (initial fs))).
Proof.
  intros Hc Hhid Hfile.
  assert (Hmain : hoare (on_path fs []) (Scraper.main w env)
                    (fun _ => reached (scraper_direct_path env))
                    (fun _ => reached (scraper_direct_path env))).
  { unfold Scraper.main.
    eapply hoare_bind; [apply on_path_call; [exact Hc | reflexivity] | intros ?].
    eapply hoare_bind;
      [apply (on_path_newContext w fs _ _ content); [exact Hc | exact Hfile] | intros ?].
    eapply hoare_bind; [apply on_path_call; [exact Hc | reflexivity] | intros ?].
    eapply hoare_bind; [apply on_path_call; [exact Hc | reflexivity] | intros ?].
    eapply hoare_bind; [unfold MsAuth.goto; walk Hc | intros ?].
    eapply hoare_bind; [apply on_path_isVisible, Hhid | intros shown].
    apply hoare_assume; intros ->. cbn beta iota zeta delta [negb].
    eapply hoare_bind; [apply on_path_log | intros ?].
    eapply hoare_bind; [apply on_path_log | intros ?].
    eapply hoare_weaken;
      [ apply templates_scrape_reached;
        [ exact Hc
        | intros templates;
          preserve ltac:(first [apply reached_on_trace | apply reached_stable]) ]
      | intros st H; exact H
      | intros ? st H; exact H
      | intros ? st H; exact H ]. }
  specialize (Hmain (initial fs) (conj eq_refl eq_refl)).
  destruct (Scraper.main w env (initial fs)) as [[u|e] st']; exact Hmain.
Qed.

Lemma Index_goes_straight w env fs content :
  browser_responsive w ->
  fs !! Index.session_file env = Some content ->
  reached (index_direct_path env) (snd (Index.main w env (initial fs))).
Proof.
  intros Hc Hfile.
  assert (Hmain : hoare (on_path fs []) (Index.main w env)
                    (fun _ => reached (index_direct_path env))
                    (fun _ => reached (index_direct_path env))).
  { unfold Index.main.
    eapply hoare_bind; [apply on_path_call; [exact Hc | reflexivity] | intros ?].
    eapply hoare_bind;
      [apply (on_path_newContext w fs _ _ content); [exact Hc | exact Hfile] | intros ?].
    eapply hoare_bind; [apply on_path_call; [exact Hc | reflexivity] | intros ?].
    eapply hoare_bind; [apply (on_path_existsSync fs _ _ content), Hfile | intros found].
    apply hoare_assume; intros ->.
    eapply hoare_bind; [apply on_path_log | intros ?].
    eapply hoare_weaken;
      [ apply templates_scrape_reached;
        [ exact Hc
        | intros templates;
          preserve ltac:(first [apply reached_on_trace | apply reached_stable]) ]
      | intros st H; exact H
      | intros ? st H; exact H
      | intros ? st H; exact H ]. }
  specialize (Hmain (initial fs) (conj eq_refl eq_refl)).
  destruct (Index.main w env (initial fs)) as [[u|e] st']; exact Hmain.
Qed.

(** C3, as the code has it.  With a saved session that is still valid
    the run enters no credentials: no field is filled and no submit
    button is clicked.  [index.ts], which trusts the mere existence of
    the session file, does not open the login page either; [scraper.ts]
    opens it once, because it is on that page that it looks for the
    sign-in prompt to decide whether the session is valid.  From there
    the run goes straight to the scrape: where the browser does what it
    is asked, the calls up to the listing of the template rows are the
    set-up, the session check, and the way to the Communication
    Library. *)
Theorem valid_session_enters_no_credentials (w : World) (env : Env)
    (fs : gmap string string) :
  ((forall t, visible w t Scraper.sign_in_prompt = false) ->
   census is_credential_entry 0 (snd (Scraper.main w env (initial fs))) /\
   (length (List.filter is_login_goto
              (trace (snd (Scraper.main w env (initial fs))))) <= 1)%nat /\
   (forall content,
      fs !! session_file_of (MS_USERNAME env) = Some content ->
      browser_responsive w ->
      reached (scraper_direct_path env) (snd (Scraper.main w env (initial fs))))) /\
  (forall content,
     fs !! Index.session_file env = Some content ->
     census is_login_interaction 0 (snd (Index.main w env (initial fs))) /\
     (browser_responsive w ->
      reached (index_direct_path env) (snd (Index.main w env (initial fs))))).
Proof.
  split.
  - intros Hhid. split; [| split].
    + apply Scraper_main_no_credential_entry, Hhid.
    + apply Scraper_main_one_login_goto, Hhid.
    + intros content Hfile Hc. apply (Scraper_goes_straight w env fs content Hc Hhid Hfile).
  - intros content Hfile. split.
    + apply (Index_main_reuses_session w env fs content Hfile).
    + intros Hc. apply (Index_goes_straight w env fs content Hc Hfile).
Qed.

Lemma valid_session_enters_no_credentials_witness :
  (census is_credential_entry 0
     (snd (Scraper.main Scenario.silent Scenario.env (initial Scenario.with_session))) /\
   reached (scraper_direct_path Scenario.env)
     (snd (Scraper.main Scenario.silent Scenario.env (initial Scenario.with_session)))) /\
  (census is_login_interaction 0
     (snd (Index.main Scenario.silent Scenario.env (initial Scenario.with_session))) /\
   reached (index_direct_path Scenario.env)
     (snd (Index.main Scenario.silent Scenario.env (initial Scenario.with_session)))).
Proof.
  destruct (valid_session_enters_no_credentials Scenario.silent Scenario.env
              Scenario.with_session) as [Hscraper Hindex].
  assert (Hc : browser_responsive Scenario.silent) by (intros t e; reflexivity).
  assert (Hfile : Scenario.with_session !! "sessions/alice@example.com.json" = Some "{}")
    by (vm_compute; reflexivity).
  split.
  - destruct Hscraper as (Hnone & _ & Hstraight); [intros t; reflexivity |].
    split; [exact Hnone | exact (Hstraight _ Hfile Hc)].
  - destruct (Hindex _ Hfile) as [Hnone Hstraight].
    split; [exact Hnone | exact (Hstraight Hc)].
Defined.

(** C3 as stated fails for [scraper.ts]: with the session file present
    and the sign-in prompt never shown, the run still navigates to the
    login page, once. *)
Lemma valid_session_still_opens_login_page :
  Scenario.with_session !! "sessions/alice@example.com.json" = Some "{}" /\
  (forall t, visible Scenario.silent t Scraper.sign_in_prompt = false) /\
  List.filter is_login_goto
    (trace (snd (Scraper.main Scenario.silent Scenario.env (initial Scenario.with_session))))
  = [Goto "https://login.microsoftonline.com/"].
Proof.
  split; [vm_compute; reflexivity |].
  split; [intros t; reflexivity |].
  vm_compute. reflexivity.
Qed.

(* ===================================================================== *)
(** * Replay: one rejected create call ends the run                       *)
(* ===================================================================== *)

Lemma none_rejected_on_trace w : on_trace (none_rejected w).
Proof. intros st fs H. exact H. Qed.

Lemma none_rejected_post w st req :
  reports_errors (http w (length (trace st)) req) = false ->
  none_rejected w st -> none_rejected w (push (Post req) st).
Proof.
  intros Hok H t (a & n & d & tid & Hl & Hr). cbn [push trace] in Hl.
  apply lookup_snoc_Some in Hl as [[_ Hl] | [-> [= ->]]].
  - apply (H t). exists a, n, d, tid. split; [exact Hl | exact Hr].
  - rewrite Hok in Hr. discriminate Hr.
Qed.

Lemma none_rejected_stable w e : is_create e = false -> stable (none_rejected w) e.
Proof.
  intros He st H t (a & n & d & tid & Hl & Hr). cbn [push trace] in Hl.
  apply lookup_snoc_Some in Hl as [[_ Hl] | [-> ->]].
  - apply (H t). exists a, n, d, tid. split; [exact Hl | exact Hr].
  - discriminate He.
Qed.

Lemma rejected_is_last_post w st req :
  none_rejected w st -> rejected_is_last w (push (Post req) st).
Proof.
  intros H t (a & n & d & tid & Hl & Hr) t' e Hlt He. cbn [push trace] in Hl, He.
  apply lookup_snoc_Some in Hl as [[_ Hl] | [-> _]].
  - exfalso. apply (H t). exists a, n, d, tid. split; [exact Hl | exact Hr].
  - apply lookup_lt_Some in He. rewrite last_length in He. lia.
Qed.

Lemma rejected_is_last_stable w e : is_post e = false -> stable (rejected_is_last w) e.
Proof.
  intros Hq st H t (a & n & d & tid & Hl & Hr) t' e' Hlt He. cbn [push trace] in Hl, He.
  apply lookup_snoc_Some in Hl as [[Hin Hl] | [-> ->]]; [| discriminate Hq].
  apply lookup_snoc_Some in He as [[_ He] | [_ <-]]; [| exact Hq].
  refine (H t _ t' e' Hlt He). exists a, n, d, tid. split; [exact Hl | exact Hr].
Qed.

Lemma error_array_reported r : error_array r = true -> reports_errors r = true.
Proof.
  destruct r as [[[result|]]|]; try discriminate.
  destruct result as [| | | | |fields]; try discriminate.
  cbn. destruct (assoc "errors" fields) as [[]|]; try discriminate. reflexivity.
Qed.

(** The client: a reply with errors makes the call throw, and the call
    is then the last request made; any other way out leaves no rejected
    call behind. *)
Lemma createTemplate_guards w token input :
  guards (none_rejected w) (stops_at_rejection w) (ZubuApi.createTemplate w token input).
Proof.
  intros st H.
  unfold ZubuApi.createTemplate, post, response_json, console_error, console_log.
  unfold bind, try_catch, emit, now, ret, throw, lift. cbn beta iota.
  set (req := CreateTemplate _ _ _ _).
  assert (Hquiet : forall e s, is_create e = false ->
                     none_rejected w s -> none_rejected w (push e s))
    by (intros e s He; apply none_rejected_stable, He).
  destruct (http w (length (trace st)) req) as [[[result|]]|] eqn:Hr;
    cbn beta iota delta [body].
  - destruct (get_prop (Some result) "errors") as [errors|] eqn:He; cbn beta iota.
    + destruct (truthy errors) eqn:Ht; cbn beta iota.
      * right. split; [reflexivity |].
        do 2 (apply rejected_is_last_stable; [reflexivity |]).
        apply rejected_is_last_post, H.
      * assert (Hpost : none_rejected w (push (Post req) st)).
        { apply none_rejected_post; [| exact H]. rewrite Hr. unfold reports_errors. rewrite He. exact Ht. }
        destruct (get_prop (Some result) "data") as [data|]; cbn beta iota.
        -- destruct (get_prop data "createTemplate"); cbn beta iota.
           ++ apply Hquiet; [reflexivity | exact Hpost].
           ++ left. do 2 (apply Hquiet; [reflexivity |]). exact Hpost.
        -- left. do 2 (apply Hquiet; [reflexivity |]). exact Hpost.
    + left. apply Hquiet; [reflexivity |].
      apply none_rejected_post; [| exact H]. rewrite Hr. unfold reports_errors. rewrite He. reflexivity.
  - left. apply Hquiet; [reflexivity |].
    apply none_rejected_post; [| exact H]. rewrite Hr. reflexivity.
  - left. apply Hquiet; [reflexivity |].
    apply none_rejected_post; [| exact H]. rewrite Hr. reflexivity.
Qed.

Section Guards.
Context {I : State -> Prop} {E : exn -> State -> Prop}.
Hypothesis stop_anywhere : forall e st, I st -> E e st.

Lemma guards_of_preserves {A} (m : M A) : preserves I m -> guards I E m.
Proof.
  intros Hm. eapply hoare_weaken; [exact Hm | | |]; cbn; auto.
Qed.

Lemma guards_bind {A B} (m : M A) (k : A -> M B) :
  guards I E m -> (forall a, guards I E (k a)) -> guards I E (bind m k).
Proof. intros Hm Hk. eapply hoare_bind; [exact Hm | exact Hk]. Qed.

Lemma guards_for_of {A S} (xs : list A) (s : S) (body : S -> A -> M S) :
  (forall s x, guards I E (body s x)) -> guards I E (for_of xs s body).
Proof.
  intros Hb. revert s. induction xs as [|x xs IH]; intros s; cbn [for_of].
  - apply guards_of_preserves, preserves_ret.
  - apply guards_bind; [apply Hb | intros s'; apply IH].
Qed.
End Guards.

Ltac replay_side :=
  first [ apply none_rejected_on_trace
        | apply none_rejected_stable; reflexivity ].

Ltac guard_step stop :=
  lazymatch goal with
  | |- guards _ _ (bind _ _) => apply guards_bind; [| intros ?]
  | |- guards _ _ (for_of _ _ _) => apply (guards_for_of stop); intros ? ?
  | |- guards _ _ (ZubuApi.createTemplate _ _ _) => apply createTemplate_guards
  | |- guards _ _ (if ?b then _ else _) => destruct b
  | |- guards _ _ _ => apply (guards_of_preserves stop); preserve replay_side
  end.

Lemma replay_guards w env :
  guards (none_rejected w) (stops_at_rejection w) (Migrator.main w env).
Proof.
  assert (stop : forall e st, none_rejected w st -> stops_at_rejection w e st)
    by (intros e st H; left; exact H).
  autounfold with replay. repeat guard_step stop.
Qed.

(** C6. A create-template call whose reply carries an [errors] array is
    a hard failure: the replay ends with the error [Template creation
    failed], and after that call no further request is made, neither a
    retry nor the calls for the artifacts still queued. *)
Theorem rejected_create_aborts_replay (w : World) (env : Env) (fs : gmap string string)
    (t : nat) (authorization name : string) (detail : option string) (tenantId : value) :
  let request := CreateTemplate authorization name detail tenantId in
  trace (snd (Migrator.main w env (initial fs))) !! t = Some (Post request) ->
  error_array (http w t request) = true ->
  fst (Migrator.main w env (initial fs)) = Throw (Error "Template creation failed") /\
  forall t' e, (t < t')%nat ->
    trace (snd (Migrator.main w env (initial fs))) !! t' = Some e -> is_post e = false.
Proof.
  intros request Hcall Herr.
  assert (Hrej : rejected_at w (trace (snd (Migrator.main w env (initial fs)))) t).
  { exists authorization, name, detail, tenantId.
    split; [exact Hcall | apply error_array_reported, Herr]. }
  assert (Hstart : none_rejected w (initial fs)).
  { intros t0 (a & n & d & tid & Hl & _). cbn in Hl. rewrite lookup_nil in Hl. discriminate. }
  pose proof (replay_guards w env (initial fs) Hstart) as Hrun.
  destruct (Migrator.main w env (initial fs)) as [[u|e] st']; cbn [fst snd] in *.
  - exfalso. exact (Hrun t Hrej).
  - destruct Hrun as [Hnone | [-> Hlast]].
    + exfalso. exact (Hnone t Hrej).
    + split; [reflexivity | exact (Hlast t Hrej)].
Qed.

Lemma rejected_create_aborts_replay_witness :
  fst (Migrator.main Scenario.rejecting Scenario.env (initial Scenario.exported))
    = Throw (Error "Template creation failed") /\
  forall t' e, (10 < t')%nat ->
    trace (snd (Migrator.main Scenario.rejecting Scenario.env (initial Scenario.exported)))
      !! t' = Some e ->
    is_post e = false.
Proof.
  apply (rejected_create_aborts_replay Scenario.rejecting Scenario.env Scenario.exported
           10 "Bearer tok" "Hold notice - issuance" (Some "null") (Some (JStr "t-9"))).
  - vm_compute. reflexivity.
  - vm_compute. reflexivity.
Defined.

(* ===================================================================== *)
(** * Replay: a failed login ends the run before any create call          *)
(* ===================================================================== *)

Lemma selected_on_trace f kept : on_trace (selected f kept).
Proof. intros st fs H. exact H. Qed.

Lemma selected_stable f kept e : f e = false -> stable (selected f kept) e.
Proof.
  intros Hf st H. unfold selected, push in *. cbn [trace].
  rewrite List.filter_app. cbn. rewrite Hf, app_nil_r. exact H.
Qed.

Ltac selected_side :=
  first [ apply selected_on_trace | apply selected_stable; reflexivity ].

(** Filtering an explicit trace. *)
Ltac filtered H :=
  unfold selected, created, appended, written, census, push in *;
  cbn beta iota delta [trace files fst snd];
  rewrite ?List.filter_app; cbn [List.filter is_create is_append is_write is_post];
  rewrite ?app_nil_r, <- ?app_assoc;
  first [ exact H | rewrite H; reflexivity | reflexivity ].

Ltac filtered_in H :=
  unfold selected, created, appended, written, census, push in *;
  cbn beta iota delta [trace files fst snd] in *;
  rewrite ?List.filter_app in *;
  cbn [List.filter is_create is_append is_write is_post] in *;
  rewrite ?app_nil_r, <- ?app_assoc in *;
  first [ exact H | rewrite H; reflexivity ].

Lemma hoare_false {A} (m : M A) Q E : hoare (fun _ => False) m Q E.
Proof. intros st []. Qed.

(** Without a [data.authenticateUser] result, reading the first field of
    the result throws. *)
Lemma no_payload_throws responseBody f :
  auth_rejected (Replies {| body := Some responseBody |}) = true ->
  ZubuApi.authenticateUser_field responseBody f = Throw TypeError.
Proof.
  unfold auth_rejected, ZubuApi.authenticateUser_field, field.
  destruct responseBody as [| | | | |fields]; try reflexivity.
  cbn [get_prop].
  destruct (assoc "data" fields) as [[| | | | |dfields]|]; try reflexivity.
  cbn [get_prop].
  destruct (assoc "authenticateUser" dfields) as [[]|]; try reflexivity; discriminate.
Qed.

Lemma authenticateUser_rejected w email password kept :
  (forall t, auth_rejected (http w t (AuthenticateUser email password)) = true) ->
  hoare (selected is_create kept) (ZubuApi.authenticateUser w email password)
        (fun _ _ => False) (fun _ => selected is_create kept).
Proof.
  intros Hrej st H. run.
  specialize (Hrej (length (trace st))).
  destruct (http w (length (trace st)) (AuthenticateUser email password))
    as [[[responseBody|]]|];
    cbn beta iota delta [trace files fst snd body].
  - rewrite (no_payload_throws _ _ Hrej). filtered H.
  - filtered H.
  - filtered H.
Qed.

(** When the destination answers the login without an
    [authenticateUser] result (a GraphQL error response with no data, an
    unreadable body, no answer at all), the replay throws, and it has
    issued no create-template call. *)
Lemma unreadable_login_aborts (w : World) (env : Env)
    (fs : gmap string string) :
  (forall t, auth_rejected
               (http w t (AuthenticateUser (ZUBU_USERNAME env) (ZUBU_PASSWORD env))) = true) ->
  exists e st',
    Migrator.main w env (initial fs) = (Throw e, st') /\ created st' = [].
Proof.
  intros Hrej.
  assert (Hmain : hoare (selected is_create []) (Migrator.main w env)
                    (fun _ _ => False) (fun _ => selected is_create [])).
  { unfold Migrator.main.
    do 3 (eapply hoare_bind;
          [apply (preserves_hoare (selected is_create []) (selected is_create []));
             [preserve selected_side | auto]
          | intros ?]).
    eapply hoare_bind; [apply authenticateUser_rejected, Hrej |].
    intros auth. apply hoare_false. }
  specialize (Hmain (initial fs) eq_refl).
  destruct (Migrator.main w env (initial fs)) as [[u|e] st']; [destruct Hmain |].
  exists e, st'. split; [reflexivity | exact Hmain].
Qed.


(* ===================================================================== *)
(** * Replay of the exported templates                                    *)
(* ===================================================================== *)

(** The request a call of [createTemplate] posts. *)
Lemma createTemplate_one_call w token input st :
  created (snd (ZubuApi.createTemplate w token input st))
    = created st ++ [Post (CreateTemplate ("Bearer " +:+ to_string token)
                             (ZubuApi.templateName input) (ZubuApi.templateBody input)
                             (ZubuApi.tenantId input))] /\
  files (snd (ZubuApi.createTemplate w token input st)) = files st.
Proof.
  run. split_calls; (split; [filtered (eq_refl (created st)) | reflexivity]).
Qed.

Lemma get_prop_length items :
  get_prop (Some (JArr items)) "length" = Ok (Some (JNum (Z.of_nat (length items)))).
Proof. reflexivity. Qed.

Lemma replay_templates_first_only w auth st text first rest name typed body :
  holds "exports/templates.json" text st ->
  parse w text = Some (JArr (first :: rest)) ->
  get_prop (Some first) "templateName" = Ok name ->
  get_prop (Some first) "issuance" = Ok typed ->
  get_prop typed "body" = Ok body ->
  created (snd (Migrator.replay_templates w auth st))
    = created st ++ [Post (CreateTemplate ("Bearer " +:+ to_string (ZubuApi.accessToken auth))
                             (to_string name +:+ " - issuance") (JSON_stringify body)
                             (ZubuApi.tenant_id auth))].
Proof.
  intros Hfile Hparse Hname Htyped Hbody. unfold holds in Hfile.
  unfold Migrator.replay_templates, Migrator.create_template, Migrator.create_typed,
    for_each, read_json, console_log, get_file.
  unfold bind, emit, ret, throw, lift, now, push.
  cbn beta iota delta [trace files fst snd].
  rewrite Hfile, Hparse, get_prop_length.
  cbn beta iota delta [get_index nth_error for_of hd Migrator.templateTypes fst snd].
  unfold bind, ret. cbn beta iota delta [trace files fst snd].
  rewrite Hname, Htyped, Hbody.
  match goal with
  | |- context [ZubuApi.createTemplate ?w ?t ?i ?s] =>
      destruct (createTemplate_one_call w t i s) as [Hcall _];
      destruct (ZubuApi.createTemplate w t i s) as [[v|e] st1]
  end; cbn beta iota delta [fst snd ZubuApi.templateName ZubuApi.templateBody ZubuApi.tenantId] in *.
  - filtered_in Hcall.
  - filtered_in Hcall.
Qed.

(** C1, as the code has it.  The replay of [exports/templates.json]
    submits the first record of the array and nothing else: one
    create-template call, for the type [issuance], named
    [<templateName> - issuance] and carrying [JSON.stringify] of the
    record's issuance body.  The call is made whatever the body is; a
    [null] body is sent as the text [null], an empty string as the two
    quote characters.  The records after the first play no part. *)
Theorem replay_submits_first_template_only (w : World) (auth : ZubuApi.Auth)
    (st : State) (text : string) (first : json) (rest : list json)
    (name typed body : value) :
  holds "exports/templates.json" text st ->
  parse w text = Some (JArr (first :: rest)) ->
  get_prop (Some first) "templateName" = Ok name ->
  get_prop (Some first) "issuance" = Ok typed ->
  get_prop typed "body" = Ok body ->
  created (snd (Migrator.replay_templates w auth st))
    = created st ++ [Post (CreateTemplate ("Bearer " +:+ to_string (ZubuApi.accessToken auth))
                             (to_string name +:+ " - issuance") (JSON_stringify body)
                             (ZubuApi.tenant_id auth))] /\
  JSON_stringify (Some JNull) = Some "null" /\
  JSON_stringify (Some (JStr EmptyString)) = Some (dq +:+ dq).
Proof.
  intros Hfile Hparse Hname Htyped Hbody.
  split; [| split; reflexivity].
  exact (replay_templates_first_only w auth st text first rest name typed body
           Hfile Hparse Hname Htyped Hbody).
Qed.

Lemma replay_submits_first_template_only_witness :
  created (snd (Migrator.replay_templates Scenario.replaying Scenario.auth
                  (initial Scenario.exported)))
    = [Post (CreateTemplate "Bearer tok" "Hold notice - issuance" (Some "null")
               (Some (JStr "t-9")))].
Proof.
  apply (replay_submits_first_template_only Scenario.replaying Scenario.auth
           (initial Scenario.exported) (JSON_stringify_pretty Scenario.templates_array)
           Scenario.blank_template [Scenario.second_template]
           (Some (JStr "Hold notice")) (Some (JObj [("body", JNull)])) (Some JNull)).
  - vm_compute. reflexivity.
  - vm_compute. reflexivity.
  - reflexivity.
  - reflexivity.
  - reflexivity.
Defined.

(** C1 as stated fails: the exported array holds two templates, one type
    is selected, and the replay issues one create-template call, not
    two; the second template is never submitted. *)
Lemma second_template_is_never_replayed :
  parse Scenario.replaying (JSON_stringify_pretty Scenario.templates_array)
    = Some (JArr [Scenario.blank_template; Scenario.second_template]) /\
  created (snd (Migrator.replay_templates Scenario.replaying Scenario.auth
                  (initial Scenario.exported)))
    = [Post (CreateTemplate "Bearer tok" "Hold notice - issuance" (Some "null")
               (Some (JStr "t-9")))] /\
  length (created (snd (Migrator.replay_templates Scenario.replaying Scenario.auth
                          (initial Scenario.exported))))
    <> (length [Scenario.blank_template; Scenario.second_template] * 1)%nat.
Proof.
  split; [vm_compute; reflexivity |].
  split; [vm_compute; reflexivity |].
  vm_compute. discriminate.
Qed.

(* ===================================================================== *)
(** * Replay of the exported communications                               *)
(* ===================================================================== *)





Lemma files_stable fs e : stable (fun st => files st = fs) e.
Proof. intros st H. exact H. Qed.






(* ===================================================================== *)
(** * The per-row template scraper                                        *)
(* ===================================================================== *)

Lemma scrape_row_cycle w templates row st :
  browser_responsive w -> rows_readable w -> details_arrive w ->
  exists whole st',
    Templates.scrape_row w templates row st = (Ok (templates ++ [whole]), st') /\
    cycle_steps st' = cycle_steps st ++ cycle row.
Proof.
  intros Hc Hrows Hresp. run.
  explore ltac:(rewrite Hc);
    try (exfalso; eapply Hrows; eassumption);
    try match goal with
        | H : response w ?t TemplateDetailPattern = _ |- _ =>
            destruct (Hresp t) as [whole Hw]; rewrite Hw in H; discriminate H
        end.
  eexists. eexists. split; [reflexivity |].
  unfold cycle_steps, cycle. cbn [trace].
  rewrite !List.filter_app. cbn [List.filter is_cycle_step].
  rewrite ?app_nil_r, <- ?app_assoc. reflexivity.
Qed.

Lemma scrape_rows_cycles w rows :
  browser_responsive w -> rows_readable w -> details_arrive w ->
  forall templates st,
    exists scraped st',
      for_of rows templates (Templates.scrape_row w) st = (Ok (templates ++ scraped), st') /\
      length scraped = length rows /\
      cycle_steps st' = cycle_steps st ++ flat_map cycle rows.
Proof.
  intros Hc Hrows Hresp.
  induction rows as [|row rows IH]; intros templates st.
  - exists [], st. cbn. rewrite !app_nil_r. auto.
  - destruct (scrape_row_cycle w templates row st Hc Hrows Hresp)
      as (whole & st1 & Hrun & Hsteps).
    destruct (IH (templates ++ [whole]) st1) as (scraped & st2 & Hrun2 & Hlen & Hsteps2).
    exists (whole :: scraped), st2. cbn [for_of]. unfold bind at 1. rewrite Hrun.
    split; [rewrite Hrun2, <- app_assoc; reflexivity |].
    split; [cbn [length]; rewrite Hlen; reflexivity |].
    rewrite Hsteps2, Hsteps. cbn [flat_map]. rewrite <- app_assoc. reflexivity.
Qed.

Lemma one_in_flight_cycles rows :
  one_in_flight false (flat_map cycle rows) = true.
Proof. induction rows as [|row rows IH]; [reflexivity | exact IH]. Qed.

(** Whatever the world does, a row goes through an initial part of its
    cycle, and through all of it when the iteration completes. *)
Lemma scrape_row_in_order w templates row st :
  exists steps,
    cycle_steps (snd (Templates.scrape_row w templates row st)) = cycle_steps st ++ steps /\
    steps `prefix_of` cycle row /\
    (forall scraped, fst (Templates.scrape_row w templates row st) = Ok scraped ->
                     steps = cycle row).
Proof.
  run. unfold cycle_steps, cycle.
  split_calls; cbn beta iota delta [trace fst snd];
    rewrite !List.filter_app; cbn [List.filter is_cycle_step];
    rewrite ?app_nil_r, <- ?app_assoc;
    (eexists; split; [first [reflexivity | symmetry; apply app_nil_r] |]; split;
     [ eexists; cbn [app]; reflexivity
     | intros scraped Hok; first [ discriminate Hok | reflexivity ] ]).
Qed.

Lemma scrape_rows_in_order w rows :
  forall templates st,
    exists steps,
      cycle_steps (snd (for_of rows templates (Templates.scrape_row w) st))
        = cycle_steps st ++ steps /\
      steps `prefix_of` flat_map cycle rows /\
      (forall scraped,
         fst (for_of rows templates (Templates.scrape_row w) st) = Ok scraped ->
         steps = flat_map cycle rows).
Proof.
  induction rows as [|row rows IH]; intros templates st.
  - exists []. cbn. rewrite app_nil_r. auto.
  - destruct (scrape_row_in_order w templates row st) as (steps1 & Hsteps1 & Hpre1 & Hall1).
    cbn [for_of flat_map]. unfold bind at 1 2.
    destruct (Templates.scrape_row w templates row st) as [[templates1|e] st1];
      cbn [fst snd] in *.
    + specialize (Hall1 templates1 eq_refl). subst steps1.
      destruct (IH templates1 st1) as (steps2 & Hsteps2 & Hpre2 & Hall2).
      exists (cycle row ++ steps2).
      split; [rewrite Hsteps2, Hsteps1, <- app_assoc; reflexivity |].
      split; [apply prefix_app, Hpre2 |].
      intros scraped Hok. rewrite (Hall2 scraped Hok). reflexivity.
    + exists steps1. split; [exact Hsteps1 |].
      split; [apply prefix_app_r, Hpre1 | discriminate].
Qed.

Lemma never_two_pending_prefix tr :
  forall pending steps,
    one_in_flight pending tr = true -> steps `prefix_of` tr ->
    never_two_pending pending steps = true.
Proof.
  induction tr as [|e tr IH]; intros pending steps Hall Hpre.
  - apply prefix_nil_inv in Hpre. subst steps. reflexivity.
  - destruct steps as [|e' steps]; [reflexivity |].
    pose proof (prefix_cons_inv_1 _ _ _ _ Hpre) as ->.
    apply prefix_cons_inv_2 in Hpre.
    destruct e; cbn [one_in_flight never_two_pending] in *;
      try (apply (IH _ _ Hall Hpre)).
    + apply andb_prop in Hall as [Hfree Hrest]. rewrite Hfree. cbn.
      apply (IH _ _ Hrest Hpre).
    + apply andb_prop in Hall as [_ Hrest]. apply (IH _ _ Hrest Hpre).
Qed.

(** A row whose detail response arrives goes through its whole cycle,
    in twelve steps. *)
Lemma scrape_row_completes w templates row st whole :
  browser_responsive w -> rows_readable w ->
  response w (length (trace st) + 3) TemplateDetailPattern = delivers whole ->
  exists st',
    Templates.scrape_row w templates row st = (Ok (templates ++ [whole]), st') /\
    cycle_steps st' = cycle_steps st ++ cycle row /\
    length (trace st') = (length (trace st) + 12)%nat.
Proof.
  intros Hc Hrows Hresp. unfold delivers in Hresp.
  replace (length (trace st) + 3)%nat with (S (S (S (length (trace st))))) in Hresp by lia.
  run.
  explore ltac:(first [rewrite Hc | rewrite Hresp]);
    try (exfalso; eapply Hrows; eassumption).
  eexists. split; [reflexivity |]. split.
  - unfold cycle_steps, cycle. cbn [trace].
    rewrite !List.filter_app. cbn [List.filter is_cycle_step].
    rewrite ?app_nil_r, <- ?app_assoc. reflexivity.
  - cbn [trace]. rewrite !last_length. lia.
Qed.

(** A row whose detail response never arrives is left open: the wait
    throws, and [Cancel] is not clicked. *)
Lemma scrape_row_left_open w templates row st :
  browser_responsive w -> rows_readable w ->
  response w (length (trace st) + 3) TemplateDetailPattern = Never ->
  exists st',
    Templates.scrape_row w templates row st = (Throw TimeoutError, st') /\
    cycle_steps st' = cycle_steps st ++ open_cycle row.
Proof.
  intros Hc Hrows Hresp.
  replace (length (trace st) + 3)%nat with (S (S (S (length (trace st))))) in Hresp by lia.
  run.
  explore ltac:(first [rewrite Hc | rewrite Hresp]);
    try (exfalso; eapply Hrows; eassumption).
  eexists. split; [reflexivity |].
  unfold cycle_steps, open_cycle. cbn [trace].
  rewrite !List.filter_app. cbn [List.filter is_cycle_step].
  rewrite ?app_nil_r, <- ?app_assoc. reflexivity.
Qed.

(** The loop stops at the first row whose response does not arrive. *)
Lemma scrape_rows_stop w k :
  browser_responsive w -> rows_readable w ->
  forall first more templates st,
    (forall i, (i < k)%nat -> exists whole,
       response w (length (trace st) + 3 + 12 * i) TemplateDetailPattern = delivers whole) ->
    response w (length (trace st) + 3 + 12 * k) TemplateDetailPattern = Never ->
    exists st',
      for_of (seq first (k + S more)) templates (Templates.scrape_row w) st
        = (Throw TimeoutError, st') /\
      cycle_steps st'
        = cycle_steps st ++ flat_map cycle (seq first k) ++ open_cycle (first + k).
Proof.
  intros Hc Hrows. induction k as [|k IH]; intros first more templates st Harrive Hnever.
  - cbn [Nat.add seq for_of flat_map app]. unfold bind at 1.
    destruct (scrape_row_left_open w templates first st Hc Hrows) as (st' & Hrun & Hsteps).
    { rewrite <- Hnever. f_equal. lia. }
    rewrite Hrun. exists st'. split; [reflexivity |].
    rewrite Hsteps, Nat.add_0_r. reflexivity.
  - cbn [Nat.add seq for_of flat_map]. unfold bind at 1.
    destruct (Harrive 0%nat) as [whole Hwhole]; [lia |].
    destruct (scrape_row_completes w templates first st whole Hc Hrows)
      as (st1 & Hrun & Hsteps & Hlen).
    { rewrite <- Hwhole. f_equal. lia. }
    rewrite Hrun.
    destruct (IH (S first) more (templates ++ [whole]) st1) as (st' & Hrest & Hsteps').
    { intros i Hi. destruct (Harrive (S i)) as [later Hlater]; [lia |].
      exists later. rewrite <- Hlater. f_equal. lia. }
    { rewrite <- Hnever. f_equal. lia. }
    exists st'. split; [exact Hrest |].
    rewrite Hsteps', Hsteps, <- !app_assoc.
    replace (S first + k)%nat with (first + S k)%nat by lia. reflexivity.
Qed.

(** C7, as the code has it.  On a list view with N rendered rows,
    [scrapeTemplates] goes through the cycles of open, arm, Edit,
    capture, Cancel row after row, in order, never arming a wait while
    another is pending.  When the detail response of every row resolves,
    it performs exactly N such cycles and returns exactly N entries.
    It does not perform N cycles whatever happens: at the first row
    whose detail response does not arrive the wait throws out of the
    loop, that row is left open with [Cancel] not clicked, the rows
    after it are not visited, and nothing is returned. *)
Theorem scrapeTemplates_one_cycle_per_row (w : World) (st : State) :
  let N := row_count w (length (trace st)) in
  (exists steps,
     cycle_steps (snd (Templates.scrapeTemplates w st)) = cycle_steps st ++ steps /\
     steps `prefix_of` flat_map cycle (seq 0 N) /\
     never_two_pending false steps = true) /\
  (browser_responsive w -> rows_readable w -> details_arrive w ->
   exists templates st',
     Templates.scrapeTemplates w st = (Ok templates, st') /\
     length templates = N /\
     cycle_steps st' = cycle_steps st ++ flat_map cycle (seq 0 N) /\
     one_in_flight false (flat_map cycle (seq 0 N)) = true) /\
  (browser_responsive w -> rows_readable w ->
   forall k, (k < N)%nat ->
     (forall i, (i < k)%nat -> exists whole,
        response w (detail_armed_at (length (trace st)) i) TemplateDetailPattern
          = delivers whole) ->
     response w (detail_armed_at (length (trace st)) k) TemplateDetailPattern = Never ->
     exists st',
       Templates.scrapeTemplates w st = (Throw TimeoutError, st') /\
       cycle_steps st' = cycle_steps st ++ flat_map cycle (seq 0 k) ++ open_cycle k).
Proof.
  intros N. split; [| split].
  - unfold Templates.scrapeTemplates, locator_all, console_log.
    unfold bind at 1 2 3, emit, now, ret.
    cbn beta iota delta [trace files fst snd]. fold N.
    destruct (scrape_rows_in_order w (seq 0 N) []
                (push (LocatorAll Templates.details_row) st))
      as (steps & Hsteps & Hpre & _).
    exists steps. split; [| split; [exact Hpre |]].
    + unfold bind.
      destruct (for_of (seq 0 N) [] (Templates.scrape_row w)
                  (push (LocatorAll Templates.details_row) st)) as [[templates|e] st1];
        cbn [fst snd] in *;
        unfold cycle_steps, push in *; cbn [trace] in *;
        rewrite ?List.filter_app in *; cbn [List.filter is_cycle_step] in *;
        rewrite ?app_nil_r in *; exact Hsteps.
    + apply (never_two_pending_prefix (flat_map cycle (seq 0 N)));
        [apply one_in_flight_cycles | exact Hpre].
  - intros Hc Hrows Hresp.
    unfold Templates.scrapeTemplates, locator_all, console_log.
    unfold bind at 1 2 3, emit, now, ret.
    cbn beta iota delta [trace files fst snd]. fold N.
    destruct (scrape_rows_cycles w (seq 0 N) Hc Hrows Hresp []
                (push (LocatorAll Templates.details_row) st))
      as (scraped & st1 & Hrun & Hlen & Hsteps).
    unfold bind. rewrite Hrun. cbn beta iota delta [fst snd app].
    eexists. eexists. split; [reflexivity |].
    split; [rewrite Hlen; apply length_seq |].
    split; [| apply one_in_flight_cycles].
    unfold cycle_steps, push in *. cbn [trace] in *.
    rewrite !List.filter_app in *. cbn [List.filter is_cycle_step] in *.
    rewrite ?app_nil_r in *. exact Hsteps.
  - intros Hc Hrows k Hk Harrive Hnever.
    unfold Templates.scrapeTemplates, locator_all, console_log.
    unfold bind at 1 2 3, emit, now, ret.
    cbn beta iota delta [trace files fst snd]. fold N.
    replace N with (k + S (N - S k))%nat by lia.
    destruct (scrape_rows_stop w k Hc Hrows 0%nat (N - S k)%nat []
                (push (LocatorAll Templates.details_row) st))
      as (st' & Hrun & Hsteps).
    { intros i Hi. destruct (Harrive i Hi) as [whole Hwhole]. exists whole.
      rewrite <- Hwhole. f_equal. unfold detail_armed_at, push. cbn [trace].
      rewrite last_length. lia. }
    { rewrite <- Hnever. f_equal. unfold detail_armed_at, push. cbn [trace].
      rewrite last_length. lia. }
    unfold bind. rewrite Hrun. exists st'. split; [reflexivity |].
    rewrite Hsteps. unfold cycle_steps, push. cbn [trace].
    rewrite List.filter_app. cbn [List.filter is_cycle_step].
    rewrite app_nil_r. reflexivity.
Qed.

Lemma scrapeTemplates_one_cycle_per_row_witness :
  (exists templates st',
     Templates.scrapeTemplates Scenario.detailed (initial ∅) = (Ok templates, st') /\
     length templates = 2%nat /\
     cycle_steps st' = cycle 0 ++ cycle 1) /\
  (exists st',
     Templates.scrapeTemplates Scenario.silent (initial ∅) = (Throw TimeoutError, st') /\
     cycle_steps st' = open_cycle 0).
Proof.
  split.
  - destruct (scrapeTemplates_one_cycle_per_row Scenario.detailed (initial ∅))
      as (_ & Hall & _).
    destruct Hall as (templates & st' & Hrun & Hlen & Hsteps & _).
    + intros t e. reflexivity.
    + intros t row. discriminate.
    + intros t. exists Scenario.second_template. reflexivity.
    + exists templates, st'. split; [exact Hrun |]. split; [exact Hlen | exact Hsteps].
  - destruct (scrapeTemplates_one_cycle_per_row Scenario.silent (initial ∅))
      as (_ & _ & Hstops).
    apply (Hstops ltac:(intros t e; reflexivity) ltac:(intros t row; discriminate) 0%nat).
    + cbn. lia.
    + intros i Hi. lia.
    + reflexivity.
Defined.

(* ===================================================================== *)
(** * The per-case export                                                 *)
(* ===================================================================== *)




(* ===================================================================== *)
(** * Which files a run touches                                           *)
(* ===================================================================== *)

Lemma substring_whole s : String.substring 0 (String.length s) s = s.
Proof. induction s as [|c s IH]; [reflexivity | cbn; rewrite IH; reflexivity]. Qed.

Lemma resolve_relative s : resolve ("./" +:+ s) = s.
Proof.
  unfold resolve. change ("./" +:+ s) with (String "." (String "/" s)).
  cbn [String.prefix].
  destruct (ascii_dec "." "."); [| contradiction].
  destruct (ascii_dec "/" "/"); [| contradiction].
  cbn [String.length Nat.sub String.substring].
  replace (String.prefix EmptyString s) with true by (destruct s; reflexivity).
  rewrite Nat.sub_0_r. apply substring_whole.
Qed.

Lemma untouched_stable owned fs e : stable (untouched owned fs) e.
Proof. intros st H. exact H. Qed.

Lemma untouched_set_file owned fs p c :
  owned (resolve p) = true -> preserves (untouched owned fs) (set_file p c).
Proof.
  intros Hown st H. unfold set_file. intros path Hpath. cbn [files].
  rewrite lookup_insert_ne; [apply H, Hpath |].
  intros Heq. rewrite Heq, Hpath in Hown. discriminate.
Qed.

(** As [preserve_step], with a rule of its own for writes. *)
Ltac keep_step emit_side file_side :=
  lazymatch goal with
  | |- preserves _ (bind _ _) => apply preserves_bind; [| intros ?]
  | |- preserves _ (try_catch _ _) => apply preserves_try; [| intros ?]
  | |- preserves _ (ret _) => apply preserves_ret
  | |- preserves _ (throw _) => apply preserves_throw
  | |- preserves _ (lift _) => apply preserves_lift
  | |- preserves _ now => apply preserves_now
  | |- preserves _ (get_file _) => apply preserves_get_file
  | |- preserves _ (emit _) => apply preserves_emit; emit_side
  | |- preserves _ (set_file _ _) => file_side
  | |- preserves _ (for_of _ _ _) => apply preserves_for_of; intros ? ?
  | |- preserves _ (if ?b then _ else _) => destruct b
  | |- preserves _ (match ?x with _ => _ end) => destruct x
  end.

Ltac keep emit_side file_side :=
  try match goal with
      | |- hoare ?I ?m _ _ => change (preserves I m)
      end;
  autounfold with prog; cbn beta iota; repeat keep_step emit_side file_side.

Lemma session_owned user :
  scraper_owned user (resolve ("./sessions/" +:+ user +:+ ".json")) = true.
Proof.
  change ("./sessions/" +:+ user +:+ ".json")
    with ("./" +:+ session_file_of user).
  rewrite resolve_relative. unfold scraper_owned.
  rewrite String.eqb_refl. apply orb_true_r.
Qed.

Ltac owned_side :=
  apply untouched_set_file;
  first [ reflexivity
        | apply session_owned
        | unfold session_only;
          match goal with
          | |- String.eqb (resolve ?p) _ = true =>
              change p with ("./" +:+ session_file_of (env_username _))
          end;
          rewrite resolve_relative; apply String.eqb_refl ].

(** X1. A scraping run changes no file other than the exports, the
    error log and the session file of its user; the template-only entry
    point changes no file but the session file. *)
Theorem scraping_touches_only_its_files (w : World) (env : Env)
    (fs : gmap string string) :
  untouched (scraper_owned (MS_USERNAME env)) fs
    (snd (Scraper.main w env (initial fs))) /\
  untouched (session_only (env_username env)) fs
    (snd (Index.main w env (initial fs))).
Proof.
  split.
  - assert (H : preserves (untouched (scraper_owned (MS_USERNAME env)) fs)
                  (Scraper.main w env)).
    { unfold Scraper.main. keep ltac:(apply untouched_stable) owned_side. }
    specialize (H (initial fs) (fun _ _ => eq_refl)).
    destruct (Scraper.main w env (initial fs)) as [[u|e] st']; exact H.
  - assert (H : preserves (untouched (session_only (env_username env)) fs)
                  (Index.main w env)).
    { unfold Index.main. keep ltac:(apply untouched_stable) owned_side. }
    specialize (H (initial fs) (fun _ _ => eq_refl)).
    destruct (Index.main w env (initial fs)) as [[u|e] st']; exact H.
Qed.

(** Filtering an explicit trace, for the projections used below. *)
Ltac sift :=
  unfold posted, created, appended, written, cycle_steps, scrapes_started,
    scrapes_awaited, selected, census, push in *;
  cbn beta iota delta [trace files fst snd];
  rewrite ?List.filter_app;
  cbn [List.filter is_create is_append is_write is_post is_login_post
         is_communications_wait is_communications_await];
  rewrite ?app_nil_r, <- ?app_assoc;
  first [ reflexivity | assumption | symmetry; apply app_nil_r ].

(** X2. The replay only reads: whatever happens, it leaves every file as
    it found it, so nothing records which artifacts were already
    created. *)
Theorem replay_changes_no_file (w : World) (env : Env) (fs : gmap string string) :
  files (snd (Migrator.main w env (initial fs))) = fs.
Proof.
  assert (H : preserves (fun st => files st = fs) (Migrator.main w env)).
  { unfold Migrator.main, Migrator.replay_templates, Migrator.replay_communications.
    preserve ltac:(apply files_stable). }
  specialize (H (initial fs) eq_refl).
  destruct (Migrator.main w env (initial fs)) as [[u|e] st']; exact H.
Qed.

(* ===================================================================== *)
(** * The destination client                                              *)
(* ===================================================================== *)

Lemma payload_readable responseBody f :
  auth_rejected (Replies {| body := Some responseBody |}) = false ->
  exists v, ZubuApi.authenticateUser_field responseBody f = Ok v.
Proof.
  unfold auth_rejected, ZubuApi.authenticateUser_field, field.
  destruct responseBody as [| | | | |fields]; try discriminate.
  cbn [get_prop].
  destruct (assoc "data" fields) as [[| | | | |dfields]|]; try discriminate.
  cbn [get_prop].
  destruct (assoc "authenticateUser" dfields) as [[]|]; try discriminate;
    intros _; cbn [get_prop]; eauto;
    destruct (String.eqb f "length"); eauto.
Qed.

(** X3. [authenticateUser] posts one request.  It returns exactly when
    the reply carries a [data.authenticateUser] result, handing back the
    four fields of that result as they are (a missing field stays
    undefined); an [errors] array in the reply plays no part.  In every
    other case it throws [Authentication failed]. *)
Theorem authenticateUser_settles (w : World) (email password : string) (st : State) :
  let request := AuthenticateUser email password in
  let r := http w (length (trace st)) request in
  posted (snd (ZubuApi.authenticateUser w email password st))
    = posted st ++ [Post request] /\
  fst (ZubuApi.authenticateUser w email password st)
    = if auth_rejected r then Throw (Error "Authentication failed")
      else Ok (login_result r).
Proof.
  intros request r. subst request r. run.
  destruct (http w (length (trace st)) (AuthenticateUser email password))
    as [[[responseBody|]]|] eqn:Hr;
    cbn beta iota delta [trace files fst snd body].
  - destruct (auth_rejected (Replies {| body := Some responseBody |})) eqn:Hrej.
    + rewrite (no_payload_throws _ _ Hrej).
      split; [sift | reflexivity].
    + unfold login_result, login_field.
      destruct (payload_readable responseBody "accessToken" Hrej) as [v1 H1].
      destruct (payload_readable responseBody "refreshToken" Hrej) as [v2 H2].
      destruct (payload_readable responseBody "userId" Hrej) as [v3 H3].
      destruct (payload_readable responseBody "tenant_id" Hrej) as [v4 H4].
      rewrite H1, H2, H3, H4. cbn beta iota delta [trace files fst snd].
      split; [sift | reflexivity].
  - split; [sift | reflexivity].
  - split; [sift | reflexivity].
Qed.

Lemma bind_ok {A B} (m : M A) (k : A -> M B) st a st' :
  m st = (Ok a, st') -> bind m k st = k a st'.
Proof. intros H. unfold bind. rewrite H. reflexivity. Qed.

(** A reply with a result to read is taken as a login, whatever else it
    holds. *)
Lemma authenticateUser_accepts w email password st :
  auth_rejected (http w (length (trace st)) (AuthenticateUser email password)) = false ->
  ZubuApi.authenticateUser w email password st
    = (Ok (login_result (http w (length (trace st)) (AuthenticateUser email password))),
       push (Post (AuthenticateUser email password)) st).
Proof.
  intros Hrej. run.
  destruct (http w (length (trace st)) (AuthenticateUser email password))
    as [[[responseBody|]]|] eqn:Hr; try discriminate Hrej.
  cbn beta iota delta [trace files fst snd body].
  unfold login_result, login_field.
  destruct (payload_readable responseBody "accessToken" Hrej) as [v1 H1].
  destruct (payload_readable responseBody "refreshToken" Hrej) as [v2 H2].
  destruct (payload_readable responseBody "userId" Hrej) as [v3 H3].
  destruct (payload_readable responseBody "tenant_id" Hrej) as [v4 H4].
  rewrite H1, H2, H3, H4. reflexivity.
Qed.

Lemma made_stable e x : stable (made e) x.
Proof. intros st H. unfold made, push. cbn [trace]. apply in_or_app. left. exact H. Qed.

Lemma made_on_trace e : on_trace (made e).
Proof. intros st fs H. exact H. Qed.

(** The replay starts by reading the templates export. *)
(** What was done before the replay is still on record after it. *)
Lemma replay_keeps_made w auth e st :
  made e st ->
  made e (snd ((Migrator.replay_templates w auth >>
                Migrator.replay_communications w auth >>
                page w ContextClose >> page w BrowserClose) st)).
Proof.
  intros H.
  assert (Hrun : preserves (made e)
                   (Migrator.replay_templates w auth >>
                    Migrator.replay_communications w auth >>
                    page w ContextClose >> page w BrowserClose)).
  { unfold Migrator.replay_templates, Migrator.replay_communications.
    preserve ltac:(first [apply made_on_trace | apply made_stable]). }
  specialize (Hrun st H).
  destruct ((Migrator.replay_templates w auth >>
             Migrator.replay_communications w auth >>
             page w ContextClose >> page w BrowserClose) st) as [[u|x] st']; exact Hrun.
Qed.

Lemma replay_reads_templates w auth st :
  made (ReadFile "exports/templates.json")
    (snd ((Migrator.replay_templates w auth >>
           Migrator.replay_communications w auth >>
           page w ContextClose >> page w BrowserClose) st)).
Proof.
  set (Has := made (ReadFile "exports/templates.json")).
  assert (Hrun : hoare (fun _ => True)
                   (Migrator.replay_templates w auth >>
                    Migrator.replay_communications w auth >>
                    page w ContextClose >> page w BrowserClose)
                   (fun _ => Has) (fun _ => Has)).
  { assert (Hkeep : forall A (m : M A), preserves Has m ->
                      hoare Has m (fun _ => Has) (fun _ => Has))
      by (intros A m Hm; exact Hm).
    eapply hoare_bind with (R := fun _ => Has).
    - unfold Migrator.replay_templates.
      eapply hoare_bind with (R := fun _ _ => True); [intros s _; exact I | intros ?].
      eapply hoare_bind with (R := fun _ => Has).
      + unfold read_json. eapply hoare_bind with (R := fun _ => Has).
        * intros s _. unfold emit, Has, made, push. cbn [trace].
          apply in_or_app. right. left. reflexivity.
        * intros ?. apply Hkeep.
          preserve ltac:(first [apply made_on_trace | apply made_stable]).
      + intros ?. apply Hkeep.
        preserve ltac:(first [apply made_on_trace | apply made_stable]).
    - intros ?. apply Hkeep.
      unfold Migrator.replay_communications.
      preserve ltac:(first [apply made_on_trace | apply made_stable]). }
  specialize (Hrun st I).
  destruct ((Migrator.replay_templates w auth >>
             Migrator.replay_communications w auth >>
             page w ContextClose >> page w BrowserClose) st) as [[u|e] st']; exact Hrun.
Qed.

(** C5, as the code has it.  [authenticateUser] fails exactly when the
    reply has no [data.authenticateUser] result to read: then the replay
    throws before any create-template call.  It never looks at [errors]:
    an error response that still carries a result object is taken as a
    successful login, the run goes on to read the templates export, and
    the fields missing from the result travel on as [undefined]. *)
Theorem login_errors_are_not_checked (w : World) (env : Env)
    (fs : gmap string string) :
  let login := AuthenticateUser (ZUBU_USERNAME env) (ZUBU_PASSWORD env) in
  ((forall t, auth_rejected (http w t login) = true) ->
   exists e st', Migrator.main w env (initial fs) = (Throw e, st') /\ created st' = []) /\
  (forall st,
     auth_rejected (http w (length (trace st)) login) = false ->
     ZubuApi.authenticateUser w (ZUBU_USERNAME env) (ZUBU_PASSWORD env) st
       = (Ok (login_result (http w (length (trace st)) login)), push (Post login) st)) /\
  (completes w 0 (Launch true) = true ->
   completes w 1 (NewContext (ZUBU_API_URL env)) = true ->
   error_array (http w 3 login) = true ->
   auth_rejected (http w 3 login) = false ->
   made (Post login) (snd (Migrator.main w env (initial fs))) /\
   made (ReadFile "exports/templates.json") (snd (Migrator.main w env (initial fs)))).
Proof.
  intros login. subst login. split; [| split].
  - apply unreadable_login_aborts.
  - intros st. apply authenticateUser_accepts.
  - intros Hlaunch Hcontext _ Hresult. unfold Migrator.main.
    rewrite (bind_ok (page w (Launch true)) _ (initial fs) tt
               (push (Launch true) (initial fs)))
      by (unfold page, call, bind, now, emit, ret; cbn [initial trace length];
          rewrite Hlaunch; reflexivity).
    cbn beta.
    rewrite (bind_ok (page w (NewContext (ZUBU_API_URL env))) _ _ tt
               (push (NewContext (ZUBU_API_URL env)) (push (Launch true) (initial fs))))
      by (unfold page, call, bind, now, emit, ret; cbn [initial trace length push app];
          rewrite Hcontext; reflexivity).
    cbn beta.
    rewrite (bind_ok (console_log "Authenticating user in Zubu...") _ _ tt
               (push (ConsoleLog "Authenticating user in Zubu...")
                  (push (NewContext (ZUBU_API_URL env)) (push (Launch true) (initial fs)))))
      by reflexivity.
    cbn beta.
    rewrite (bind_ok _ _ _ _ _
               (authenticateUser_accepts w (ZUBU_USERNAME env) (ZUBU_PASSWORD env)
                  (push (ConsoleLog "Authenticating user in Zubu...")
                     (push (NewContext (ZUBU_API_URL env))
                        (push (Launch true) (initial fs))))
                  Hresult)).
    split; [| apply replay_reads_templates].
    apply replay_keeps_made. unfold made, push. cbn [trace].
    apply in_or_app. right. left. reflexivity.
Qed.

Lemma login_errors_are_not_checked_witness :
  (made (Post (AuthenticateUser (ZUBU_USERNAME Scenario.env) (ZUBU_PASSWORD Scenario.env)))
     (snd (Migrator.main half_refused Scenario.env (initial Scenario.exported))) /\
   made (ReadFile "exports/templates.json")
     (snd (Migrator.main half_refused Scenario.env (initial Scenario.exported)))) /\
  fst (Migrator.main half_refused Scenario.env (initial Scenario.exported)) = Ok tt /\
  length (created (snd (Migrator.main half_refused Scenario.env
                          (initial Scenario.exported)))) = 4%nat /\
  on_behalf_of no_credentials
    (snd (Migrator.main half_refused Scenario.env (initial Scenario.exported))).
Proof.
  destruct (login_errors_are_not_checked half_refused Scenario.env Scenario.exported)
    as (_ & _ & Hgoes_on).
  split; [apply Hgoes_on; reflexivity |].
  split; [vm_compute; reflexivity |].
  split; [vm_compute; reflexivity |].
  unfold on_behalf_of, carries.
  vm_compute created.
  repeat (constructor; [eexists; eexists; reflexivity |]). constructor.
Defined.

(** X4. [createTemplate] posts one request, never a second one.  It
    returns [data.createTemplate] exactly when the reply has no truthy
    [errors] and has a [data] object to read from; in every other case,
    whatever went wrong, the caller sees the one error [Template
    creation failed]. *)
Theorem createTemplate_settles (w : World) (token : value)
    (input : ZubuApi.TemplateInput) (st : State) :
  let r := http w (length (trace st)) (create_request token input) in
  posted (snd (ZubuApi.createTemplate w token input st))
    = posted st ++ [Post (create_request token input)] /\
  fst (ZubuApi.createTemplate w token input st)
    = if accepted r then Ok (created_id r)
      else Throw (Error "Template creation failed").
Proof.
  intros r. subst r. unfold accepted, created_id, create_request. run.
  split_calls; cbn beta iota delta [negb andb]; (split; [sift | reflexivity]).
Qed.

(* ===================================================================== *)
(** * Replay of empty exports                                             *)
(* ===================================================================== *)

(** X5. An export that holds an empty array is not skipped: reading
    element 0 gives [undefined], the first property read on it throws a
    [TypeError], and the replay stops there without a create-template
    call, for the templates file as for a communications file. *)
Theorem empty_export_aborts_replay (w : World) (auth : ZubuApi.Auth) (st : State)
    (text : string) :
  parse w text = Some (JArr []) ->
  (holds "exports/templates.json" text st ->
   exists st', Migrator.replay_templates w auth st = (Throw TypeError, st') /\
               created st' = created st) /\
  (forall file,
     holds (Migrator.exportsDir +:+ "/" +:+ file) text st ->
     exists st', Migrator.replay_file w auth file st = (Throw TypeError, st') /\
                 created st' = created st).
Proof.
  intros Hparse. split.
  - intros Hfile. unfold holds in Hfile.
    unfold Migrator.replay_templates, Migrator.create_template, for_each,
      read_json, console_log, get_file.
    unfold bind, emit, ret, throw, lift, now, push.
    cbn beta iota delta [trace files fst snd].
    rewrite Hfile, Hparse, get_prop_length.
    cbn beta iota delta [get_index nth_error for_of get_prop trace files fst snd].
    unfold bind, lift. cbn beta iota delta [get_prop trace files fst snd].
    eexists. split; [reflexivity | sift].
  - intros file Hfile. unfold holds in Hfile.
    unfold Migrator.replay_file, read_json, console_log, get_file.
    unfold bind, emit, ret, throw, lift, now, push.
    cbn beta iota delta [trace files fst snd].
    rewrite Hfile, Hparse.
    cbn beta iota delta [get_index nth_error get_prop trace files fst snd].
    eexists. split; [reflexivity | sift].
Qed.

Lemma empty_export_aborts_replay_witness :
  exists st',
    Migrator.replay_templates Fixture.emptied Scenario.auth (initial Fixture.empty_exports)
      = (Throw TypeError, st') /\
    created st' = [].
Proof.
  destruct (empty_export_aborts_replay Fixture.emptied Scenario.auth
              (initial Fixture.empty_exports) "[]" eq_refl) as [Htemplates _].
  apply Htemplates. vm_compute. reflexivity.
Defined.

(* ===================================================================== *)
(** * Scrapes that go wrong                                               *)
(* ===================================================================== *)

Lemma get_prop_throws v p e : get_prop v p = Throw e -> e = TypeError.
Proof.
  destruct v as [[]|]; cbn; try discriminate; try congruence;
    destruct (String.eqb p "length"); discriminate.
Qed.

Lemma get_prop_record v p : is_record v = false -> get_prop v p = Throw TypeError.
Proof. destruct v as [[]|]; try discriminate; reflexivity. Qed.

(** X6. A cases response whose body has no [value] field (or a null one,
    or is itself null) is not treated as an empty list: reading the
    length of the missing value throws a [TypeError], and [scrapeCases]
    lets it out. *)
Theorem scrapeCases_without_value_throws (w : World) (env : Env) (st : State)
    (parsed : json) :
  (forall url, completes w (S (length (trace st))) (Goto url) = true) ->
  response w (length (trace st)) CasesPattern = delivers parsed ->
  is_record (prop parsed "value") = false ->
  exists st', Cases.scrapeCases w env st = (Throw TypeError, st').
Proof.
  intros Hgoto Hresp Hvalue. unfold delivers in Hresp. unfold prop in Hvalue. run.
  rewrite last_length, Hgoto.
  cbn beta iota delta [trace files fst snd armed_at awaits body].
  rewrite Hresp. cbn beta iota delta [trace files fst snd armed_at awaits body].
  destruct (get_prop (Some parsed) "value") as [v|e] eqn:Hv.
  - rewrite (get_prop_record v "length" Hvalue). eexists; reflexivity.
  - rewrite (get_prop_throws _ _ _ Hv). eexists; reflexivity.
Qed.

Lemma scrapeCases_without_value_throws_witness :
  exists st',
    Cases.scrapeCases Fixture.valueless Scenario.env (initial ∅) = (Throw TypeError, st').
Proof.
  apply (scrapeCases_without_value_throws Fixture.valueless Scenario.env (initial ∅)
           (JObj [])).
  - intros url. reflexivity.
  - reflexivity.
  - reflexivity.
Defined.

(** What [scrapeCommunications] can do, in full. *)
Lemma scrapeCommunications_contract w env c st :
  exists v st' len,
    Communications.scrapeCommunications w env c st = (Ok v, st') /\
    get_prop v "length" = Ok len /\
    written st' = written st /\
    same_files_but_log st st' /\
    scrapes_started st'
      = scrapes_started st ++ [WaitForResponse CommunicationsPattern 45000] /\
    ((appended st' = appended st /\ files st' = files st /\
      exists parsed,
        response w (length (trace st)) CommunicationsPattern = delivers parsed /\
        get_prop (Some parsed) "value" = Ok v) \/
     (v = Some (JArr []) /\
      exists entry,
        appended st' = appended st ++ [AppendFile "error_log.txt" entry] /\
        log_entry_pending st st' entry)).
Proof.
  run. unfold get_file, set_file, delivers, log_entry_pending.
  split_calls;
    (eexists; eexists; eexists;
     split; [reflexivity |];
     split; [first [eassumption | reflexivity] |];
     split; [sift |];
     split; [intros path Hpath; cbn [files];
             first [ reflexivity
                   | apply lookup_insert_ne; exact (not_eq_sym Hpath) ] |];
     split; [sift |];
     first [ left; split; [sift |]; split;
               [reflexivity | eexists; split; [reflexivity | eassumption]]
           | right; split; [reflexivity |]; eexists; split;
               [sift | first [left; reflexivity | right; reflexivity]] ]).
Qed.

(** X7. [scrapeCommunications] never throws.  Either the response
    arrived and it returns its [value] field, having logged nothing; or
    something failed (no response, a body that is not JSON, no [value]
    to take the length of, a navigation that timed out) and it returns
    the empty list after asking for exactly one entry to be appended to
    [error_log.txt].  It writes no export and changes no other file. *)
Theorem scrapeCommunications_is_contained (w : World) (env : Env)
    (c : Communications.Case) (st : State) :
  exists v st',
    Communications.scrapeCommunications w env c st = (Ok v, st') /\
    written st' = written st /\
    same_files_but_log st st' /\
    ((appended st' = appended st /\
      exists parsed,
        response w (length (trace st)) CommunicationsPattern = delivers parsed /\
        get_prop (Some parsed) "value" = Ok v) \/
     (v = Some (JArr []) /\
      exists entry,
        appended st' = appended st ++ [AppendFile "error_log.txt" entry])).
Proof.
  destruct (scrapeCommunications_contract w env c st)
    as (v & st' & len & Hrun & _ & Hw & Hf & _ & Hcases).
  exists v, st'. split; [exact Hrun |]. split; [exact Hw |]. split; [exact Hf |].
  destruct Hcases as [(Ha & _ & Hresp) | (Hv & entry & Ha & _)].
  - left. auto.
  - right. split; [exact Hv |]. exists entry. exact Ha.
Qed.

(* ===================================================================== *)
(** * What the export of one case leaves behind                           *)
(* ===================================================================== *)




(* ===================================================================== *)
(** * The export loop goes on after a failed case                         *)
(* ===================================================================== *)







(* ===================================================================== *)
(** * Saving a session and finding it again                               *)
(* ===================================================================== *)




(* ===================================================================== *)
(** * A login that is rejected                                            *)
(* ===================================================================== *)

Lemma census_split f g st :
  census (fun e => f e || g e) 0 st -> census f 0 st /\ census g 0 st.
Proof.
  unfold census. generalize (trace st). intros tr.
  induction tr as [|e tr IH]; cbn; [auto |].
  destruct (f e), (g e); cbn; try discriminate; exact IH.
Qed.

Lemma census_none_in f st e :
  census f 0 st -> In e (trace st) -> f e = false.
Proof.
  unfold census. intros Hnone Hin.
  destruct (f e) eqn:Hf; [| reflexivity].
  assert (Hfil : In e (List.filter f (trace st))) by (apply List.filter_In; auto).
  destruct (List.filter f (trace st)); [destruct Hfil | discriminate Hnone].
Qed.

Lemma hoare_ret_true (I : State -> Prop) E :
  hoare I (ret true) (fun b st => b = true /\ I st) E.
Proof. intros st H. split; [reflexivity | exact H]. Qed.

(** [authenticate] keeps [I] and, when it returns, returns [true]. *)
Ltac login_keeps side :=
  eapply hoare_try;
  [ autounfold with prog; cbn beta iota;
    repeat (eapply hoare_bind;
            [apply preserves_hoare; [preserve side | intros ? H; exact H] | intros ?]);
    apply hoare_ret_true
  | intros ?; preserve side ].

Lemma MsAuth_never_false w env :
  hoare (census is_login_failed_note 0) (MsAuth.authenticate w env)
        (fun b st => b = true /\ census is_login_failed_note 0 st)
        (fun _ => census is_login_failed_note 0).
Proof. unfold MsAuth.authenticate. login_keeps quiet_side. Qed.

Lemma Auth_never_false w env :
  hoare (census is_login_failed_note 0) (Auth.authenticate w env)
        (fun b st => b = true /\ census is_login_failed_note 0 st)
        (fun _ => census is_login_failed_note 0).
Proof. unfold Auth.authenticate. login_keeps quiet_side. Qed.

Lemma Scraper_never_reports_false w env fs :
  census is_login_failed_note 0 (snd (Scraper.main w env (initial fs))).
Proof.
  set (I := census is_login_failed_note 0).
  assert (Hmain : preserves I (Scraper.main w env)).
  { unfold Scraper.main.
    do 5 (apply preserves_bind; [preserve quiet_side | intros ?]).
    apply preserves_bind; [preserve quiet_side | intros shown].
    cbn beta iota zeta.
    apply preserves_bind; [| intros ?; preserve quiet_side].
    destruct (negb shown); [preserve quiet_side |].
    apply preserves_bind; [preserve quiet_side | intros ?].
    eapply hoare_bind; [apply MsAuth_never_false |].
    intros b. apply hoare_assume with (P := I); intros ->.
    preserve quiet_side. }
  specialize (Hmain (initial fs) eq_refl).
  destruct (Scraper.main w env (initial fs)) as [[u|e] st']; exact Hmain.
Qed.

Lemma Index_never_reports_false w env fs :
  census is_login_failed_note 0 (snd (Index.main w env (initial fs))).
Proof.
  set (I := census is_login_failed_note 0).
  assert (Hmain : preserves I (Index.main w env)).
  { unfold Index.main.
    do 3 (apply preserves_bind; [preserve quiet_side | intros ?]).
    apply preserves_bind; [preserve quiet_side | intros found].
    apply preserves_bind; [| intros ?; preserve quiet_side].
    destruct found; [preserve quiet_side |].
    apply preserves_bind; [preserve quiet_side | intros ?].
    eapply hoare_bind; [apply Auth_never_false |].
    intros b. apply hoare_assume with (P := I); intros ->.
    preserve quiet_side. }
  specialize (Hmain (initial fs) eq_refl).
  destruct (Index.main w env (initial fs)) as [[u|e] st']; exact Hmain.
Qed.

Lemma quiet_is_unreported user st :
  census (rejected_or_scraping user) 0 st -> census (is_rejection_note user) 0 st.
Proof. intros H. apply (census_split _ _ st H). Qed.

Lemma quiet_ends user e st :
  census (rejected_or_scraping user) 0 st -> ends_at_rejection user e st.
Proof. intros H. left. apply quiet_is_unreported, H. Qed.

Lemma unreported_ends user e st :
  census (is_rejection_note user) 0 st -> ends_at_rejection user e st.
Proof. intros H. left. exact H. Qed.

(** The handler of [authenticate]: report, then reject. *)
Lemma rejection_handler user :
  hoare (census (rejected_or_scraping user) 0)
        (console_error ("Login failed for user: " +:+ user) >> throw (Rejected false))
        (fun (b : bool) st => b = true /\ census (rejected_or_scraping user) 0 st)
        (ends_at_rejection user).
Proof.
  intros st H. unfold console_error, bind, emit, throw. cbn beta iota.
  right. split; [reflexivity |].
  apply census_stable; [reflexivity |]. apply (census_split _ _ st H).
Qed.

Ltac login_rejects side :=
  eapply hoare_try;
  [ autounfold with prog; cbn beta iota;
    repeat (eapply hoare_bind;
            [apply preserves_hoare; [preserve side | intros ? H; exact H] | intros ?]);
    apply hoare_ret_true
  | intros ?; apply rejection_handler ].

Lemma MsAuth_rejects_or_true w env :
  hoare (census (rejected_or_scraping (MS_USERNAME env)) 0) (MsAuth.authenticate w env)
        (fun b st => b = true /\ census (rejected_or_scraping (MS_USERNAME env)) 0 st)
        (ends_at_rejection (MS_USERNAME env)).
Proof. unfold MsAuth.authenticate. login_rejects quiet_side. Qed.

Lemma Auth_rejects_or_true w env :
  hoare (census (rejected_or_scraping (env_username env)) 0) (Auth.authenticate w env)
        (fun b st => b = true /\ census (rejected_or_scraping (env_username env)) 0 st)
        (ends_at_rejection (env_username env)).
Proof. unfold Auth.authenticate. login_rejects quiet_side. Qed.

Lemma Scraper_rejection_ends w env :
  hoare (census (rejected_or_scraping (MS_USERNAME env)) 0) (Scraper.main w env)
        (fun _ => census (is_rejection_note (MS_USERNAME env)) 0)
        (ends_at_rejection (MS_USERNAME env)).
Proof.
  set (user := MS_USERNAME env).
  set (J := census (rejected_or_scraping user) 0).
  set (K := census (is_rejection_note user) 0).
  unfold Scraper.main.
  do 6 (eapply hoare_bind;
        [apply (keeps_to J J); [preserve quiet_side | auto | apply quiet_ends] | intros ?]).
  cbn beta iota zeta.
  eapply hoare_bind with (R := fun _ => K).
  - destruct (negb a4).
    + apply (keeps_to J K);
        [preserve quiet_side | apply quiet_is_unreported | apply quiet_ends].
    + eapply hoare_bind;
        [apply (keeps_to J J); [preserve quiet_side | auto | apply quiet_ends] | intros ?].
      eapply hoare_bind; [apply MsAuth_rejects_or_true |].
      intros b. apply hoare_assume with (P := J); intros ->.
      apply (keeps_to J K);
        [preserve quiet_side | apply quiet_is_unreported | apply quiet_ends].
  - intros ?. apply (keeps_to K K); [preserve quiet_side | auto | apply unreported_ends].
Qed.

Lemma Index_rejection_ends w env :
  hoare (census (rejected_or_scraping (env_username env)) 0) (Index.main w env)
        (fun _ => census (is_rejection_note (env_username env)) 0)
        (ends_at_rejection (env_username env)).
Proof.
  set (user := env_username env).
  set (J := census (rejected_or_scraping user) 0).
  set (K := census (is_rejection_note user) 0).
  unfold Index.main.
  do 3 (eapply hoare_bind;
        [apply (keeps_to J J); [preserve quiet_side | auto | apply quiet_ends] | intros ?]).
  eapply hoare_bind;
    [apply (keeps_to J J); [preserve quiet_side | auto | apply quiet_ends] | intros found].
  eapply hoare_bind with (R := fun _ => K).
  - destruct found.
    + apply (keeps_to J K);
        [preserve quiet_side | apply quiet_is_unreported | apply quiet_ends].
    + eapply hoare_bind;
        [apply (keeps_to J J); [preserve quiet_side | auto | apply quiet_ends] | intros ?].
      eapply hoare_bind; [apply Auth_rejects_or_true |].
      intros b. apply hoare_assume with (P := J); intros ->.
      apply (keeps_to J K);
        [preserve quiet_side | apply quiet_is_unreported | apply quiet_ends].
  - intros ?. apply (keeps_to K K); [preserve quiet_side | auto | apply unreported_ends].
Qed.

Lemma reported_rejection user st :
  In (ConsoleError ("Login failed for user: " +:+ user)) (trace st) ->
  ~ census (is_rejection_note user) 0 st.
Proof.
  intros Hin Hnone.
  pose proof (census_none_in _ st _ Hnone Hin) as Hf.
  cbn in Hf. rewrite String.eqb_refl in Hf. discriminate Hf.
Qed.

(** X10. A login that fails is never survived.  [authenticate] resolves
    to [true] or rejects, so the branch that prints [Login failed.] is
    never taken in [scraper.ts] or [index.ts]; and once [authenticate]
    has reported its rejection, the run ends with the rejected value
    [false], before any step of a scrape. *)
Theorem rejected_login_ends_the_run (w : World) (env : Env) (fs : gmap string string) :
  (census is_login_failed_note 0 (snd (Scraper.main w env (initial fs))) /\
   census is_login_failed_note 0 (snd (Index.main w env (initial fs)))) /\
  (In (ConsoleError ("Login failed for user: " +:+ MS_USERNAME env))
      (trace (snd (Scraper.main w env (initial fs)))) ->
   fst (Scraper.main w env (initial fs)) = Throw (Rejected false) /\
   census is_scrape_step 0 (snd (Scraper.main w env (initial fs)))) /\
  (In (ConsoleError ("Login failed for user: " +:+ env_username env))
      (trace (snd (Index.main w env (initial fs)))) ->
   fst (Index.main w env (initial fs)) = Throw (Rejected false) /\
   census is_scrape_step 0 (snd (Index.main w env (initial fs)))).
Proof.
  split; [split; [apply Scraper_never_reports_false | apply Index_never_reports_false] |].
  split.
  - intros Hin.
    pose proof (Scraper_rejection_ends w env (initial fs) eq_refl) as Hrun.
    destruct (Scraper.main w env (initial fs)) as [[u|e] st']; cbn [fst snd] in *.
    + destruct (reported_rejection _ _ Hin Hrun).
    + destruct Hrun as [Hnone | [-> Hscrape]].
      * destruct (reported_rejection _ _ Hin Hnone).
      * auto.
  - intros Hin.
    pose proof (Index_rejection_ends w env (initial fs) eq_refl) as Hrun.
    destruct (Index.main w env (initial fs)) as [[u|e] st']; cbn [fst snd] in *.
    + destruct (reported_rejection _ _ Hin Hrun).
    + destruct Hrun as [Hnone | [-> Hscrape]].
      * destruct (reported_rejection _ _ Hin Hnone).
      * auto.
Qed.

Lemma rejected_login_ends_the_run_witness :
  fst (Scraper.main (Fixture.signed_out Fixture.no_password_field) Scenario.env
         (initial Scenario.with_session))
    = Throw (Rejected false) /\
  census is_scrape_step 0
    (snd (Scraper.main (Fixture.signed_out Fixture.no_password_field) Scenario.env
            (initial Scenario.with_session))).
Proof.
  destruct (rejected_login_ends_the_run (Fixture.signed_out Fixture.no_password_field)
              Scenario.env Scenario.with_session) as (_ & Hscraper & _).
  apply Hscraper. vm_compute. auto 20.
Defined.

(* ===================================================================== *)
(** * The login comes first                                               *)
(* ===================================================================== *)

Lemma logging_in_on_trace steps : on_trace (logging_in steps).
Proof. intros st fs H. exact H. Qed.

Lemma logging_in_stable steps e :
  is_scrape_step e = false -> stable (logging_in steps) e.
Proof.
  intros He st [Hnone Hsub]. split; [apply census_stable; assumption |].
  unfold push. cbn [trace]. apply sublist_inserts_r, Hsub.
Qed.

Lemma logging_in_step steps e st :
  is_scrape_step e = false ->
  logging_in steps st -> logging_in (steps ++ [e]) (push e st).
Proof.
  intros He [Hnone Hsub]. split; [apply census_stable; assumption |].
  unfold push. cbn [trace]. apply sublist_app; [exact Hsub | reflexivity].
Qed.

Lemma logged_in_on_trace steps : on_trace (logged_in steps).
Proof. intros st fs H. exact H. Qed.

Lemma logged_in_stable steps e : stable (logged_in steps) e.
Proof.
  intros st (before & Hpre & Hsub & Hlate). exists before.
  unfold push. cbn [trace]. split; [apply prefix_app_r, Hpre |].
  split; [exact Hsub |]. intros i x Hi Hx.
  apply lookup_snoc_Some in Hi. destruct Hi as [[_ Hi] | [-> _]].
  - apply (Hlate i x Hi Hx).
  - apply prefix_length, Hpre.
Qed.

Lemma logging_in_done steps st : logging_in steps st -> logged_in steps st.
Proof.
  intros [Hnone Hsub]. exists (trace st).
  split; [reflexivity |]. split; [exact Hsub |].
  intros i e Hi He.
  assert (Hin : In e (trace st)).
  { apply list_elem_of_In. eapply list_elem_of_lookup_2, Hi. }
  rewrite (census_none_in _ _ _ Hnone Hin) in He. discriminate He.
Qed.

Lemma logged_in_follow steps st : logged_in steps st -> scrapes_follow steps st.
Proof.
  intros (before & [rest Hpre] & Hsub & Hlate) i e Hi He.
  specialize (Hlate i e Hi He). rewrite Hpre.
  rewrite take_app_ge by exact Hlate.
  apply sublist_inserts_r, Hsub.
Qed.

Lemma unscraped_follow steps st :
  census is_scrape_step 0 st -> scrapes_follow steps st.
Proof.
  intros Hnone i e Hi He.
  assert (Hin : In e (trace st)).
  { apply list_elem_of_In. eapply list_elem_of_lookup_2, Hi. }
  rewrite (census_none_in _ _ _ Hnone Hin) in He. discriminate He.
Qed.

Ltac login_side :=
  first [ apply logging_in_on_trace | apply logging_in_stable; reflexivity
        | apply census_on_trace | apply census_stable; reflexivity ].

Ltac scraping_side :=
  first [ apply logged_in_on_trace | apply logged_in_stable ].

(** A call of the login is recorded, whether it completes or throws. *)
Lemma page_records w steps e (E : exn -> State -> Prop) :
  is_scrape_step e = false ->
  (forall x st, logging_in (steps ++ [e]) st -> E x st) ->
  hoare (logging_in steps) (page w e) (fun _ => logging_in (steps ++ [e])) E.
Proof.
  intros He HE st H. unfold page, call, bind, now, emit, ret, throw.
  pose proof (logging_in_step steps e st He H) as Hstep.
  destruct (completes w (length (trace st)) e); [exact Hstep | apply HE, Hstep].
Qed.

Lemma log_keeps (I : State -> Prop) msg E :
  stable I (ConsoleLog msg) -> hoare I (console_log msg) (fun _ => I) E.
Proof. intros Hst st H. apply Hst, H. Qed.

Lemma error_keeps (I : State -> Prop) msg E :
  stable I (ConsoleError msg) -> hoare I (console_error msg) (fun _ => I) E.
Proof. intros Hst st H. apply Hst, H. Qed.

Lemma isVisible_shown w (I : State -> Prop) sel timeout E :
  (forall t, visible w t sel = true) ->
  stable I (IsVisible sel timeout) ->
  hoare I (isVisible w sel timeout) (fun shown st => shown = true /\ I st) E.
Proof.
  intros Hshown Hst st HI. run. rewrite Hshown. split; [reflexivity | apply Hst, HI].
Qed.

Lemma absent_stable p e : stable (absent p) e.
Proof. intros st H. exact H. Qed.

(** A step that keeps the login where it is. *)
Ltac login_idles :=
  cbn beta;
  match goal with
  | |- hoare (logging_in ?steps) _ _ _ =>
      apply (keeps_to (logging_in steps) (logging_in steps));
      [ preserve login_side | auto
      | first [ intros ? ? [H _]; exact H
              | intros ? ? [H _]; apply unscraped_follow, H ] ]
  end.

(** The wait for the second factor is issued, and [handle2FA] returns
    whether or not it completes. *)
Ltac second_factor_waits :=
  eapply hoare_try;
  [ eapply hoare_bind; [apply log_keeps, logging_in_stable; reflexivity | intros ?];
    eapply hoare_bind; [apply log_keeps, logging_in_stable; reflexivity | intros ?];
    eapply hoare_bind;
    [ apply (page_records _ _ second_factor_wait); [reflexivity | intros ? ? H; exact H]
    | intros ? ];
    match goal with
    | |- hoare ?I _ _ _ => apply (keeps_to I I); [preserve login_side | auto | auto]
    end
  | intros ?; apply error_keeps, logging_in_stable; reflexivity ].

Lemma MsAuth_handle2FA_waits w env steps E :
  hoare (logging_in steps) (MsAuth.handle2FA w env)
        (fun _ => logging_in (steps ++ [second_factor_wait])) E.
Proof. unfold MsAuth.handle2FA. second_factor_waits. Qed.

Lemma rejecting_handler {A} (I : State -> Prop) msg (Q : A -> State -> Prop) :
  stable I (ConsoleError msg) ->
  hoare I (console_error msg >> throw (Rejected false)) Q (fun _ => I).
Proof. intros Hst st H. apply Hst, H. Qed.

Lemma MsAuth_enterCredentials_fills w env :
  hoare (logging_in []) (MsAuth.enterCredentials w env)
        (fun _ => logging_in [Fill passwd_input (MS_PASSWORD env)])
        (fun _ => census is_scrape_step 0).
Proof.
  unfold MsAuth.enterCredentials.
  do 3 (eapply hoare_bind; [login_idles | intros ?]).
  eapply hoare_bind.
  { apply (page_records w [] (Fill passwd_input (MsAuth.password env)));
      [reflexivity | intros ? ? [H _]; exact H]. }
  intros ?. login_idles.
Qed.

(** When [authenticate] returns, the password was entered and the second
    factor awaited, in this order; no scrape step is taken meanwhile. *)
Lemma MsAuth_authenticate_enters w env :
  hoare (logging_in []) (MsAuth.authenticate w env)
        (fun b st => b = true /\
           logging_in [Fill passwd_input (MS_PASSWORD env); second_factor_wait] st)
        (fun _ => census is_scrape_step 0).
Proof.
  unfold MsAuth.authenticate. eapply hoare_try.
  - eapply hoare_bind; [apply MsAuth_enterCredentials_fills | intros ?].
    eapply hoare_bind.
    { eapply hoare_try; [apply MsAuth_handle2FA_waits | intros ?; apply hoare_false]. }
    intros ?. apply hoare_ret_true.
  - intros ?. apply rejecting_handler, census_stable. reflexivity.
Qed.

(** Saving the session completes the login; what follows is free to
    scrape. *)
Ltac session_saved :=
  eapply hoare_bind; [login_idles | intros ?];
  eapply hoare_bind; [login_idles | intros ?];
  eapply hoare_bind;
  [ apply page_records; [reflexivity | intros ? ? [H _]; apply unscraped_follow, H]
  | intros ? ];
  cbn beta;
  match goal with
  | |- hoare (logging_in ?steps) _ _ _ =>
      apply (keeps_to (logging_in steps) (logged_in steps));
      [ preserve login_side | apply logging_in_done
      | intros ? ? [H _]; apply unscraped_follow, H ]
  end.

Lemma Scraper_logs_in_first w env :
  (forall t, visible w t Scraper.sign_in_prompt = true) ->
  hoare (logging_in []) (Scraper.main w env)
        (fun _ => scrapes_follow (login_steps (MS_PASSWORD env) (MsAuth.session_path env)))
        (fun _ => scrapes_follow (login_steps (MS_PASSWORD env) (MsAuth.session_path env))).
Proof.
  intros Hshown.
  set (steps := login_steps (MS_PASSWORD env) (MsAuth.session_path env)).
  unfold Scraper.main.
  do 5 (eapply hoare_bind;
        [ apply (keeps_to (logging_in []) (logging_in []));
          [preserve login_side | auto | intros ? ? [H _]; apply unscraped_follow, H]
        | intros ? ]).
  eapply hoare_bind.
  { apply isVisible_shown; [exact Hshown | apply logging_in_stable; reflexivity]. }
  intros shown. apply hoare_assume; intros ->.
  cbn beta iota zeta delta [negb].
  eapply hoare_bind with (R := fun _ => logged_in steps).
  - eapply hoare_bind;
      [ apply (keeps_to (logging_in []) (logging_in []));
        [preserve login_side | auto | intros ? ? [H _]; apply unscraped_follow, H]
      | intros ? ].
    eapply hoare_bind.
    { eapply hoare_weaken; [apply MsAuth_authenticate_enters | auto | intros ? ? H; exact H |].
      intros ? ? H. apply unscraped_follow, H. }
    intros b. apply hoare_assume; intros ->.
    unfold MsAuth.saveSession.
    session_saved.
  - intros ?.
    apply (keeps_to (logged_in steps) (scrapes_follow steps));
      [ preserve scraping_side | apply logged_in_follow
      | intros ? ?; apply logged_in_follow ].
Qed.

(** Without the file to read the saved state from, no context is
    made. *)
Lemma newContext_missing {A} w (I : State -> Prop) p (k : unit -> M A) :
  stable I (NewContext p) ->
  hoare (fun st => I st /\ absent p st) (bind (newContext w p) k)
        (fun _ _ => False) (fun _ => I).
Proof.
  intros Hst st [HI Hp]. unfold newContext, bind at 1 2, get_file. cbn beta iota.
  unfold absent in Hp. rewrite Hp. unfold bind, emit, throw. cbn beta iota.
  apply Hst, HI.
Qed.

Lemma Index_needs_session w env (I : State -> Prop) :
  stable I (Launch false) -> stable I (NewContext (Index.session_file env)) ->
  hoare (fun st => I st /\ absent (Index.session_file env) st) (Index.main w env)
        (fun _ _ => False) (fun _ => I).
Proof.
  intros Hlaunch Hcontext. unfold Index.main.
  eapply hoare_bind.
  { apply (keeps_to (fun st => I st /\ absent (Index.session_file env) st)
                    (fun st => I st /\ absent (Index.session_file env) st));
      [ preserve ltac:(apply stable_both; [exact Hlaunch | apply absent_stable])
      | auto | intros ? ? [H _]; exact H ]. }
  intros ?. apply newContext_missing, Hcontext.
Qed.

Lemma Index_never_logs_in w env fs :
  census is_login_interaction 0 (snd (Index.main w env (initial fs))).
Proof.
  destruct (fs !! Index.session_file env) as [content|] eqn:Hfile.
  - exact (Index_main_reuses_session w env fs content Hfile).
  - pose proof (Index_needs_session w env (census is_login_interaction 0)
                  ltac:(apply census_stable; reflexivity)
                  ltac:(apply census_stable; reflexivity)
                  (initial fs) (conj eq_refl Hfile)) as Hrun.
    destruct (Index.main w env (initial fs)) as [[u|e] st']; [destruct Hrun | exact Hrun].
Qed.

(** X11. Scraping waits for the login, and only [scraper.ts] can log in.
    In [scraper.ts], when the sign-in prompt is shown, whatever comes
    before a step of a scrape includes, in this order, the entry of the
    password, the wait for the second factor and the request for the
    session to save.  [index.ts] never opens the login page nor enters a
    credential: with the session file its check skips the login, and
    without it [newContext], which reads that file, throws before the
    check is reached, so that the run ends before any step of a
    scrape. *)
Theorem login_precedes_scraping (w : World) (env : Env) (fs : gmap string string) :
  ((forall t, visible w t Scraper.sign_in_prompt = true) ->
   scrapes_follow (login_steps (MS_PASSWORD env) (MsAuth.session_path env))
     (snd (Scraper.main w env (initial fs)))) /\
  census is_login_interaction 0 (snd (Index.main w env (initial fs))) /\
  (fs !! Index.session_file env = None ->
   (exists e, fst (Index.main w env (initial fs)) = Throw e) /\
   census is_scrape_step 0 (snd (Index.main w env (initial fs)))).
Proof.
  split; [| split].
  - intros Hshown.
    pose proof (Scraper_logs_in_first w env Hshown (initial fs)) as Hrun.
    destruct (Scraper.main w env (initial fs)) as [[u|e] st']; apply Hrun;
      (split; [reflexivity | apply sublist_nil_l]).
  - apply Index_never_logs_in.
  - intros Hfile.
    pose proof (Index_needs_session w env (census is_scrape_step 0)
                  ltac:(apply census_stable; reflexivity)
                  ltac:(apply census_stable; reflexivity)
                  (initial fs) (conj eq_refl Hfile)) as Hrun.
    destruct (Index.main w env (initial fs)) as [[u|e] st']; [destruct Hrun |].
    split; [exists e; reflexivity | exact Hrun].
Qed.

Lemma login_precedes_scraping_witness :
  (scrapes_follow
     (login_steps (MS_PASSWORD Scenario.env) (MsAuth.session_path Scenario.env))
     (snd (Scraper.main (Fixture.signed_out (fun _ => false)) Scenario.env
             (initial Scenario.with_session))) /\
   census is_scrape_step 2
     (snd (Scraper.main (Fixture.signed_out (fun _ => false)) Scenario.env
             (initial Scenario.with_session)))) /\
  (exists e, fst (Index.main (Fixture.signed_out (fun _ => false)) Scenario.env
                    (initial ∅)) = Throw e) /\
  census is_scrape_step 0
    (snd (Index.main (Fixture.signed_out (fun _ => false)) Scenario.env (initial ∅))).
Proof.
  destruct (login_precedes_scraping (Fixture.signed_out (fun _ => false))
              Scenario.env Scenario.with_session) as (Hscraper & _ & _).
  destruct (login_precedes_scraping (Fixture.signed_out (fun _ => false))
              Scenario.env ∅) as (_ & _ & Hindex).
  split.
  - split; [apply Hscraper; reflexivity | vm_compute; reflexivity].
  - apply Hindex. reflexivity.
Defined.

(* ===================================================================== *)
(** * The credentials of the replay                                       *)
(* ===================================================================== *)

Lemma replaying_on_trace email password t auth :
  on_trace (replaying email password t auth).
Proof. intros st fs H. exact H. Qed.

Lemma on_behalf_of_stable auth e :
  is_create e = false -> stable (on_behalf_of auth) e.
Proof.
  intros He st H. unfold on_behalf_of, created, push in *. cbn [trace].
  rewrite List.filter_app. cbn [List.filter]. rewrite He, app_nil_r. exact H.
Qed.

Lemma login_at_stable email password t e : stable (login_at email password t) e.
Proof. intros st H. unfold login_at, push. cbn [trace]. apply lookup_app_l_Some, H. Qed.

Lemma replaying_stable email password t auth e :
  is_post e = false -> stable (replaying email password t auth) e.
Proof.
  intros He st (Hone & Hat & Hall).
  assert (is_login_post e = false /\ is_create e = false) as [Hl Hc].
  { destruct e; try discriminate He; split; reflexivity. }
  split; [apply census_stable; assumption |].
  split; [apply login_at_stable, Hat | apply on_behalf_of_stable; assumption].
Qed.

Lemma replaying_create email password t auth name detail :
  stable (replaying email password t auth)
    (Post (CreateTemplate ("Bearer " +:+ to_string (ZubuApi.accessToken auth))
             name detail (ZubuApi.tenant_id auth))).
Proof.
  intros st (Hone & Hat & Hall).
  split; [apply census_stable; [reflexivity | exact Hone] |].
  split; [apply login_at_stable, Hat |].
  unfold on_behalf_of, created, push in *. cbn [trace].
  rewrite List.filter_app. cbn [List.filter is_create].
  apply Forall_app. split; [exact Hall |].
  constructor; [| constructor]. exists name, detail. reflexivity.
Qed.

Lemma unauthenticated_flow w email password st :
  unauthenticated st -> credentials_flow w email password st.
Proof.
  intros [Hl Hc]. unfold census in *. split; [rewrite Hl; lia |].
  left. unfold created. destruct (List.filter is_create (trace st)); [reflexivity | discriminate Hc].
Qed.

Lemma refused_flow w email password st :
  census is_login_post 1 st -> census is_create 0 st ->
  credentials_flow w email password st.
Proof.
  intros Hl Hc. unfold census in *. split; [rewrite Hl; lia |].
  left. unfold created. destruct (List.filter is_create (trace st)); [reflexivity | discriminate Hc].
Qed.

Lemma replaying_flow w email password t st :
  replaying email password t (login_result (http w t (AuthenticateUser email password))) st ->
  credentials_flow w email password st.
Proof.
  intros (Hone & Hat & Hall). split; [unfold census in Hone; rewrite Hone; lia |].
  right. exists t. split; assumption.
Qed.

Ltac recount :=
  unfold census in *; cbn [trace];
  rewrite ?List.filter_app, ?length_app; cbn; lia.

(** [authenticateUser] returns what the reply to its one call holds. *)
Lemma authenticateUser_hands_over w email password :
  hoare unauthenticated (ZubuApi.authenticateUser w email password)
        (fun auth st =>
           exists t, replaying email password t auth st /\
                     auth = login_result (http w t (AuthenticateUser email password)))
        (fun _ st => census is_login_post 1 st /\ census is_create 0 st).
Proof.
  intros st [Hl Hc]. run.
  destruct (http w (length (trace st)) (AuthenticateUser email password))
    as [[[responseBody|]]|] eqn:Hr;
    cbn beta iota delta [trace files fst snd body]; try (split; recount).
  destruct (auth_rejected (Replies {| body := Some responseBody |})) eqn:Hrej.
  - rewrite (no_payload_throws _ _ Hrej). split; recount.
  - destruct (payload_readable responseBody "accessToken" Hrej) as [v1 H1].
    destruct (payload_readable responseBody "refreshToken" Hrej) as [v2 H2].
    destruct (payload_readable responseBody "userId" Hrej) as [v3 H3].
    destruct (payload_readable responseBody "tenant_id" Hrej) as [v4 H4].
    rewrite H1, H2, H3, H4. cbn beta iota delta [trace files fst snd].
    exists (length (trace st)). rewrite Hr. unfold login_result, login_field.
    rewrite H1, H2, H3, H4. split; [| reflexivity].
    split; [recount |]. split.
    + unfold login_at. cbn [trace]. apply list_lookup_middle. reflexivity.
    + unfold on_behalf_of, created, census in *. cbn [trace].
      rewrite List.filter_app. cbn [List.filter is_create].
      destruct (List.filter is_create (trace st)); [constructor | discriminate Hc].
Qed.

Ltac credentials_side :=
  first [ apply replaying_on_trace
        | apply replaying_stable; reflexivity
        | apply replaying_create ].

Lemma Migrator_credentials_flow w env :
  hoare unauthenticated (Migrator.main w env)
        (fun _ => credentials_flow w (ZUBU_USERNAME env) (ZUBU_PASSWORD env))
        (fun _ => credentials_flow w (ZUBU_USERNAME env) (ZUBU_PASSWORD env)).
Proof.
  unfold Migrator.main.
  do 3 (eapply hoare_bind;
        [ apply (keeps_to unauthenticated unauthenticated);
          [ preserve ltac:(apply stable_both; apply census_stable; reflexivity)
          | auto | intros ? ?; apply unauthenticated_flow ]
        | intros ? ]).
  eapply hoare_bind.
  { eapply hoare_weaken;
      [apply authenticateUser_hands_over | auto | intros ? ? H; exact H |].
    intros ? ? [Hl Hc]. apply refused_flow; assumption. }
  intros auth st (t & Hreplaying & ->).
  refine (keeps_to (replaying _ _ t _) _ _ _ _ _ _ st Hreplaying).
  - unfold Migrator.replay_templates, Migrator.replay_communications.
    preserve credentials_side.
  - apply replaying_flow.
  - intros ?. apply replaying_flow.
Qed.

(** X12. The replay logs in at most once, and every template it creates
    is created with the access token and for the tenant that the reply
    to that one login handed over: no call is made with another token,
    and the token is never refreshed. *)
Theorem replay_uses_the_login_credentials (w : World) (env : Env)
    (fs : gmap string string) :
  credentials_flow w (ZUBU_USERNAME env) (ZUBU_PASSWORD env)
    (snd (Migrator.main w env (initial fs))).
Proof.
  pose proof (Migrator_credentials_flow w env (initial fs)) as Hrun.
  destruct (Migrator.main w env (initial fs)) as [[u|e] st']; apply Hrun;
    split; reflexivity.
Qed.

(* ===================================================================== *)
(** * What the replay reads                                               *)
(* ===================================================================== *)

Lemma preserves_for_of_in {A S} (I : State -> Prop) (xs : list A) (s : S)
    (body : S -> A -> M S) :
  (forall s x, In x xs -> preserves I (body s x)) -> preserves I (for_of xs s body).
Proof.
  revert s. induction xs as [|x xs IH]; intros s Hb; cbn [for_of].
  - apply preserves_ret.
  - apply preserves_bind; [apply Hb; left; reflexivity |].
    intros s'. apply IH. intros s0 y Hy. apply Hb. right. exact Hy.
Qed.

Lemma reads_within_stable allowed e :
  match e with ReadFile path => allowed path | _ => True end ->
  stable (reads_within allowed) e.
Proof.
  intros He st H path Hin. unfold push in Hin. cbn [trace] in Hin.
  apply in_app_or in Hin. destruct Hin as [Hin | [Heq | []]]; [apply H, Hin |].
  rewrite Heq in He. exact He.
Qed.

Lemma reads_within_on_trace allowed : on_trace (reads_within allowed).
Proof. intros st fs H. exact H. Qed.

Ltac reads_side :=
  first [ apply reads_within_on_trace
        | apply reads_within_stable; first [exact I | assumption] ].

Lemma replay_file_reads_itself w auth allowed file :
  allowed (Migrator.exportsDir +:+ "/" +:+ file) ->
  preserves (reads_within allowed) (Migrator.replay_file w auth file).
Proof. intros Hfile. unfold Migrator.replay_file. preserve reads_side. Qed.

(** The listing handed to the caller is the listing of the directory
    at the time of the call. *)
Lemma readdirSync_lists w (I : State -> Prop) path :
  stable I (ReadDir path) ->
  hoare I (readdirSync w path)
        (fun listing st => I st /\ exists t, listing = readdir w t path)
        (fun _ => I).
Proof.
  intros Hst st H. run. destruct (completes w (length (trace st)) (ReadDir path)).
  - split; [apply Hst, H | eexists; reflexivity].
  - apply Hst, H.
Qed.

Lemma replay_communications_reads_matches w auth :
  preserves (reads_within (replay_source w)) (Migrator.replay_communications w auth).
Proof.
  unfold Migrator.replay_communications.
  apply preserves_bind; [preserve reads_side | intros ?].
  eapply hoare_bind.
  { apply readdirSync_lists, reads_within_stable. exact I. }
  intros listing st [H [t ->]]. revert st H.
  apply preserves_bind; [| intros ?; preserve reads_side].
  unfold for_each. apply preserves_for_of_in. intros _ file Hin.
  apply List.filter_In in Hin. destruct Hin as [Hin Hmatch].
  apply replay_file_reads_itself. right. exists t, file. auto.
Qed.

Lemma Migrator_reads_exports w env :
  preserves (reads_within (replay_source w)) (Migrator.main w env).
Proof.
  unfold Migrator.main.
  do 4 (apply preserves_bind; [preserve reads_side | intros ?]).
  apply preserves_bind.
  { unfold Migrator.replay_templates.
    apply preserves_bind; [preserve reads_side | intros ?].
    apply preserves_bind; [| intros ?; preserve reads_side].
    unfold read_json.
    apply preserves_bind; [| intros ?; preserve reads_side].
    apply preserves_emit, reads_within_stable. left. reflexivity. }
  intros ?. apply preserves_bind; [apply replay_communications_reads_matches |].
  intros ?. preserve reads_side.
Qed.

Lemma writes_within_stable allowed e :
  match e with WriteFile path _ => allowed path | _ => True end ->
  stable (writes_within allowed) e.
Proof.
  intros He st H path content Hin. unfold push in Hin. cbn [trace] in Hin.
  apply in_app_or in Hin. destruct Hin as [Hin | [Heq | []]]; [apply (H _ _ Hin) |].
  rewrite Heq in He. exact He.
Qed.

Lemma writes_within_on_trace allowed : on_trace (writes_within allowed).
Proof. intros st fs H. exact H. Qed.

Lemma export_case_writes_replayable w env c :
  preserves (writes_within replayable) (Scraper.export_case w env c).
Proof.
  unfold Scraper.export_case.
  preserve ltac:(first [ apply writes_within_on_trace
                       | apply writes_within_stable;
                         first [ exact I | eexists; split; reflexivity ] ]).
Qed.

(** X13. The replay reads back what the scraper exported, and nothing
    else: the templates file under the name the scraper wrote it, and
    those entries of the exports directory whose name starts with
    [communication].  Whatever file the scraper writes for a case passes
    this filter, whatever the case id; the templates file does not. *)
Theorem replay_reads_only_exports (w : World) (env : Env) (fs : gmap string string) :
  reads_within (replay_source w) (snd (Migrator.main w env (initial fs))) /\
  (forall c st,
     writes_within replayable st ->
     writes_within replayable (snd (Scraper.export_case w env c st))) /\
  ~ replayable Scraper.exportPath.
Proof.
  split; [| split].
  - pose proof (Migrator_reads_exports w env (initial fs)) as Hrun.
    destruct (Migrator.main w env (initial fs)) as [[u|e] st']; apply Hrun;
      intros path [].
  - intros c st H.
    pose proof (export_case_writes_replayable w env c st H) as Hrun.
    destruct (Scraper.export_case w env c st) as [[u|e] st']; exact Hrun.
  - intros (name & Hpath & Hmatch). vm_compute in Hpath.
    injection Hpath as <-. discriminate Hmatch.
Qed.

(* ===================================================================== *)
(** * The templates, row by row                                           *)
(* ===================================================================== *)

Lemma scrape_row_appends w templates row st scraped :
  fst (Templates.scrape_row w templates row st) = Ok scraped ->
  exists whole,
    scraped = templates ++ [whole] /\
    length (trace (snd (Templates.scrape_row w templates row st)))
      = (length (trace st) + 12)%nat /\
    response w (length (trace st) + 3) TemplateDetailPattern = delivers whole.
Proof.
  replace (length (trace st) + 3)%nat with (S (S (S (length (trace st))))) by lia.
  run. split_calls; cbn beta iota delta [trace fst snd]; intros H;
    try discriminate H.
  injection H as <-. eexists. split; [reflexivity |].
  split; [rewrite !last_length; lia | reflexivity].
Qed.

Lemma scrape_rows_append w rows :
  forall templates st scraped,
    fst (for_of rows templates (Templates.scrape_row w) st) = Ok scraped ->
    exists new,
      scraped = templates ++ new /\ length new = length rows /\
      forall i whole, new !! i = Some whole ->
        response w (length (trace st) + 3 + 12 * i) TemplateDetailPattern
          = delivers whole.
Proof.
  induction rows as [|row rows IH]; intros templates st scraped; cbn [for_of].
  - intros H. injection H as <-. exists []. rewrite app_nil_r.
    split; [reflexivity |]. split; [reflexivity |]. intros i whole Hi. discriminate Hi.
  - unfold bind at 1.
    pose proof (scrape_row_appends w templates row st) as Hrow.
    destruct (Templates.scrape_row w templates row st) as [[templates1|e] st1];
      cbn [fst snd] in *; [| discriminate].
    destruct (Hrow templates1 eq_refl) as (whole & -> & Hlen & Hresp).
    intros Hrest. destruct (IH _ _ _ Hrest) as (new & -> & Hnew & Hlater).
    exists (whole :: new). rewrite <- app_assoc.
    split; [reflexivity |]. split; [cbn [length]; rewrite Hnew; reflexivity |].
    intros [|i] found Hi.
    + injection Hi as <-. rewrite <- Hresp. f_equal. lia.
    + rewrite <- (Hlater i found Hi). f_equal. lia.
Qed.

Lemma scrapeTemplates_logs_no_error w kept :
  preserves (selected is_console_error kept) (Templates.scrapeTemplates w).
Proof.
  unfold Templates.scrapeTemplates, Templates.scrape_row, response_truthy.
  preserve selected_side.
Qed.

(** X14. [scrapeTemplates] drops nothing and reorders nothing.  It logs
    no error, so the branch that reports a failed scrape of a row is
    never taken; and when it returns, it returns one entry per row
    listed, entry [i] being the whole body of the response awaited for
    row [i]. *)
Theorem scrapeTemplates_keeps_row_order (w : World) (st : State) :
  List.filter is_console_error (trace (snd (Templates.scrapeTemplates w st)))
    = List.filter is_console_error (trace st) /\
  forall templates,
    fst (Templates.scrapeTemplates w st) = Ok templates ->
    length templates = row_count w (length (trace st)) /\
    forall i whole, templates !! i = Some whole ->
      response w (detail_armed_at (length (trace st)) i) TemplateDetailPattern
        = delivers whole.
Proof.
  split.
  - pose proof (scrapeTemplates_logs_no_error w _ st eq_refl) as Hrun.
    destruct (Templates.scrapeTemplates w st) as [[u|e] st']; exact Hrun.
  - intros templates.
    unfold Templates.scrapeTemplates, locator_all, console_log, bind, now, emit, ret.
    cbn beta iota.
    pose proof (scrape_rows_append w (seq 0 (row_count w (length (trace st)))) []
                  (push (LocatorAll Templates.details_row) st)) as Hrows.
    destruct (for_of (seq 0 (row_count w (length (trace st)))) []
                (Templates.scrape_row w) (push (LocatorAll Templates.details_row) st))
      as [[scraped|e] st1]; cbn [fst snd] in *; [| discriminate].
    destruct (Hrows scraped eq_refl) as (new & -> & Hlen & Hlater).
    cbn [fst]. intros H. injection H as <-.
    cbn [app]. split; [rewrite Hlen; apply length_seq |].
    intros i whole Hi. rewrite <- (Hlater i whole Hi).
    unfold detail_armed_at, push. cbn [trace]. rewrite last_length. f_equal. lia.
Qed.

Lemma scrapeTemplates_keeps_row_order_witness :
  exists templates,
    fst (Templates.scrapeTemplates Scenario.detailed (initial ∅)) = Ok templates /\
    length templates = 2%nat /\
    templates !! 1%nat = Some Scenario.second_template.
Proof.
  destruct (scrapeTemplates_keeps_row_order Scenario.detailed (initial ∅)) as [_ Hall].
  exists [Scenario.second_template; Scenario.second_template].
  destruct (Hall [Scenario.second_template; Scenario.second_template] eq_refl)
    as [Hlen _].
  split; [reflexivity |]. split; [exact Hlen | reflexivity].
Defined.

Lemma replay_reads_only_exports_witness :
  writes_within replayable
    (snd (Scraper.export_case Scenario.mocked_communications Scenario.env
            (Some Scenario.case_one) (initial ∅))).
Proof.
  destruct (replay_reads_only_exports Scenario.mocked_communications Scenario.env ∅)
    as (_ & Hwrites & _).
  apply Hwrites. intros path content [].
Defined.

(* ===================================================================== *)
(** * The welcome dialog                                                  *)
(* ===================================================================== *)

Lemma goto_needs_popup w env :
  (forall t, completes w t (Click get_started_button) = false) ->
  hoare (census scrapes_or_writes 0) (Templates.goto w env)
        (fun _ _ => False) (fun _ => census scrapes_or_writes 0).
Proof.
  intros Hpopup st H. unfold Templates.goto, Templates.handlePopup.
  unfold page at 1. unfold call, bind at 1 2 3. unfold now, emit. cbn beta iota.
  destruct (completes w (length (trace st)) _);
    [| apply census_stable; [reflexivity | exact H]].
  unfold ret, bind at 1, console_log at 1, emit. cbn beta iota.
  unfold bind at 1 2, page at 1, call, bind at 1 2, now, emit. cbn beta iota.
  fold get_started_button. rewrite Hpopup. unfold throw.
  repeat (apply census_stable; [reflexivity |]). exact H.
Qed.

Lemma Scraper_needs_popup w env :
  (forall t, completes w t (Click get_started_button) = false) ->
  hoare (census scrapes_or_writes 0) (Scraper.main w env)
        (fun _ _ => False) (fun _ => census scrapes_or_writes 0).
Proof.
  intros Hpopup. set (I := census scrapes_or_writes 0). unfold Scraper.main.
  do 6 (eapply hoare_bind;
        [apply (keeps_to I I); [preserve quiet_side | auto | auto] | intros ?]).
  cbn beta iota zeta.
  do 2 (eapply hoare_bind;
        [apply (keeps_to I I); [preserve quiet_side | auto | auto] | intros ?]).
  eapply hoare_bind; [apply goto_needs_popup, Hpopup | intros ?; apply hoare_false].
Qed.

Lemma Index_needs_popup w env :
  (forall t, completes w t (Click get_started_button) = false) ->
  hoare (census scrapes_or_writes 0) (Index.main w env)
        (fun _ _ => False) (fun _ => census scrapes_or_writes 0).
Proof.
  intros Hpopup. set (I := census scrapes_or_writes 0). unfold Index.main.
  do 5 (eapply hoare_bind;
        [apply (keeps_to I I); [preserve quiet_side | auto | auto] | intros ?]).
  eapply hoare_bind; [apply goto_needs_popup, Hpopup | intros ?; apply hoare_false].
Qed.

Lemma nothing_scraped_or_written st :
  census scrapes_or_writes 0 st -> census is_scrape_step 0 st /\ written st = [].
Proof.
  intros H. destruct (census_split _ _ st H) as [Hscrape Hwrite].
  split; [exact Hscrape |]. unfold written, census in *.
  destruct (List.filter is_write (trace st)); [reflexivity | discriminate Hwrite].
Qed.

(** X15. The welcome dialog is not optional.  [handlePopup] clicks
    [Get started] outside any [try]: where that button cannot be
    clicked, for instance because the dialog was dismissed in an earlier
    session, both entry points end in an exception, before any step of a
    scrape and without writing an export. *)
Theorem missing_popup_ends_the_run (w : World) (env : Env) (fs : gmap string string) :
  (forall t, completes w t (Click get_started_button) = false) ->
  ((exists e, fst (Scraper.main w env (initial fs)) = Throw e) /\
   census is_scrape_step 0 (snd (Scraper.main w env (initial fs))) /\
   written (snd (Scraper.main w env (initial fs))) = []) /\
  ((exists e, fst (Index.main w env (initial fs)) = Throw e) /\
   census is_scrape_step 0 (snd (Index.main w env (initial fs))) /\
   written (snd (Index.main w env (initial fs))) = []).
Proof.
  intros Hpopup. split.
  - pose proof (Scraper_needs_popup w env Hpopup (initial fs) eq_refl) as Hrun.
    destruct (Scraper.main w env (initial fs)) as [[u|e] st']; [destruct Hrun |].
    split; [exists e; reflexivity | apply nothing_scraped_or_written, Hrun].
  - pose proof (Index_needs_popup w env Hpopup (initial fs) eq_refl) as Hrun.
    destruct (Index.main w env (initial fs)) as [[u|e] st']; [destruct Hrun |].
    split; [exists e; reflexivity | apply nothing_scraped_or_written, Hrun].
Qed.

Lemma missing_popup_ends_the_run_witness :
  (exists e, fst (Scraper.main no_welcome_dialog Scenario.env (initial Scenario.with_session)) = Throw e) /\
  census is_scrape_step 0 (snd (Scraper.main no_welcome_dialog Scenario.env (initial Scenario.with_session))) /\
  written (snd (Scraper.main no_welcome_dialog Scenario.env (initial Scenario.with_session))) = [].
Proof.
  assert (Hpopup : forall t, completes no_welcome_dialog t (Click get_started_button) = false)
    by (intros t; reflexivity).
  destruct (missing_popup_ends_the_run no_welcome_dialog Scenario.env Scenario.with_session Hpopup)
    as [Hscraper _].
  exact Hscraper.
Defined.

(* ===================================================================== *)
(** * Closing the browser                                                 *)
(* ===================================================================== *)

Lemma browser_closes_last w :
  hoare left_open (page w BrowserClose)
        (fun _ => closed_last) (fun _ st => left_open st \/ closed_last st).
Proof.
  intros st H. unfold page, call, bind, now, emit, ret, throw. cbn beta iota.
  destruct (completes w (length (trace st)) BrowserClose);
    [| right]; unfold closed_last, push; cbn [trace]; apply last_snoc.
Qed.

(** Everything before the last call leaves the browser as it is. *)
Ltac stays_open :=
  repeat (cbn beta zeta;
          lazymatch goal with
          | |- hoare _ (bind _ _) _ _ =>
              eapply hoare_bind;
              [ apply (keeps_to left_open left_open);
                [ preserve quiet_side | auto | intros ? ? H; left; exact H ]
              | intros ? ]
          end);
  cbn beta zeta; apply browser_closes_last.

Lemma Scraper_browser_fate w env :
  hoare left_open (Scraper.main w env)
        (fun _ => closed_last) (fun _ st => left_open st \/ closed_last st).
Proof. unfold Scraper.main. stays_open. Qed.

Lemma Index_browser_fate w env :
  hoare left_open (Index.main w env)
        (fun _ => closed_last) (fun _ st => left_open st \/ closed_last st).
Proof. unfold Index.main. stays_open. Qed.

Lemma Migrator_browser_fate w env :
  hoare left_open (Migrator.main w env)
        (fun _ => closed_last) (fun _ st => left_open st \/ closed_last st).
Proof. unfold Migrator.main. stays_open. Qed.

Lemma fate_of_run {A} (m : M A) fs :
  hoare left_open m (fun _ => closed_last) (fun _ st => left_open st \/ closed_last st) ->
  browser_fate (m (initial fs)).
Proof.
  intros H. specialize (H (initial fs) eq_refl). unfold browser_fate.
  destruct (m (initial fs)) as [[u|e] st']; exact H.
Qed.

(** X16. No entry point guards its browser with a [finally].  A run
    that returns has closed the browser with its very last call; a run
    that throws has not asked for the browser to be closed at all,
    unless the exception comes from that closing call itself. *)
Theorem failed_run_leaves_browser_open (w : World) (env : Env)
    (fs : gmap string string) :
  browser_fate (Scraper.main w env (initial fs)) /\
  browser_fate (Index.main w env (initial fs)) /\
  browser_fate (Migrator.main w env (initial fs)).
Proof.
  split; [| split]; apply fate_of_run.
  - apply Scraper_browser_fate.
  - apply Index_browser_fate.
  - apply Migrator_browser_fate.
Qed.

(* ===================================================================== *)
(** * The error log                                                       *)
(* ===================================================================== *)

Lemma append_assoc (a b c : string) : (a +:+ b) +:+ c = a +:+ (b +:+ c).
Proof.
  induction a as [|x a IH]; [reflexivity |].
  change (String x ((a +:+ b) +:+ c) = String x (a +:+ (b +:+ c))).
  f_equal. exact IH.
Qed.

Lemma append_empty (a : string) : a +:+ EmptyString = a.
Proof.
  induction a as [|x a IH]; [reflexivity |].
  change (String x (a +:+ EmptyString) = String x a). f_equal. exact IH.
Qed.

Lemma log_extends_stable old e : stable (log_extends old) e.
Proof. intros st H. exact H. Qed.

Lemma log_extends_set_file old p c :
  resolve p <> Communications.logFilePath ->
  preserves (log_extends old) (set_file p c).
Proof.
  intros Hp st [suffix H]. exists suffix. unfold set_file. cbn [snd files].
  rewrite lookup_insert_ne; [exact H | exact Hp].
Qed.

(** Appending keeps what the log held, whether or not the write
    succeeds. *)
Lemma appendFile_extends w old text callback :
  (forall failed, preserves (log_extends old) (callback failed)) ->
  preserves (log_extends old) (appendFile w Communications.logFilePath text callback).
Proof.
  intros Hcb. unfold appendFile.
  apply preserves_bind; [apply preserves_now | intros t].
  apply preserves_bind; [apply preserves_emit, log_extends_stable | intros ?].
  cbn zeta. apply preserves_bind.
  - destruct (completes w t _); [| apply preserves_ret].
    intros st [suffix H]. unfold bind, get_file, set_file. cbn beta iota.
    exists (suffix +:+ text). cbn [files].
    change (resolve Communications.logFilePath) with Communications.logFilePath.
    rewrite lookup_insert_eq, H.
    change (Some ((old +:+ suffix) +:+ text) = Some (old +:+ (suffix +:+ text))).
    f_equal. apply append_assoc.
  - intros ?. destruct (settles w t); [apply Hcb | apply preserves_ret].
Qed.

Ltac other_file :=
  apply log_extends_set_file; intros Heq; vm_compute in Heq; discriminate Heq.

Ltac log_kept := keep ltac:(apply log_extends_stable) other_file.

Lemma scrapeCommunications_extends_log w env c old :
  preserves (log_extends old) (Communications.scrapeCommunications w env c).
Proof.
  unfold Communications.scrapeCommunications.
  apply preserves_try; [log_kept | intros error].
  apply preserves_bind; [log_kept | intros ?].
  apply preserves_bind; [| intros ?; apply preserves_ret].
  unfold Communications.logError.
  apply preserves_bind; [log_kept | intros ?].
  apply preserves_bind; [apply preserves_now | intros t]. cbn zeta.
  apply appendFile_extends. intros []; log_kept.
Qed.

Lemma export_case_extends_log w env c old :
  preserves (log_extends old) (Scraper.export_case w env c).
Proof.
  unfold Scraper.export_case.
  do 3 (apply preserves_bind; [log_kept | intros ?]).
  apply preserves_bind; [apply scrapeCommunications_extends_log | intros ?].
  log_kept.
Qed.

Lemma Scraper_extends_log w env old :
  preserves (log_extends old) (Scraper.main w env).
Proof.
  unfold Scraper.main.
  repeat (cbn beta zeta;
          lazymatch goal with
          | |- preserves _ (bind (for_each _ _) _) =>
              apply preserves_bind;
              [ unfold for_each; apply preserves_for_of; intros ? ?;
                apply export_case_extends_log
              | intros ? ]
          | |- preserves _ (bind _ _) =>
              apply preserves_bind; [log_kept | intros ?]
          end).
  cbn beta zeta. log_kept.
Qed.

(** X17. The error log is append-only.  Whatever a scraping run does,
    and however often [logError] is reached, the log still starts with
    what it held before the run; the exports, by contrast, are written
    anew. *)
Theorem error_log_only_grows (w : World) (env : Env) (fs : gmap string string)
    (old : string) :
  fs !! Communications.logFilePath = Some old ->
  log_extends old (snd (Scraper.main w env (initial fs))).
Proof.
  intros Hold.
  assert (Hstart : log_extends old (initial fs)).
  { exists EmptyString. cbn [initial files]. rewrite Hold, append_empty. reflexivity. }
  pose proof (Scraper_extends_log w env old (initial fs) Hstart) as Hrun.
  destruct (Scraper.main w env (initial fs)) as [[u|e] st']; exact Hrun.
Qed.

Lemma error_log_only_grows_witness :
  log_extends "2024-12-31T00:00:00.000Z - earlier failure"
    (snd (Scraper.main communications_missing Scenario.env (initial earlier_log))) /\
  fst (Scraper.main communications_missing Scenario.env (initial earlier_log)) = Ok tt /\
  exists entry,
    appended (snd (Scraper.main communications_missing Scenario.env (initial earlier_log)))
      = [AppendFile "error_log.txt" entry] /\
    files (snd (Scraper.main communications_missing Scenario.env (initial earlier_log)))
      !! "error_log.txt"
      = Some ("2024-12-31T00:00:00.000Z - earlier failure" +:+ entry).
Proof.
  split.
  - apply (error_log_only_grows communications_missing Scenario.env earlier_log).
    reflexivity.
  - split; [vm_compute; reflexivity |].
    eexists. split; vm_compute; reflexivity.
Defined.
